(** * Chaudhary English Quiz: scoring, session, leaderboard, gamification

    A shallow embedding of the quiz-attempt core of the application
    (the React component [App] and its helper functions) together with
    the properties of its scoring function, its timed session, its
    leaderboard and its badges.

    Conventions of the embedding.
    - JavaScript strings are [string]s; a character outside ASCII
      takes the bytes of its UTF-8 form.  The component compares
      strings, tests them for emptiness and concatenates them, which
      goes byte by byte.  The two built-in methods whose result
      depends on the Unicode properties of characters, [trim] and
      [toLowerCase], are the methods of the class [StringMethods]: the
      component is embedded over every implementation of them, and
      every theorem is proved for every implementation.  Examples are
      evaluated with [asciiStrings], which is the two methods on texts
      written in ASCII.
    - JavaScript numbers that hold counts ([score], [total]) are [nat];
      option indices, durations, remaining seconds and millisecond
      time stamps are [Z].
    - A property that may be [undefined] is an [option].
    - [Array.prototype.sort] is a stable sort; it is modelled by a
      stable insertion sort driven by the comparator of the source.
    - [Set<string>] is a [gset string].
    - React state is a record; every handler is a function from the
      state before to the state after.  Outcomes of the asynchronous
      calls to the store ([addDoc], [updateDoc]) and the clock
      ([Date.now()]) are read from an explicit environment.  A handler
      with an [await] is given twice: as one step that meets the
      answer of the store at once, and split into the call and the
      rest that runs when the store answers, with the component live
      in between. *)

From stdpp Require Import base list strings gmap pretty sorting.
From Stdlib Require Import Ascii ZArith Lia.

Local Open Scope Z_scope.

(** ** JavaScript strings *)

(** The methods of [String.prototype] that the component calls on
    student names.  ECMA-262 defines them on all of Unicode: [trim]
    removes the leading and trailing white space and line terminators
    (U+0009 to U+000D, U+0020, U+00A0, U+FEFF, U+2028, U+2029 and the
    space separators), [toLowerCase] replaces every character by its
    lowercase form.  Of [trim] only one fact is used, that it leaves
    the empty string empty; of [toLowerCase] that it yields the empty
    string for the empty string and for no other. *)
Class StringMethods := {
  trim : string -> string;
  toLowerCase : string -> string;
  trim_empty : trim "" = "";
  toLowerCase_empty : toLowerCase "" = "";
  toLowerCase_nonempty : forall s : string, toLowerCase s = "" -> s = ""
}.

(** [!s] on a string: the empty string is the only falsy one. *)
Definition isEmpty (s : string) : bool :=
  match s with EmptyString => true | _ => false end.

(** The character ["-"] does not occur in the string. *)
Fixpoint dashFree (s : string) : bool :=
  match s with
  | EmptyString => true
  | String c s' => negb (Ascii.eqb c "-") && dashFree s'
  end.

(** The two methods on texts written in ASCII: there the white space
    and line terminators are tab, LF, VT, FF, CR and the space, and
    the letters with a lowercase form are A to Z.  Characters outside
    ASCII are left alone, so for other texts this is not the method of
    the language; it serves to evaluate the examples, whose strings
    are all ASCII. *)
Module AsciiText.

Definition isWhiteSpace (c : ascii) : bool :=
  let n := N_of_ascii c in
  ((9 <=? n) && (n <=? 13) || (n =? 32))%N.

Definition lowerChar (c : ascii) : ascii :=
  let n := N_of_ascii c in
  if ((65 <=? n) && (n <=? 90))%N then ascii_of_N (n + 32) else c.

Fixpoint toLowerCase (s : string) : string :=
  match s with
  | EmptyString => EmptyString
  | String c s' => String (lowerChar c) (toLowerCase s')
  end.

Fixpoint trimStart (s : string) : string :=
  match s with
  | EmptyString => EmptyString
  | String c s' => if isWhiteSpace c then trimStart s' else s
  end.

Fixpoint trimEnd (s : string) : string :=
  match s with
  | EmptyString => EmptyString
  | String c s' =>
      let t := trimEnd s' in
      if isWhiteSpace c && isEmpty t then EmptyString else String c t
  end.

Definition trim (s : string) : string := trimEnd (trimStart s).

End AsciiText.

Global Instance asciiStrings : StringMethods.
Proof.
  refine {| trim := AsciiText.trim; toLowerCase := AsciiText.toLowerCase |}.
  - reflexivity.
  - reflexivity.
  - intros [|c s]; [reflexivity | discriminate].
Defined.

(** ** Data model (the [interface] declarations) *)

Inductive Difficulty := Easy | Medium | Hard.

Record Question := mkQuestion {
  text : string;
  options : list string;
  correctIndex : Z;
  explanation : option string
}.

Record Quiz := mkQuiz {
  quiz_id : string;
  title : string;
  subject : option string;
  difficulty : Difficulty;
  questions : list Question;
  durationMinutes : option Z;
  starts : option Z;
  createdAt : Z
}.

Record Result := mkResult {
  result_id : string;
  quizId : string;
  studentName : string;
  score : nat;
  total : nat;
  date : Z
}.

Inductive View :=
| landing | teacher_dash | teacher_create | teacher_notes
| teacher_leaderboard | student_dash | student_notes
| student_quiz | student_result.

Inductive ToastType := success | error | info.

Global Instance View_eq_dec : EqDecision View.
Proof. solve_decision. Defined.
Global Instance ToastType_eq_dec : EqDecision ToastType.
Proof. solve_decision. Defined.
Global Instance Result_eq_dec : EqDecision Result.
Proof. solve_decision. Defined.

(** The invariant of a question: [0 <= correctIndex < options.length]. *)
Definition valid_question (q : Question) : Prop :=
  0 <= correctIndex q < Z.of_nat (length (options q)).

Definition valid_quiz (quiz : Quiz) : Prop :=
  Forall valid_question (questions quiz).

(** ** Scoring (the loop of [submitQuiz]) *)

(** [answers[i] === q.correctIndex]; an index past the end of [answers]
    reads [undefined], which is equal to no number. *)
Definition answerMatches (answers : list Z) (i : nat) (q : Question) : bool :=
  match answers !! i with
  | Some a => a =? correctIndex q
  | None => false
  end.

(** [activeQuiz.questions.forEach((q, i) => { if (...) score++; })],
    with [i] the index of the iteration and [acc] the running [score]. *)
Fixpoint scoreLoop (answers : list Z) (i : nat) (qs : list Question)
    (acc : nat) : nat :=
  match qs with
  | [] => acc
  | q :: qs' =>
      scoreLoop answers (S i) qs'
        (if answerMatches answers i q then S acc else acc)
  end.

Definition computeScore (quiz : Quiz) (answers : list Z) : nat :=
  scoreLoop answers 0 (questions quiz) 0.

(** Question index [i] is answered correctly. *)
Definition correctAt (quiz : Quiz) (answers : list Z) (i : nat) : bool :=
  match questions quiz !! i with
  | Some q => answerMatches answers i q
  | None => false
  end.

(** The question indices of a quiz. *)
Definition questionIndices (quiz : Quiz) : list nat :=
  seq 0 (length (questions quiz)).

(** ** [Array.prototype.sort] *)

(** [sort] is stable and orders [a] before [b] when the comparator is
    negative on [(a, b)].  For a consistent comparator the outcome of a
    stable sort is unique, so a stable insertion sort models it: an
    element is placed in front of the first element of the sorted rest
    that it does not have to follow. *)
Section Sort.
Context {A : Type} (cmp : A -> A -> Z).

Fixpoint insertBy (x : A) (l : list A) : list A :=
  match l with
  | [] => [x]
  | y :: l' => if cmp x y <=? 0 then x :: l else y :: insertBy x l'
  end.

Definition sortBy (l : list A) : list A := foldr insertBy [] l.

(** The order the comparator stands for: [a] need not follow [b]. *)
Definition cmpLe (a b : A) : Prop := cmp a b <= 0.
End Sort.

(** [Array.prototype.findIndex]: the first index whose element passes,
    or [-1]. *)
Fixpoint findIndexFrom {A : Type} (p : A -> bool) (i : Z) (l : list A) : Z :=
  match l with
  | [] => -1
  | x :: l' => if p x then i else findIndexFrom p (i + 1) l'
  end.

Definition findIndex {A : Type} (p : A -> bool) (l : list A) : Z :=
  findIndexFrom p 0 l.

(** [Array.from(new Set(xs))]: the distinct values of [xs] in the order
    of their first occurrence. *)
Definition setAdd (acc : list Z) (x : Z) : list Z :=
  if decide (x ∈ acc) then acc else acc ++ [x].

Definition arrayFromSet (xs : list Z) : list Z := foldl setAdd [] xs.

(** ** The session: state of [App] and its handlers *)

Record App := mkApp {
  app_view : View;
  app_studentName : string;
  app_activeQuiz : option Quiz;
  app_answers : list Z;
  app_currentResult : option Result;
  app_timeLeft : Z;
  app_toast : option (string * ToastType);
  (** [localStorage.getItem("studentName")] *)
  app_savedName : option string;
  (** the documents written to the collection "results" *)
  app_written : list Result;
  (** the increments applied to the field [starts] of the documents of
      the collection "quizzes", by quiz id *)
  app_starts : gmap string nat
}.

Definition setView (v : View) (s : App) : App :=
  mkApp v (app_studentName s) (app_activeQuiz s) (app_answers s)
    (app_currentResult s) (app_timeLeft s) (app_toast s)
    (app_savedName s) (app_written s) (app_starts s).

Definition setActiveQuiz (q : option Quiz) (s : App) : App :=
  mkApp (app_view s) (app_studentName s) q (app_answers s)
    (app_currentResult s) (app_timeLeft s) (app_toast s)
    (app_savedName s) (app_written s) (app_starts s).

Definition setAnswers (a : list Z) (s : App) : App :=
  mkApp (app_view s) (app_studentName s) (app_activeQuiz s) a
    (app_currentResult s) (app_timeLeft s) (app_toast s)
    (app_savedName s) (app_written s) (app_starts s).

Definition setCurrentResult (r : option Result) (s : App) : App :=
  mkApp (app_view s) (app_studentName s) (app_activeQuiz s) (app_answers s)
    r (app_timeLeft s) (app_toast s) (app_savedName s) (app_written s) (app_starts s).

Definition setTimeLeft (t : Z) (s : App) : App :=
  mkApp (app_view s) (app_studentName s) (app_activeQuiz s) (app_answers s)
    (app_currentResult s) t (app_toast s) (app_savedName s) (app_written s) (app_starts s).

Definition showToast (message : string) (type : ToastType) (s : App) : App :=
  mkApp (app_view s) (app_studentName s) (app_activeQuiz s) (app_answers s)
    (app_currentResult s) (app_timeLeft s) (Some (message, type))
    (app_savedName s) (app_written s) (app_starts s).

Definition saveName (s : App) : App :=
  mkApp (app_view s) (app_studentName s) (app_activeQuiz s) (app_answers s)
    (app_currentResult s) (app_timeLeft s) (app_toast s)
    (Some (app_studentName s)) (app_written s) (app_starts s).

(** [updateDoc(doc(db, "quizzes", id), { starts: increment(1) })] *)
Definition incrementStarts (id : string) (s : App) : App :=
  mkApp (app_view s) (app_studentName s) (app_activeQuiz s) (app_answers s)
    (app_currentResult s) (app_timeLeft s) (app_toast s)
    (app_savedName s) (app_written s)
    (<[id := S (default 0%nat (app_starts s !! id))]> (app_starts s)).

Definition recordWrite (r : Result) (s : App) : App :=
  mkApp (app_view s) (app_studentName s) (app_activeQuiz s) (app_answers s)
    (app_currentResult s) (app_timeLeft s) (app_toast s)
    (app_savedName s) (app_written s ++ [r]) (app_starts s).

(** Outcome of [await addDoc(collection(db, "results"), resultData)]. *)
Inductive AddDocOutcome :=
| DocRef (id : string)
| Rejected (message : string).

Record Env := mkEnv {
  (** [Date.now()] *)
  dateNow : Z;
  addDoc : AddDocOutcome;
  (** whether [updateDoc(..., { starts: increment(1) })] resolves; its
      failure is caught and logged by [startQuiz] *)
  updateDocOk : bool
}.

(** [d || dflt] on a possibly undefined number: [undefined] and [0] are
    falsy. *)
Definition orDefault (d : option Z) (dflt : Z) : Z :=
  match d with
  | None => dflt
  | Some 0 => dflt
  | Some n => n
  end.

(** The reading of the specification, [d ?? dflt]: only an absent
    value takes the default. *)
Definition spec_nullishDefault (d : option Z) (dflt : Z) : Z :=
  match d with
  | None => dflt
  | Some n => n
  end.

Definition nameMissingMessage : string := "Please enter your name first.".

Section Component.
Context {js : StringMethods}.

(** [startQuiz], with the store answering at once (its split at the
    [await] is [startQuizCall] and [startQuizRest] below).
    [!studentName.trim()] holds exactly when the trimmed name is the
    empty string.  The awaited [updateDoc] sits in a [try]/[catch]
    that only logs: whether it resolves or not, the function goes on
    in the same way. *)
Definition startQuiz (env : Env) (quiz : Quiz) (s : App) : App :=
  if isEmpty (trim (app_studentName s)) then
    showToast nameMissingMessage error s
  else
    let s1 := if updateDocOk env then incrementStarts (quiz_id quiz) s
              else s in
    setView student_quiz
      (setTimeLeft (orDefault (durationMinutes quiz) 10 * 60)
        (setAnswers (replicate (length (questions quiz)) (-1))
          (setActiveQuiz (Some quiz) (saveName s1)))).

(** [submitQuiz], with the store answering at once (its split at the
    [await] is [submitQuizCall] and [submitQuizRest] below). *)
Definition submitQuiz (env : Env) (s : App) : App :=
  match app_activeQuiz s with
  | None => s
  | Some activeQuiz =>
      let points := computeScore activeQuiz (app_answers s) in
      match addDoc env with
      | DocRef id =>
          let r := mkResult id (quiz_id activeQuiz) (app_studentName s)
                     points (length (questions activeQuiz)) (dateNow env) in
          showToast "Quiz submitted successfully!" success
            (setView student_result
              (setCurrentResult (Some r) (recordWrite r s)))
      | Rejected message =>
          showToast ("Submission failed: " +:+ message) error s
      end
  end.

(** The callback of [setInterval]:
    [setTimeLeft(prev => prev <= 1 ? 0 : prev - 1)]. *)
Definition countDown (prev : Z) : Z := if prev <=? 1 then 0 else prev - 1.

(** The interval exists only while the first branch of the timer
    effect holds. *)
Definition timerRunning (s : App) : bool :=
  bool_decide (app_view s = student_quiz) && (0 <? app_timeLeft s).

(** The timer effect, run after a render in which [timeLeft] or [view]
    changed: with time left it (re)installs the interval, at zero with
    an active quiz it submits. *)
Definition timerEffect (env : Env) (s : App) : App :=
  if timerRunning s then s
  else if bool_decide (app_view s = student_quiz) && (app_timeLeft s =? 0)
          && bool_decide (is_Some (app_activeQuiz s))
  then submitQuiz env s
  else s.

Inductive Event :=
| EvStart (quiz : Quiz)          (* button "Start Quiz" *)
| EvTick                         (* the interval fires *)
| EvSelect (idx : nat) (optIdx : Z)   (* an option button *)
| EvSubmit                       (* button "Submit Quiz" *)
| EvQuit.                        (* back, confirmed *)

(** [answers.every(a => a !== -1)], the gate of the submit button. *)
Definition isFinished (s : App) : bool :=
  forallb (fun a => negb (a =? -1)) (app_answers s).

Definition handle (env : Env) (ev : Event) (s : App) : App :=
  match ev with
  | EvStart quiz => startQuiz env quiz s
  | EvTick =>
      if timerRunning s then setTimeLeft (countDown (app_timeLeft s)) s else s
  | EvSelect idx optIdx =>
      (* [n = [...answers]; n[idx] = optIdx]: the buttons are rendered
         per question, so [idx] lies within the answer set *)
      if bool_decide (app_view s = student_quiz)
      then setAnswers (<[idx := optIdx]> (app_answers s)) s else s
  | EvSubmit =>
      if bool_decide (app_view s = student_quiz) && isFinished s
      then submitQuiz env s else s
  | EvQuit =>
      if bool_decide (app_view s = student_quiz)
      then setView student_dash s else s
  end.

(** One event followed by the effects of the render it causes: the
    timer effect has the dependencies [[timeLeft, view]]. *)
Definition step (env : Env) (ev : Event) (s : App) : App :=
  let s' := handle env ev s in
  if bool_decide (app_timeLeft s' = app_timeLeft s ∧ app_view s' = app_view s)
  then s' else timerEffect env s'.

(** The interval firing once per environment of the list. *)
Definition ticks (envs : list Env) (s : App) : App :=
  foldl (fun st env => step env EvTick st) s envs.

Definition initialApp (name : string) : App :=
  mkApp student_dash name None [] None 0 None None [] ∅.

(** ** Leaderboard *)

(** The comparators handed to [sort]. *)
Definition byDateAsc (a b : Result) : Z := date a - date b.

Definition byScoreDesc (a b : Result) : Z :=
  Z.of_nat (score b) - Z.of_nat (score a).

Definition byScoreThenDate (a b : Result) : Z :=
  if decide (score b ≠ score a)
  then Z.of_nat (score b) - Z.of_nat (score a)
  else date a - date b.

(** The key of the source, a template string:
    [`${r.studentName.trim().toLowerCase()}-${r.score}`]. *)
Definition resultKey (r : Result) : string :=
  toLowerCase (trim (studentName r)) +:+ "-" +:+ pretty (score r).

(** The body of [quizResults.forEach], on the pair [(seen, uniqueResults)]. *)
Definition dedupStep (st : gset string * list Result) (r : Result)
    : gset string * list Result :=
  let key := resultKey r in
  if decide (key ∈ st.1) then st else ({[ key ]} ∪ st.1, st.2 ++ [r]).

Definition uniqueResults (quizResults : list Result) : list Result :=
  (foldl dedupStep (∅, []) quizResults).2.

(** [results.filter(r => r.quizId === quizId).sort((a, b) => a.date - b.date)] *)
Definition quizResultsByDate (results : list Result) (quiz : string)
    : list Result :=
  sortBy byDateAsc (filter (fun r => quizId r = quiz) results).

(** [getLeaderboard]; [results] is the state it closes over. *)
Definition getLeaderboard (results : list Result) (quiz : string)
    : list Result :=
  sortBy byScoreThenDate (uniqueResults (quizResultsByDate results quiz)).

(** The rows rendered from the leaderboard: [#{i + 1}] next to each
    entry. *)
Definition leaderboardRows (results : list Result) (quiz : string)
    : list (nat * Result) :=
  imap (fun i r => (S i, r)) (getLeaderboard results quiz).

(** *** The leaderboard in the words of the specification *)

(** Normalized name: trimmed and lowercased. *)
Definition normalizedName (name : string) : string :=
  toLowerCase (trim name).

(** Dedup key: the pair (normalized student name, score). *)
Definition dedupKey (r : Result) : string * nat :=
  (normalizedName (studentName r), score r).

(** Keep the first occurrence of every key and discard the later
    elements that carry the same key. *)
Fixpoint firstOccurrences {A K : Type} `{EqDecision K} (key : A -> K)
    (l : list A) : list A :=
  match l with
  | [] => []
  | x :: l' => x :: filter (fun y => key y ≠ key x) (firstOccurrences key l')
  end.

(** [a] is ranked no later than [b]: higher score first, equal scores
    by ascending time stamp. *)
Definition ranksBefore (a b : Result) : Prop :=
  (score b < score a)%nat ∨ (score a = score b ∧ date a <= date b).

Definition spec_leaderboard (results : list Result) (quiz : string)
    : list Result :=
  sortBy byScoreThenDate
    (firstOccurrences dedupKey
      (sortBy byDateAsc (filter (fun r => quizId r = quiz) results))).

(** ** Gamification helpers *)

(** [r.studentName.toLowerCase() === studentName.toLowerCase()] *)
Definition sameStudent (name : string) (r : Result) : bool :=
  bool_decide (toLowerCase (studentName r) = toLowerCase name).

(** [hasGrammarMaster] *)
Definition hasGrammarMaster (name : string) (allResults : list Result) : bool :=
  existsb (fun r => sameStudent name r && (score r =? total r)%nat) allResults.

(** The array [sorted] of [isTop3]. *)
Definition isTop3_sorted (quiz : string) (allResults : list Result)
    : list Result :=
  sortBy byScoreDesc (uniqueResults (quizResultsByDate allResults quiz)).

(** [isTop3] *)
Definition isTop3 (name : string) (quiz : string) (allResults : list Result)
    : bool :=
  let index := findIndex (sameStudent name) (isTop3_sorted quiz allResults) in
  negb (index =? -1) && (index <? 3).

(** [hasAnyTop3], computed by the student dashboard. *)
Definition hasAnyTop3 (name : string) (results : list Result) : bool :=
  existsb (fun r => sameStudent name r && isTop3 name (quizId r) results)
    results.

(** The badge in the words of the specification: some quiz attempted by
    the student has, within its first three ranks, an entry of the
    student, names compared after normalization. *)
Definition spec_top3 (name : string) (results : list Result) : Prop :=
  ∃ r, r ∈ results ∧ normalizedName (studentName r) = normalizedName name ∧
    ∃ (i : nat) (e : Result), (i < 3)%nat ∧
      getLeaderboard results (quizId r) !! i = Some e ∧
      normalizedName (studentName e) = normalizedName name.

(** *** Streak *)

Definition msPerDay : Z := 1000 * 60 * 60 * 24.

(** The local-time operations of [Date] that [calculateStreak] uses;
    they depend on the time zone of the host. *)
Record Zone := mkZone {
  (** [d = new Date(t); d.setHours(0,0,0,0); d.getTime()] *)
  startOfDay : Z -> Z;
  (** [y = new Date(m); y.setDate(y.getDate() - 1); y.getTime()], for
      [m] a local midnight *)
  previousDay : Z -> Z
}.

(** A zone that is always [offset] milliseconds ahead of UTC: every
    local day has 24 hours. *)
Definition fixedZone (offset : Z) : Zone :=
  mkZone (fun t => t - (t + offset) `mod` msPerDay) (fun m => m - msPerDay).

(** The number of the local calendar day of [t] in such a zone. *)
Definition dayNumber (offset : Z) (t : Z) : Z := (t + offset) `div` msPerDay.

(** The instant at which the local day number [d] starts there. *)
Definition midnightOf (offset : Z) (d : Z) : Z := d * msPerDay - offset.

(** [Math.ceil(x / d)] on integers, [d] positive. *)
Definition ceilDiv (x d : Z) : Z := - ((- x) `div` d).

(** Strictly descending order, the order of distinct days sorted
    descending. *)
Definition descending (a b : Z) : Prop := b < a.

(** The [for] loop of [calculateStreak]: [dates] is the rest of the
    array from index [i] on. *)
Fixpoint streakLoop (dates : list Z) (streak : nat) : nat :=
  match dates with
  | current :: rest =>
      match rest with
      | next :: _ =>
          let diffTime := Z.abs (current - next) in
          let diffDays := ceilDiv diffTime msPerDay in
          if diffDays =? 1 then streakLoop rest (S streak) else streak
      | [] => streak
      end
  | [] => streak
  end.

(** [calculateStreak]; [now] is the instant read by [new Date()]. *)
Definition calculateStreak (zone : Zone) (now : Z) (name : string)
    (allResults : list Result) : nat :=
  if isEmpty name then 0%nat
  else
    let myResults := List.filter (sameStudent name) allResults in
    let dates :=
      sortBy (fun a b => b - a)
        (arrayFromSet (map (fun r => startOfDay zone (date r)) myResults)) in
    match dates with
    | [] => 0%nat
    | currentDate :: _ =>
        let today := startOfDay zone now in
        let yesterday := previousDay zone today in
        if negb (currentDate =? today) && negb (currentDate =? yesterday)
        then 0%nat
        else streakLoop dates 1
    end.

(** The streak in the words of the specification, on the distinct
    attempt days sorted descending: the adjacent pairs that differ by
    exactly one calendar day, up to the first gap. *)
Fixpoint consecutivePairs (days : list Z) : nat :=
  match days with
  | d1 :: rest =>
      match rest with
      | d2 :: _ => if d1 - d2 =? 1 then S (consecutivePairs rest) else 0%nat
      | [] => 0%nat
      end
  | [] => 0%nat
  end.

Definition spec_streak (today : Z) (days : list Z) : nat :=
  match days with
  | [] => 0%nat
  | latest :: _ =>
      if bool_decide (latest = today ∨ latest = today - 1)
      then S (consecutivePairs days) else 0%nat
  end.

(** A zone with one change from summer time (UTC+2) to winter time
    (UTC+1): Central Europe around 26 October 2025.  The local day
    that starts at [summerMidnight] has 25 hours. *)
Definition summerMidnight : Z := 1761429600000.
Definition winterMidnight : Z := 1761519600000.

Definition autumnZone : Zone :=
  mkZone
    (fun t =>
       if t <? summerMidnight then t - (t + 7200000) `mod` msPerDay
       else if t <? winterMidnight then summerMidnight
       else t - (t + 3600000) `mod` msPerDay)
    (fun m => if m =? winterMidnight then summerMidnight else m - msPerDay).

End Component.

(** [startQuiz] as the first version of the component (index.tsx) has
    it: the same gate and the same session state, without the counter
    of starts and without the saved name. *)
Module IndexTsx.
Definition startQuiz {js : StringMethods} (quiz : Quiz) (s : App) : App :=
  if isEmpty (trim (app_studentName s)) then s
  else
    setView student_quiz
      (setTimeLeft (orDefault (durationMinutes quiz) 10 * 60)
        (setAnswers (replicate (length (questions quiz)) (-1))
          (setActiveQuiz (Some quiz) s))).
End IndexTsx.

(** ** Sample data *)

Definition sampleQuestion (correct : Z) : Question :=
  mkQuestion "Choose the correct form." ["is"; "are"; "was"; "were"]
    correct None.

(** Three questions with the correct options 1, 0 and 2, one minute. *)
Definition sampleQuiz : Quiz :=
  mkQuiz "quiz1" "Tenses" None Medium
    [sampleQuestion 1; sampleQuestion 0; sampleQuestion 2] (Some 1) None 0.

(** The same quiz with a duration of zero minutes. *)
Definition zeroMinuteQuiz : Quiz :=
  mkQuiz "quiz0" "Tenses" None Medium
    [sampleQuestion 1; sampleQuestion 0; sampleQuestion 2] (Some 0) None 0.

(** The store accepts the write. *)
Definition onlineEnv : Env := mkEnv 1700000000000 (DocRef "doc1") true.

(** The store rejects the write. *)
Definition offlineEnv : Env := mkEnv 1700000000000 (Rejected "offline") true.

(** Attempts at two quizzes; " asha " and "Asha" are one student after
    normalization. *)
Definition sampleResults : list Result :=
  [ mkResult "a" "quiz1" "Asha" 2 3 300;
    mkResult "b" "quiz1" " asha " 2 3 100;
    mkResult "c" "quiz1" "Ravi" 3 3 200;
    mkResult "d" "quiz2" "Ravi" 1 3 50;
    mkResult "e" "quiz1" "Meena" 2 3 100;
    mkResult "f" "quiz1" "ASHA" 1 3 400 ].

(** One attempt, stored with a leading blank in the name. *)
Definition untrimmedResults : list Result :=
  [ mkResult "r1" "quiz1" " Bob" 1 1 100 ].

(** The scores 3 of 5 and 4 of 4 of one student. *)
Definition perfectResults : list Result :=
  [ mkResult "r1" "quiz1" "Asha" 3 5 100;
    mkResult "r2" "quiz2" "asha" 4 4 200 ].

(** Attempts of one student on the local days 3, 2 (twice), 1 and -1
    of the zone UTC. *)
Definition streakResults : list Result :=
  [ mkResult "s1" "quiz1" "Asha" 1 3 (3 * msPerDay + 1);
    mkResult "s2" "quiz1" "asha" 2 3 (2 * msPerDay + 7);
    mkResult "s3" "quiz2" "Asha" 1 3 (2 * msPerDay + 9);
    mkResult "s4" "quiz1" "ASHA" 3 3 (1 * msPerDay + 1);
    mkResult "s5" "quiz1" "Asha" 3 3 (-1 * msPerDay + 1);
    mkResult "s6" "quiz1" "Ravi" 3 3 1 ].

(** An attempt stored under the empty name. *)
Definition namelessResults : list Result :=
  [ mkResult "n1" "quiz1" "" 1 1 5 ].

(** One attempt on each of the two local days around the change to
    winter time. *)
Definition autumnResults : list Result :=
  [ mkResult "w1" "quiz1" "Asha" 1 1 (winterMidnight + 1);
    mkResult "w2" "quiz1" "Asha" 1 1 (summerMidnight + 7) ].


(** ** The clock display *)

(** [String.prototype.padStart(target, fill)] for a one-character
    [fill]. *)
Definition padStart (target : nat) (fill : ascii) (s : string) : string :=
  Nat.iter (target - String.length s) (String fill) s.

(** [formatTime]: [Math.floor(seconds / 60)] is the floor quotient and
    [seconds % 60] the remainder with the sign of [seconds]. *)
Definition formatTime (seconds : Z) : string :=
  let m := seconds `div` 60 in
  let s := Z.rem seconds 60 in
  pretty m +:+ ":" +:+ padStart 2 "0" (pretty s).

(** The two decimal digits of a number below 100. *)
Definition twoDigits (n : Z) : string :=
  String (pretty_N_char (Z.to_N (n `div` 10)))
    (String (pretty_N_char (Z.to_N (n `mod` 10))) "").

(** The character [":"] does not occur in the string. *)
Fixpoint colonFree (s : string) : bool :=
  match s with
  | EmptyString => true
  | String c s' => negb (Ascii.eqb c ":") && colonFree s'
  end.

(** ** The quiz view *)

(** [answers.filter(a => a !== -1).length], shown as "n of m answered". *)
Definition answeredCount (answers : list Z) : nat :=
  length (List.filter (fun a => negb (a =? -1)) answers).

(** The student dashboard's name field: [setStudentName(e.target.value)]. *)
Definition setStudentName (name : string) (s : App) : App :=
  mkApp (app_view s) name (app_activeQuiz s) (app_answers s)
    (app_currentResult s) (app_timeLeft s) (app_toast s)
    (app_savedName s) (app_written s) (app_starts s).

(** The views of a session; every other view is left and entered by
    plain [setView] calls of headers and buttons. *)
Definition sessionView (v : View) : bool :=
  match v with
  | student_quiz | student_result => true
  | _ => false
  end.

(** [setToast]: the toasts of the handlers outside the session (the
    teacher's) and [setToast(null)], by which a toast closes itself. *)
Definition setToast (t : option (string * ToastType)) (s : App) : App :=
  mkApp (app_view s) (app_studentName s) (app_activeQuiz s) (app_answers s)
    (app_currentResult s) (app_timeLeft s) t
    (app_savedName s) (app_written s) (app_starts s).

(** What the user can do: the events of the session, each with the
    environment it meets, the way back from the result view
    ([setView("student-dash")]), typing into the name field, and the
    navigation between the views outside a session; besides, a toast
    is shown or closed. *)
Inductive Action :=
| ActEvent (env : Env) (ev : Event)
| ActBack
| ActSetName (name : string)
| ActNavigate (v : View)
| ActToast (t : option (string * ToastType)).

(** The controls that the rendered view offers.  The quiz view is
    rendered for [view === "student-quiz" && activeQuiz], with one
    group of option buttons per question and a submit button that is
    disabled until every slot is answered; the result view for
    [view === "student-result" && currentResult && activeQuiz]. *)
Definition offered (s : App) (a : Action) : Prop :=
  match a with
  | ActEvent _ (EvStart _) => app_view s = student_dash
  | ActEvent _ EvTick => timerRunning s = true
  | ActEvent _ (EvSelect idx optIdx) =>
      app_view s = student_quiz /\
      exists quiz q, app_activeQuiz s = Some quiz /\
                     questions quiz !! idx = Some q /\
                     0 <= optIdx < Z.of_nat (length (options q))
  | ActEvent _ EvSubmit =>
      app_view s = student_quiz /\ is_Some (app_activeQuiz s) /\
      isFinished s = true
  | ActEvent _ EvQuit =>
      app_view s = student_quiz /\ is_Some (app_activeQuiz s)
  | ActBack =>
      app_view s = student_result /\ is_Some (app_currentResult s) /\
      is_Some (app_activeQuiz s)
  | ActSetName _ => app_view s = student_dash
  | ActNavigate v => sessionView (app_view s) = false /\ sessionView v = false
  | ActToast _ => True
  end.

(** *** Handlers that wait for the store *)

(** [startQuiz] and [submitQuiz] are [async]: a call runs up to the
    [await], and the rest of the handler runs when the store has
    answered.  In between the component renders and its controls stay
    live.  The rest of a handler works on the values of the render in
    which the handler was called: [quiz] and [studentName] for
    [startQuiz], [resultData] for [submitQuiz]. *)
Record ResultData := mkResultData {
  rd_quizId : string;
  rd_studentName : string;
  rd_score : nat;
  rd_total : nat;
  rd_date : Z
}.

(** [{ id: docRef.id, ...resultData }] *)
Definition withId (id : string) (d : ResultData) : Result :=
  mkResult id (rd_quizId d) (rd_studentName d) (rd_score d) (rd_total d)
    (rd_date d).

Inductive Pending :=
| AwaitUpdateDoc (quiz : Quiz) (name : string)   (* in [startQuiz] *)
| AwaitAddDoc (resultData : ResultData).         (* in [submitQuiz] *)

(** The component with the handlers that wait. *)
Record Client := mkClient {
  shown : App;
  waiting : list Pending
}.

(** [localStorage.setItem("studentName", studentName)] *)
Definition saveNameAs (name : string) (s : App) : App :=
  mkApp (app_view s) (app_studentName s) (app_activeQuiz s) (app_answers s)
    (app_currentResult s) (app_timeLeft s) (app_toast s)
    (Some name) (app_written s) (app_starts s).

(** [startQuiz] after [await updateDoc(...)], which resolved or was
    caught. *)
Definition startQuizRest (resolved : bool) (quiz : Quiz) (name : string)
    (s : App) : App :=
  let s1 := if resolved then incrementStarts (quiz_id quiz) s else s in
  setView student_quiz
    (setTimeLeft (orDefault (durationMinutes quiz) 10 * 60)
      (setAnswers (replicate (length (questions quiz)) (-1))
        (setActiveQuiz (Some quiz) (saveNameAs name s1)))).

(** [submitQuiz] up to [await addDoc(...)]: the score is counted and
    [Date.now()] read at the call. *)
Definition resultDataOf (now : Z) (activeQuiz : Quiz) (s : App)
    : ResultData :=
  mkResultData (quiz_id activeQuiz) (app_studentName s)
    (computeScore activeQuiz (app_answers s))
    (length (questions activeQuiz)) now.

Definition submitQuizCall (now : Z) (c : Client) : Client :=
  match app_activeQuiz (shown c) with
  | None => c
  | Some activeQuiz =>
      mkClient (shown c)
        (waiting c ++ [AwaitAddDoc (resultDataOf now activeQuiz (shown c))])
  end.

(** [submitQuiz] after [await addDoc(...)]. *)
Definition submitQuizRest (outcome : AddDocOutcome) (d : ResultData)
    (s : App) : App :=
  match outcome with
  | DocRef id =>
      let r := withId id d in
      showToast "Quiz submitted successfully!" success
        (setView student_result
          (setCurrentResult (Some r) (recordWrite r s)))
  | Rejected message =>
      showToast ("Submission failed: " +:+ message) error s
  end.

(** The timer effect, whose second branch calls [submitQuiz]. *)
Definition timerEffectCall (now : Z) (c : Client) : Client :=
  let s := shown c in
  if timerRunning s then c
  else if bool_decide (app_view s = student_quiz) && (app_timeLeft s =? 0)
          && bool_decide (is_Some (app_activeQuiz s))
  then submitQuizCall now c
  else c.

(** The effects of the render that follows a change of the state
    [before]: the timer effect runs when [timeLeft] or [view]
    changed. *)
Definition afterRender (now : Z) (before : App) (c : Client) : Client :=
  if bool_decide (app_timeLeft (shown c) = app_timeLeft before
                  ∧ app_view (shown c) = app_view before)
  then c else timerEffectCall now c.

(** What happens to the component: the user uses a control, or the
    store answers the [i]-th of the waiting calls with the outcome
    that [env] holds. *)
Inductive Happening :=
| UserDoes (a : Action)
| Settles (i : nat) (env : Env).

Section Client.
Context {js : StringMethods}.

(** The controls with every [await] met by the answer of the store at
    once. *)
Definition perform (a : Action) (s : App) : App :=
  match a with
  | ActEvent env ev => step env ev s
  | ActBack => setView student_dash s
  | ActSetName name => setStudentName name s
  | ActNavigate v => setView v s
  | ActToast t => setToast t s
  end.

(** The states reached from [s0] by offered actions when the store
    always answers before anything else happens. *)
Inductive reachesSettled (s0 : App) : App -> Prop :=
| settled_refl : reachesSettled s0 s0
| settled_step (s : App) (a : Action) :
    reachesSettled s0 s -> offered s a -> reachesSettled s0 (perform a s).

(** [startQuiz] up to [await updateDoc(...)]. *)
Definition startQuizCall (quiz : Quiz) (c : Client) : Client :=
  let s := shown c in
  if isEmpty (trim (app_studentName s)) then
    mkClient (showToast nameMissingMessage error s) (waiting c)
  else
    mkClient s (waiting c ++ [AwaitUpdateDoc quiz (app_studentName s)]).

(** A handler up to its first [await]; the handlers of the clock, the
    option buttons and the way back have none. *)
Definition handleCall (env : Env) (ev : Event) (c : Client) : Client :=
  match ev with
  | EvStart quiz => startQuizCall quiz c
  | EvSubmit =>
      if bool_decide (app_view (shown c) = student_quiz)
         && isFinished (shown c)
      then submitQuizCall (dateNow env) c else c
  | EvTick | EvSelect _ _ | EvQuit =>
      mkClient (handle env ev (shown c)) (waiting c)
  end.

Definition resume (env : Env) (p : Pending) (s : App) : App :=
  match p with
  | AwaitUpdateDoc quiz name => startQuizRest (updateDocOk env) quiz name s
  | AwaitAddDoc d => submitQuizRest (addDoc env) d s
  end.

Definition happen (h : Happening) (c : Client) : Client :=
  match h with
  | UserDoes (ActEvent env ev) =>
      afterRender (dateNow env) (shown c) (handleCall env ev c)
  | UserDoes a =>
      (* the way back, the name field, the navigation, the toasts: no
         handler waits, and none of them shows the quiz view or
         changes the remaining time *)
      mkClient (perform a (shown c)) (waiting c)
  | Settles i env =>
      match waiting c !! i with
      | None => c
      | Some p =>
          afterRender (dateNow env) (shown c)
            (mkClient (resume env p (shown c)) (delete i (waiting c)))
      end
  end.

Definition possible (c : Client) (h : Happening) : Prop :=
  match h with
  | UserDoes a => offered (shown c) a
  | Settles i _ => is_Some (waiting c !! i)
  end.

Inductive runs (c0 : Client) : Client -> Prop :=
| runs_refl : runs c0 c0
| runs_step (c : Client) (h : Happening) :
    runs c0 c -> possible c h -> runs c0 (happen h c).

(** The states the component reaches from [s0], with nothing waiting
    at the start: the user acts on what is shown, and the store
    answers the waiting calls whenever and in whatever order. *)
Definition reaches (s0 s : App) : Prop :=
  exists w : list Pending, runs (mkClient s0 []) (mkClient s w).

End Client.

(** A waiting write carries a score within its total. *)
Definition pendingWithinTotal (p : Pending) : Prop :=
  match p with
  | AwaitUpdateDoc _ _ => True
  | AwaitAddDoc d => (rd_score d <= rd_total d)%nat
  end.

Definition isAwaitAddDoc (p : Pending) : Prop :=
  match p with
  | AwaitUpdateDoc _ _ => False
  | AwaitAddDoc _ => True
  end.

(** What holds of every state the component can reach: the quiz view
    has an active quiz and one answer slot per question of it; the
    result view has an active quiz and shows a result that was
    written; no written result, and no result waiting to be written,
    scores above its total; a write waits only when a quiz is
    active. *)
Definition clientInvariant (c : Client) : Prop :=
  let s := shown c in
  (app_view s = student_quiz ->
   exists quiz, app_activeQuiz s = Some quiz /\
                length (app_answers s) = length (questions quiz))
  /\ (app_view s = student_result ->
      exists quiz r, app_activeQuiz s = Some quiz /\
                     app_currentResult s = Some r /\ r ∈ app_written s)
  /\ Forall (fun r => (score r <= total r)%nat) (app_written s)
  /\ Forall pendingWithinTotal (waiting c)
  /\ (Exists isAwaitAddDoc (waiting c) -> is_Some (app_activeQuiz s)).

(** A session of the sample quiz: started, every question answered
    (the last one wrongly) and submitted by hand. *)
Definition sampleStarted : App :=
  perform (ActEvent onlineEnv (EvStart sampleQuiz)) (initialApp "Asha").

Definition sampleAnswered : App :=
  perform (ActEvent onlineEnv (EvSelect 2 3))
    (perform (ActEvent onlineEnv (EvSelect 1 0))
       (perform (ActEvent onlineEnv (EvSelect 0 1)) sampleStarted)).

Definition sampleSubmitted : App :=
  perform (ActEvent onlineEnv EvSubmit) sampleAnswered.

(** The same session with a late change of mind: the student submits,
    and while the write is on its way chooses the right option for the
    last question; then the store answers. *)
Definition sampleLateChoice : Client :=
  happen (Settles 0 onlineEnv)
    (happen (UserDoes (ActEvent onlineEnv (EvSelect 2 2)))
       (happen (UserDoes (ActEvent onlineEnv EvSubmit))
          (mkClient sampleAnswered []))).

(** ** Classes of a comparator *)

(** [y] is in the class of [x]: neither has to follow the other. *)
Definition sameClass {A : Type} (cmp : A -> A -> Z) (x y : A) : bool :=
  (cmp x y <=? 0) && (cmp y x <=? 0).

(** ** The leaderboard of the first version (index.tsx) *)

Module FirstVersion.
(** [results.filter(r => r.quizId === quizId).sort((a, b) => b.score - a.score)] *)
Definition getLeaderboard (results : list Result) (quiz : string)
    : list Result :=
  sortBy byScoreDesc (filter (fun r => quizId r = quiz) results).
End FirstVersion.

(** ** The subject tabs of the student dashboard *)

(** [Array.from(new Set(xs))] for any type with decidable equality:
    the distinct values in the order of their first occurrence. *)
Definition addToSet {A : Type} `{EqDecision A} (acc : list A) (x : A)
    : list A :=
  if decide (x ∈ acc) then acc else acc ++ [x].

Definition arrayFromSetOf {A : Type} `{EqDecision A} (xs : list A) : list A :=
  foldl addToSet [] xs.

(** [q.subject || "General"]: an absent and an empty subject are
    falsy. *)
Definition subjectOrGeneral (q : Quiz) : string :=
  match subject q with
  | None => "General"
  | Some s => if isEmpty s then "General" else s
  end.

(** [["All", ...Array.from(new Set(quizzes.map(q => q.subject || "General")))]] *)
Definition allSubjects (quizzes : list Quiz) : list string :=
  "All" :: arrayFromSetOf (map subjectOrGeneral quizzes).

(** [filterSubject === "All" ? quizzes
     : quizzes.filter(q => (q.subject || "General") === filterSubject)] *)
Definition filteredQuizzes (filterSubject : string) (quizzes : list Quiz)
    : list Quiz :=
  if decide (filterSubject = "All") then quizzes
  else filter (fun q => subjectOrGeneral q = filterSubject) quizzes.

(** ** The quiz editor *)

(** The part of the state that the editor handlers touch. *)
Record Editor := mkEditor {
  generatedQuiz : option Quiz;
  editorToast : option (string * ToastType)
}.

Definition withQuestions (qs : list Question) (q : Quiz) : Quiz :=
  mkQuiz (quiz_id q) (title q) (subject q) (difficulty q) qs
    (durationMinutes q) (starts q) (createdAt q).

(** The pairs [field, value] with which the editor calls
    [updateQuestion]. *)
Inductive QuestionField :=
| FieldText (value : string)
| FieldCorrectIndex (value : Z)
| FieldExplanation (value : string).

(** [{ ...question, [field]: value }] *)
Definition setQuestionField (f : QuestionField) (q : Question) : Question :=
  match f with
  | FieldText value =>
      mkQuestion value (options q) (correctIndex q) (explanation q)
  | FieldCorrectIndex value =>
      mkQuestion (text q) (options q) value (explanation q)
  | FieldExplanation value =>
      mkQuestion (text q) (options q) (correctIndex q) (Some value)
  end.

Definition withOptions (opts : list string) (q : Question) : Question :=
  mkQuestion (text q) opts (correctIndex q) (explanation q).

(** The outcome of an edit by index.  [OutOfRange]: the index lies
    beyond the array, where the source either throws (reading
    [options] of [undefined]) or stores a value that is no question
    and leaves holes in the array. *)
Inductive Edit :=
| Edited (e : Editor)
| OutOfRange.

(** [updateQuestion] *)
Definition updateQuestion (index : nat) (f : QuestionField) (e : Editor)
    : Edit :=
  match generatedQuiz e with
  | None => Edited e
  | Some quiz =>
      match questions quiz !! index with
      | Some q =>
          Edited (mkEditor
                    (Some (withQuestions
                             (<[index := setQuestionField f q]>
                                (questions quiz)) quiz))
                    (editorToast e))
      | None => OutOfRange
      end
  end.

(** [updateOption]; writing at the index just past the last option
    appends. *)
Definition updateOption (qIndex optIndex : nat) (value : string) (e : Editor)
    : Edit :=
  match generatedQuiz e with
  | None => Edited e
  | Some quiz =>
      match questions quiz !! qIndex with
      | Some q =>
          if (length (options q) <? optIndex)%nat then OutOfRange
          else
            let opts :=
              if (optIndex =? length (options q))%nat
              then options q ++ [value]
              else <[optIndex := value]> (options q) in
            Edited (mkEditor
                      (Some (withQuestions
                               (<[qIndex := withOptions opts q]>
                                  (questions quiz)) quiz))
                      (editorToast e))
      | None => OutOfRange
      end
  end.

(** [xs.filter((_, i) => p(i))], from index [i] on. *)
Fixpoint filterByIndex {A : Type} (p : nat -> bool) (i : nat) (xs : list A)
    : list A :=
  match xs with
  | [] => []
  | x :: xs' =>
      if p i then x :: filterByIndex p (S i) xs'
      else filterByIndex p (S i) xs'
  end.

(** [removeQuestion] *)
Definition removeQuestion (index : nat) (e : Editor) : Editor :=
  match generatedQuiz e with
  | None => e
  | Some quiz =>
      if (length (questions quiz) <=? 1)%nat then
        mkEditor (generatedQuiz e)
          (Some ("Quiz must have at least one question.", error))
      else
        mkEditor
          (Some (withQuestions
                   (filterByIndex (fun i => negb (i =? index)%nat) 0
                      (questions quiz)) quiz))
          (editorToast e)
  end.

Definition newQuestion : Question :=
  mkQuestion "New Question"
    ["Option A"; "Option B"; "Option C"; "Option D"] 0
    (Some "Explanation for the correct answer.").

(** [addQuestion] *)
Definition addQuestion (e : Editor) : Editor :=
  match generatedQuiz e with
  | None => e
  | Some quiz =>
      mkEditor (Some (withQuestions (questions quiz ++ [newQuestion]) quiz))
        (editorToast e)
  end.

(** The controls of the editor: per question a text field, an
    explanation field and a delete button, per option of a question a
    radio button that makes it the correct one and a text field, and
    the button that adds a question. *)
Inductive EditorAction :=
| EditText (index : nat) (value : string)
| EditExplanation (index : nat) (value : string)
| MarkCorrect (index optIdx : nat)
| EditOption (index optIdx : nat) (value : string)
| DeleteQuestion (index : nat)
| AddQuestion.

Definition applyEdit (a : EditorAction) (e : Editor) : Edit :=
  match a with
  | EditText index value => updateQuestion index (FieldText value) e
  | EditExplanation index value =>
      updateQuestion index (FieldExplanation value) e
  | MarkCorrect index optIdx =>
      updateQuestion index (FieldCorrectIndex (Z.of_nat optIdx)) e
  | EditOption index optIdx value => updateOption index optIdx value e
  | DeleteQuestion index => Edited (removeQuestion index e)
  | AddQuestion => Edited (addQuestion e)
  end.

(** The action belongs to a control that is rendered for the quiz in
    the editor. *)
Definition editOffered (e : Editor) (a : EditorAction) : Prop :=
  exists quiz, generatedQuiz e = Some quiz /\
    match a with
    | EditText index _ | EditExplanation index _ | DeleteQuestion index =>
        (index < length (questions quiz))%nat
    | MarkCorrect index optIdx | EditOption index optIdx _ =>
        exists q, questions quiz !! index = Some q
                  /\ (optIdx < length (options q))%nat
    | AddQuestion => True
    end.

(** The editors reached from [e0] by offered actions. *)
Inductive editReaches (e0 : Editor) : Editor -> Prop :=
| editReaches_refl : editReaches e0 e0
| editReaches_step (e e' : Editor) (a : EditorAction) :
    editReaches e0 e -> editOffered e a -> applyEdit a e = Edited e' ->
    editReaches e0 e'.

(** A quiz as the generator is asked to produce it, in the editor. *)
Definition sampleEditor : Editor := mkEditor (Some sampleQuiz) None.

(** ** The teacher's side: password, generation, publication *)

(** A chosen file, with the base64 text that [FileReader] yields. *)
Record File := mkFile {
  fileName : string;
  fileType : string;
  fileBase64 : string
}.

(** The requests that the handlers send to the store and to the
    generator. *)
Inductive Request :=
| ReqGenerate (fromDocument : bool) (prompt : string) (numQuestions : Z)
    (difficulty : Difficulty)
| ReqAddQuiz (title : string) (subject : option string)
    (difficulty : Difficulty) (questions : list Question)
    (durationMinutes : option Z) (starts : option Z) (createdAt : Z)
| ReqAddNote (title fileName fileData mimeType : string) (createdAt : Z)
| ReqDelete (collectionName id : string).

Record AuthState := mkAuth {
  isAuthenticated : bool;
  showAuth : bool;
  authPassword : string
}.

Record CreationState := mkCreation {
  isGenerating : bool;
  draft : option Quiz;          (* the state [generatedQuiz] *)
  prompt : string;
  file : option File;
  numQuestions : Z;
  chosenDifficulty : Difficulty
}.

Record NoteState := mkNotes {
  noteTitle : string;
  noteFile : option File
}.

Record Teacher := mkTeacher {
  t_view : View;
  t_toast : option (string * ToastType);
  t_auth : AuthState;
  t_creation : CreationState;
  t_notes : NoteState;
  t_requests : list Request
}.

(** What the generator answers: the parsed data of a response with
    text, a response without text, or a failure of the call or of
    [JSON.parse]. *)
Inductive Generated :=
| GenData (title : string) (subject : option string)
    (questions : list Question)
| GenNoText
| GenError (message : string).

Record TeacherEnv := mkTeacherEnv {
  te_now : Z;                  (* [Date.now()] *)
  te_uuid : string;            (* [crypto.randomUUID()] *)
  te_generated : Generated;
  te_addDoc : AddDocOutcome;
  te_confirm : bool;           (* [confirm(...)] *)
  te_deleteOk : bool           (* whether [deleteDoc] resolves *)
}.

Definition teacherToast (message : string) (type : ToastType) (t : Teacher)
    : Teacher :=
  mkTeacher (t_view t) (Some (message, type)) (t_auth t) (t_creation t)
    (t_notes t) (t_requests t).

Definition sendRequest (r : Request) (t : Teacher) : Teacher :=
  mkTeacher (t_view t) (t_toast t) (t_auth t) (t_creation t) (t_notes t)
    (t_requests t ++ [r]).

(** [handleAuth] *)
Definition handleAuth (t : Teacher) : Teacher :=
  if decide (authPassword (t_auth t) = "admin") then
    mkTeacher teacher_dash (Some ("Welcome, Teacher!", success))
      (mkAuth true false "") (t_creation t) (t_notes t) (t_requests t)
  else teacherToast "Incorrect password. Hint: admin" error t.

(** [s || "General"] on a possibly absent string. *)
Definition orGeneral (s : option string) : string :=
  match s with
  | None => "General"
  | Some s => if isEmpty s then "General" else s
  end.

(** What [generateQuiz] returns for the parsed data of a response. *)
Definition quizOfData (env : TeacherEnv) (difficulty : Difficulty)
    (title : string) (subject : option string) (questions : list Question)
    : Quiz :=
  mkQuiz (te_uuid env) title (Some (orGeneral subject)) difficulty questions
    (Some 10) None (te_now env).

(** [handleCreateQuiz], with [generateQuiz] inlined: the document is
    used when a file with a non-empty content and type is chosen. *)
Definition handleCreateQuiz (env : TeacherEnv) (t : Teacher) : Teacher :=
  let c := t_creation t in
  if negb (isAuthenticated (t_auth t)) then t
  else if isEmpty (prompt c) && negb (bool_decide (is_Some (file c))) then
    teacherToast "Please provide a topic or upload a file." error t
  else
    let fromDocument :=
      match file c with
      | Some f => negb (isEmpty (fileBase64 f)) && negb (isEmpty (fileType f))
      | None => false
      end in
    let t1 := sendRequest
                (ReqGenerate fromDocument (prompt c) (numQuestions c)
                   (chosenDifficulty c)) t in
    match te_generated env with
    | GenData title subject questions =>
        mkTeacher (t_view t1) (t_toast t1) (t_auth t1)
          (mkCreation false
             (Some (quizOfData env (chosenDifficulty c) title subject
                      questions))
             (prompt c) (file c) (numQuestions c) (chosenDifficulty c))
          (t_notes t1) (t_requests t1)
    | GenNoText =>
        mkTeacher (t_view t1) (t_toast t1) (t_auth t1)
          (mkCreation false (draft c) (prompt c) (file c) (numQuestions c)
             (chosenDifficulty c))
          (t_notes t1) (t_requests t1)
    | GenError message =>
        mkTeacher (t_view t1)
          (Some ("Failed to generate quiz: " +:+ message, error)) (t_auth t1)
          (mkCreation false (draft c) (prompt c) (file c) (numQuestions c)
             (chosenDifficulty c))
          (t_notes t1) (t_requests t1)
    end.

(** [publishQuiz] *)
Definition publishQuiz (env : TeacherEnv) (t : Teacher) : Teacher :=
  let c := t_creation t in
  match isAuthenticated (t_auth t), draft c with
  | true, Some q =>
      let t1 := sendRequest
                  (ReqAddQuiz (title q) (subject q) (difficulty q)
                     (questions q) (durationMinutes q) (starts q)
                     (te_now env)) t in
      match te_addDoc env with
      | DocRef _ =>
          mkTeacher teacher_dash
            (Some ("Quiz published successfully!", success)) (t_auth t1)
            (mkCreation (isGenerating c) None "" None 5 (chosenDifficulty c))
            (t_notes t1) (t_requests t1)
      | Rejected message =>
          teacherToast ("Publish failed: " +:+ message) error t1
      end
  | _, _ => t
  end.

(** [handleUploadNote] *)
Definition handleUploadNote (env : TeacherEnv) (t : Teacher) : Teacher :=
  if negb (isAuthenticated (t_auth t)) then t
  else
    match noteFile (t_notes t) with
    | Some f =>
        if isEmpty (noteTitle (t_notes t)) then
          teacherToast "Please provide a title and a file." error t
        else
          let t1 := sendRequest
                      (ReqAddNote (noteTitle (t_notes t)) (fileName f)
                         (fileBase64 f) (fileType f) (te_now env)) t in
          match te_addDoc env with
          | DocRef _ =>
              mkTeacher (t_view t1)
                (Some ("Material uploaded successfully!", success))
                (t_auth t1) (t_creation t1) (mkNotes "" None)
                (t_requests t1)
          | Rejected message =>
              teacherToast ("Upload failed: " +:+ message) error t1
          end
    | None => teacherToast "Please provide a title and a file." error t
    end.

(** [deleteItem] *)
Definition deleteItem (env : TeacherEnv) (collectionName id : string)
    (t : Teacher) : Teacher :=
  if negb (isAuthenticated (t_auth t)) then t
  else if te_confirm env then
    let t1 := sendRequest (ReqDelete collectionName id) t in
    if te_deleteOk env then teacherToast "Item deleted." success t1
    else teacherToast "Delete failed." error t1
  else t.

(** The handlers the teacher can trigger and the fields the teacher
    can fill in. *)
Inductive TeacherAction :=
| OpenAuth                         (* [setShowAuth(true)] *)
| CloseAuth                        (* [setShowAuth(false)] *)
| TypePassword (value : string)    (* [setAuthPassword] *)
| SubmitPassword                   (* [handleAuth] *)
| Navigate (v : View)              (* [setView] of a header or button *)
| TypePrompt (value : string)
| ChooseFile (f : option File)
| TypeNumQuestions (parsed : option Z)   (* [parseInt(...) || 5] *)
| ChooseDifficulty (d : Difficulty)
| Generate
| Discard                          (* [setGeneratedQuiz(null)] *)
| Publish
| Delete (collectionName id : string)
| TypeNoteTitle (value : string)
| ChooseNoteFile (f : option File)
| Upload.

Definition withAuth (a : AuthState) (t : Teacher) : Teacher :=
  mkTeacher (t_view t) (t_toast t) a (t_creation t) (t_notes t)
    (t_requests t).

Definition withCreation (c : CreationState) (t : Teacher) : Teacher :=
  mkTeacher (t_view t) (t_toast t) (t_auth t) c (t_notes t) (t_requests t).

Definition withNotes (n : NoteState) (t : Teacher) : Teacher :=
  mkTeacher (t_view t) (t_toast t) (t_auth t) (t_creation t) n
    (t_requests t).

Definition teacherStep (env : TeacherEnv) (a : TeacherAction) (t : Teacher)
    : Teacher :=
  let au := t_auth t in
  let c := t_creation t in
  let n := t_notes t in
  match a with
  | OpenAuth => withAuth (mkAuth (isAuthenticated au) true (authPassword au)) t
  | CloseAuth =>
      withAuth (mkAuth (isAuthenticated au) false (authPassword au)) t
  | TypePassword value =>
      withAuth (mkAuth (isAuthenticated au) (showAuth au) value) t
  | SubmitPassword => handleAuth t
  | Navigate v =>
      mkTeacher v (t_toast t) (t_auth t) (t_creation t) (t_notes t)
        (t_requests t)
  | TypePrompt value =>
      withCreation (mkCreation (isGenerating c) (draft c) value (file c)
                      (numQuestions c) (chosenDifficulty c)) t
  | ChooseFile f =>
      withCreation (mkCreation (isGenerating c) (draft c) (prompt c) f
                      (numQuestions c) (chosenDifficulty c)) t
  | TypeNumQuestions parsed =>
      withCreation (mkCreation (isGenerating c) (draft c) (prompt c) (file c)
                      (orDefault parsed 5) (chosenDifficulty c)) t
  | ChooseDifficulty d =>
      withCreation (mkCreation (isGenerating c) (draft c) (prompt c) (file c)
                      (numQuestions c) d) t
  | Generate => handleCreateQuiz env t
  | Discard =>
      withCreation (mkCreation (isGenerating c) None (prompt c) (file c)
                      (numQuestions c) (chosenDifficulty c)) t
  | Publish => publishQuiz env t
  | Delete collectionName id => deleteItem env collectionName id t
  | TypeNoteTitle value => withNotes (mkNotes value (noteFile n)) t
  | ChooseNoteFile f => withNotes (mkNotes (noteTitle n) f) t
  | Upload => handleUploadNote env t
  end.

(** A sequence of actions, each with the environment it meets. *)
Definition teacherRun (acts : list (TeacherEnv * TeacherAction)) (t : Teacher)
    : Teacher :=
  foldl (fun st ea => teacherStep ea.1 ea.2 st) t acts.

(** The state of a freshly loaded page. *)
Definition initialTeacher : Teacher :=
  mkTeacher landing None (mkAuth false false "")
    (mkCreation false None "" None 5 Medium) (mkNotes "" None) [].

(** ** The question paper ([downloadPDF]) *)

(** What a call of [doc.text] prints. *)
Inductive Printed :=
| PrintTitle
| PrintSubject
| PrintTime
| PrintQuestion (i : nat)
| PrintOption (i optIndex : nat)
| PrintKeyTitle
| PrintKey (i : nat)
| PrintExplanation (i : nat).

(** A call of [doc.text]: the page, the height [y] at which the text
    starts, and what is printed. *)
Record Draw := mkDraw {
  drawPage : nat;
  drawY : Z;
  drawWhat : Printed
}.

(** The current page, the cursor [y] and the calls made so far. *)
Record Pen := mkPen {
  penPage : nat;
  penY : Z;
  penLog : list Draw
}.

(** [if (y > limit) { doc.addPage(); y = 20; }] *)
Definition breakIfBelow (limit : Z) (p : Pen) : Pen :=
  if limit <? penY p then mkPen (S (penPage p)) 20 (penLog p) else p.

(** [doc.text(..., y)] at the cursor *)
Definition printAtCursor (what : Printed) (p : Pen) : Pen :=
  mkPen (penPage p) (penY p)
    (penLog p ++ [mkDraw (penPage p) (penY p) what]).

(** [y += dy] *)
Definition advance (dy : Z) (p : Pen) : Pen :=
  mkPen (penPage p) (penY p + dy) (penLog p).

(** [q.explanation] is truthy. *)
Definition hasExplanation (q : Question) : bool :=
  match explanation q with
  | Some s => negb (isEmpty s)
  | None => false
  end.

Section Paper.
(** The numbers of lines into which [doc.splitTextToSize] breaks the
    numbered text of a question and its explanation. *)
Variable questionLines : nat -> Question -> nat.
Variable explanationLines : Question -> nat.

(** [q.options.forEach((opt, optIndex) => ...)] from [optIndex] on *)
Fixpoint printOptions (i optIndex : nat) (opts : list string) (p : Pen)
    : Pen :=
  match opts with
  | [] => p
  | _ :: opts' =>
      printOptions i (S optIndex) opts'
        (advance 6
           (printAtCursor (PrintOption i optIndex) (breakIfBelow 280 p)))
  end.

(** The first [quiz.questions.forEach], from question [i] on *)
Fixpoint printQuestions (i : nat) (qs : list Question) (p : Pen) : Pen :=
  match qs with
  | [] => p
  | q :: qs' =>
      let p1 := printAtCursor (PrintQuestion i) (breakIfBelow 270 p) in
      let p2 := advance (Z.of_nat (questionLines i q) * 6) p1 in
      let p3 := printOptions i 0 (options q) p2 in
      printQuestions (S i) qs' (advance 6 p3)
  end.

(** The second [quiz.questions.forEach], the answer key *)
Fixpoint printKey (i : nat) (qs : list Question) (p : Pen) : Pen :=
  match qs with
  | [] => p
  | q :: qs' =>
      let p1 := printAtCursor (PrintKey i) (breakIfBelow 260 p) in
      let p2 :=
        if hasExplanation q then
          advance (Z.of_nat (explanationLines q) * 5 + 8)
            (printAtCursor (PrintExplanation i) (advance 5 p1))
        else advance 10 p1 in
      printKey (S i) qs' p2
  end.

(** The calls of [doc.text] made by [downloadPDF], in order. *)
Definition downloadPDF (quiz : Quiz) : list Draw :=
  let p0 := mkPen 0 45
              [mkDraw 0 20 PrintTitle; mkDraw 0 26 PrintSubject;
               mkDraw 0 32 PrintTime] in
  let p1 := printQuestions 0 (questions quiz) p0 in
  let p2 := mkPen (S (penPage p1)) 40
              (penLog p1 ++ [mkDraw (S (penPage p1)) 20 PrintKeyTitle]) in
  penLog (printKey 0 (questions quiz) p2).
End Paper.

(** What the paper is to contain, in order. *)
Definition paperContents (quiz : Quiz) : list Printed :=
  [PrintTitle; PrintSubject; PrintTime]
  ++ concat (imap (fun i q =>
               PrintQuestion i
               :: imap (fun optIndex _ => PrintOption i optIndex) (options q))
             (questions quiz))
  ++ [PrintKeyTitle]
  ++ concat (imap (fun i q =>
               PrintKey i
               :: (if hasExplanation q then [PrintExplanation i] else []))
             (questions quiz)).

(** The lowest height at which the source lets a text of each kind
    start. *)
Definition lowestStart (what : Printed) : Z :=
  match what with
  | PrintTitle | PrintKeyTitle => 20
  | PrintSubject => 26
  | PrintTime => 32
  | PrintQuestion _ => 270
  | PrintOption _ _ => 280
  | PrintKey _ => 260
  | PrintExplanation _ => 265
  end.

Definition drawInMargins (d : Draw) : Prop :=
  20 <= drawY d <= lowestStart (drawWhat d).

Definition penInMargins (p : Pen) : Prop :=
  20 <= penY p /\ Forall drawInMargins (penLog p).

(** What a question with its options, and what its line of the key,
    contribute to the paper. *)
Definition questionPrints (i : nat) (q : Question) : list Printed :=
  PrintQuestion i :: (PrintOption i <$> seq 0 (length (options q))).

Definition keyPrints (i : nat) (q : Question) : list Printed :=
  PrintKey i :: (if hasExplanation q then [PrintExplanation i] else []).

(** ** The duration field of the editor *)

Definition withDuration (d : option Z) (q : Quiz) : Quiz :=
  mkQuiz (quiz_id q) (title q) (subject q) (difficulty q) (questions q) d
    (starts q) (createdAt q).

(** [updateQuizField('durationMinutes', parseInt(e.target.value) || 10)];
    [parsed] is what [parseInt] yields, [None] for [NaN]. *)
Definition updateDuration (parsed : option Z) (e : Editor) : Editor :=
  match generatedQuiz e with
  | None => e
  | Some quiz =>
      mkEditor (Some (withDuration (Some (orDefault parsed 10)) quiz))
        (editorToast e)
  end.
(** * Properties *)

Section Properties.
Context {js : StringMethods}.

(** ** Scoring *)

Lemma scoreLoop_count (quiz : Quiz) (answers : list Z) (qs pre : list Question)
    (acc : nat) :
  questions quiz = pre ++ qs ->
  scoreLoop answers (length pre) qs acc =
  (acc + length (List.filter (correctAt quiz answers)
                   (seq (length pre) (length qs))))%nat.
Proof.
  revert pre acc.
  induction qs as [|q qs IH]; intros pre acc Hq; simpl.
  - lia.
  - assert (Hq' : questions quiz = (pre ++ [q]) ++ qs)
      by (rewrite <- app_assoc; exact Hq).
    specialize (IH (pre ++ [q])
                  (if answerMatches answers (length pre) q then S acc else acc)
                  Hq').
    rewrite length_app in IH. simpl in IH.
    replace (length pre + 1)%nat with (S (length pre)) in IH by lia.
    rewrite IH.
    assert (Hc : correctAt quiz answers (length pre)
                 = answerMatches answers (length pre) q).
    { unfold correctAt. rewrite Hq.
      rewrite lookup_app_r by lia.
      replace (length pre - length pre)%nat with 0%nat by lia.
      reflexivity. }
    rewrite Hc.
    destruct (answerMatches answers (length pre) q); simpl; lia.
Qed.

Lemma computeScore_count (quiz : Quiz) (answers : list Z) :
  computeScore quiz answers =
  length (List.filter (correctAt quiz answers) (questionIndices quiz)).
Proof.
  unfold computeScore, questionIndices.
  apply (scoreLoop_count quiz answers (questions quiz) [] 0%nat).
  reflexivity.
Qed.

Lemma filter_length_le {A : Type} (p : A -> bool) (l : list A) :
  (length (List.filter p l) <= length l)%nat.
Proof.
  induction l as [|x l IH]; simpl; [lia|].
  destruct (p x); simpl; lia.
Qed.

Lemma computeScore_le (quiz : Quiz) (answers : list Z) :
  (computeScore quiz answers <= length (questions quiz))%nat.
Proof.
  rewrite computeScore_count.
  etransitivity; [apply filter_length_le|].
  unfold questionIndices. rewrite length_seq. lia.
Qed.

Lemma unanswered_correctAt (quiz : Quiz) (answers : list Z) (i : nat)
    (q : Question) :
  questions quiz !! i = Some q ->
  answers !! i = Some (-1) ->
  correctAt quiz answers i = true <-> correctIndex q = -1.
Proof.
  intros Hq Ha. unfold correctAt, answerMatches. rewrite Hq, Ha.
  rewrite Z.eqb_eq. split; intros; lia.
Qed.

Lemma unanswered_not_correct (quiz : Quiz) (answers : list Z) (i : nat)
    (q : Question) :
  questions quiz !! i = Some q ->
  valid_question q ->
  answers !! i = Some (-1) ->
  correctAt quiz answers i = false.
Proof.
  intros Hq [Hlo _] Ha.
  destruct (correctAt quiz answers i) eqn:E; [|reflexivity].
  apply (unanswered_correctAt quiz answers i q Hq Ha) in E. lia.
Qed.

Lemma filter_none {A : Type} (p : A -> bool) (l : list A) :
  (forall x, In x l -> p x = false) -> List.filter p l = [].
Proof.
  induction l as [|x l IH]; intros H; simpl; [reflexivity|].
  rewrite (H x) by (left; reflexivity).
  apply IH. intros y Hy. apply H. right. exact Hy.
Qed.

(** With every slot unanswered a valid quiz scores nothing. *)
Lemma computeScore_unanswered (quiz : Quiz) :
  valid_quiz quiz ->
  computeScore quiz (replicate (length (questions quiz)) (-1)) = 0%nat.
Proof.
  intros Hv. rewrite computeScore_count.
  rewrite filter_none; [reflexivity|].
  intros i Hi. unfold questionIndices in Hi.
  apply in_seq in Hi. destruct Hi as [_ Hi]. simpl in Hi.
  destruct (lookup_lt_is_Some_2 (questions quiz) i Hi) as [q Hq].
  apply (unanswered_not_correct quiz _ i q Hq).
  - unfold valid_quiz in Hv. rewrite Forall_forall in Hv.
    apply Hv. eapply list_elem_of_lookup_2. exact Hq.
  - apply lookup_replicate_2. exact Hi.
Qed.

(** The result written by a successful [submitQuiz]. *)
Lemma submitQuiz_result (env : Env) (s : App) (quiz : Quiz) (id : string) :
  app_activeQuiz s = Some quiz ->
  addDoc env = DocRef id ->
  app_currentResult (submitQuiz env s) =
    Some (mkResult id (quiz_id quiz) (app_studentName s)
            (computeScore quiz (app_answers s)) (length (questions quiz))
            (dateNow env))
  /\ app_view (submitQuiz env s) = student_result.
Proof.
  intros Hq Hd. unfold submitQuiz. rewrite Hq, Hd. split; reflexivity.
Qed.

(** C1, amended.  The score computed by [submitQuiz] is the number of
    question indices [i] with [answers[i] = questions[i].correctIndex];
    a slot holding [-1] is counted exactly when the [correctIndex] of
    its question is [-1], hence never for a question that satisfies
    the invariant [0 <= correctIndex < options.length]; the score lies
    between [0] and the number of questions, which is the [total] of
    the result. *)
Theorem C1_score_counts_matching_answers (quiz : Quiz) (answers : list Z) :
  computeScore quiz answers
    = length (List.filter (correctAt quiz answers) (questionIndices quiz))
  /\ (forall (i : nat) (q : Question),
        questions quiz !! i = Some q -> answers !! i = Some (-1) ->
        (correctAt quiz answers i = true <-> correctIndex q = -1))
  /\ (forall (i : nat) (q : Question),
        questions quiz !! i = Some q -> valid_question q ->
        answers !! i = Some (-1) -> correctAt quiz answers i = false)
  /\ 0 <= Z.of_nat (computeScore quiz answers)
       <= Z.of_nat (length (questions quiz))
  /\ (forall (env : Env) (s : App) (id : string),
        app_activeQuiz s = Some quiz -> app_answers s = answers ->
        addDoc env = DocRef id ->
        exists r, app_currentResult (submitQuiz env s) = Some r
                  /\ score r = computeScore quiz answers
                  /\ total r = length (questions quiz)).
Proof.
  split; [apply computeScore_count|].
  split; [intros i q; apply unanswered_correctAt|].
  split; [intros i q; apply unanswered_not_correct|].
  split; [pose proof (computeScore_le quiz answers); lia|].
  intros env s id Hq Ha Hd.
  destruct (submitQuiz_result env s quiz id Hq Hd) as [Hr _].
  eexists. split; [exact Hr|]. simpl. rewrite Ha. split; reflexivity.
Qed.

(** ** The session *)

Lemma startQuiz_blank (env : Env) (quiz : Quiz) (s : App) :
  isEmpty (trim (app_studentName s)) = true ->
  startQuiz env quiz s = showToast nameMissingMessage error s.
Proof.
  intros H. unfold startQuiz. rewrite H. reflexivity.
Qed.

Lemma startQuiz_named (env : Env) (quiz : Quiz) (s : App) :
  isEmpty (trim (app_studentName s)) = false ->
  startQuiz env quiz s =
    mkApp student_quiz (app_studentName s) (Some quiz)
      (replicate (length (questions quiz)) (-1)) (app_currentResult s)
      (orDefault (durationMinutes quiz) 10 * 60) (app_toast s)
      (Some (app_studentName s)) (app_written s)
      (app_starts (if updateDocOk env
                   then incrementStarts (quiz_id quiz) s else s)).
Proof.
  intros H. unfold startQuiz. rewrite H.
  destruct (updateDocOk env); reflexivity.
Qed.

Lemma orDefault_nullish (d : option Z) (dflt : Z) :
  d <> Some 0 -> orDefault d dflt = spec_nullishDefault d dflt.
Proof.
  destruct d as [[| |]|]; simpl; intros H; congruence.
Qed.

(** C6.  [startQuiz] with a student name that is empty, or empty
    after trimming (the names of white space only, whatever the
    characters that [trim] takes for white space), only raises the
    error toast "Please enter your name first.": no answer set is
    allocated, the remaining time is not set, no quiz becomes active
    and the view does not change, so the session does not become
    active. *)
Theorem C6_blank_name_leaves_session_unchanged (env : Env) (quiz : Quiz)
    (s : App) :
  app_studentName s = "" \/ isEmpty (trim (app_studentName s)) = true ->
  let s' := step env (EvStart quiz) s in
  s' = showToast nameMissingMessage error s
  /\ app_toast s' = Some (nameMissingMessage, error)
  /\ app_answers s' = app_answers s
  /\ app_timeLeft s' = app_timeLeft s
  /\ app_activeQuiz s' = app_activeQuiz s
  /\ app_view s' = app_view s
  /\ app_currentResult s' = app_currentResult s
  /\ app_savedName s' = app_savedName s
  /\ app_written s' = app_written s
  /\ app_starts s' = app_starts s
  /\ (app_view s <> student_quiz -> app_view s' <> student_quiz).
Proof.
  intros Hname s'.
  assert (H : isEmpty (trim (app_studentName s)) = true).
  { destruct Hname as [-> | H]; [rewrite trim_empty; reflexivity | exact H]. }
  assert (E : s' = showToast nameMissingMessage error s).
  { subst s'. unfold step. simpl. rewrite (startQuiz_blank env quiz s H).
    simpl. rewrite bool_decide_eq_true_2 by (split; reflexivity).
    reflexivity. }
  rewrite E. simpl. repeat split; auto.
Qed.

(** The tenth minute is the default for the absent duration and for
    the duration zero alike. *)
Lemma orDefault_cases (d : option Z) (dflt : Z) :
  orDefault d dflt = if bool_decide (d = None ∨ d = Some 0)
                     then dflt else default dflt d.
Proof.
  destruct d as [[| |]|]; simpl; try reflexivity.
Qed.

(** The start step of a named student, with the effect of the render
    it causes. *)
Lemma start_session_state (env : Env) (quiz : Quiz) (s : App) :
  isEmpty (trim (app_studentName s)) = false ->
  step env (EvStart quiz) s = startQuiz env quiz s
  /\ startQuiz env quiz s =
      mkApp student_quiz (app_studentName s) (Some quiz)
        (replicate (length (questions quiz)) (-1)) (app_currentResult s)
        (orDefault (durationMinutes quiz) 10 * 60) (app_toast s)
        (Some (app_studentName s)) (app_written s)
        (app_starts (if updateDocOk env
                     then incrementStarts (quiz_id quiz) s else s)).
Proof.
  intros H.
  pose proof (startQuiz_named env quiz s H) as E.
  split; [|exact E].
  unfold step. simpl handle.
  case_bool_decide as Hd; [reflexivity|].
  unfold timerEffect, timerRunning. rewrite E. simpl.
  destruct (0 <? orDefault (durationMinutes quiz) 10 * 60) eqn:Hpos;
    [reflexivity|].
  destruct (orDefault (durationMinutes quiz) 10 * 60 =? 0) eqn:Hz;
    [|reflexivity].
  exfalso. apply Z.eqb_eq in Hz.
  destruct (durationMinutes quiz) as [[| |]|]; simpl in Hz; lia.
Qed.

(** C5, amended.  For a student name that is not empty after trimming
    (the gate [!studentName.trim()] of the source), [startQuiz]
    allocates one answer slot per question, each [-1], sets the
    remaining time to [(durationMinutes || 10) * 60] seconds, where the
    ten-minute default stands in for an absent duration and for the
    duration zero (and coincides with [durationMinutes ?? 10] for every
    other duration), makes the quiz the active one and shows the quiz
    view. *)
Theorem C5_start_initialises_session (env : Env) (quiz : Quiz) (s : App) :
  isEmpty (trim (app_studentName s)) = false ->
  let s' := step env (EvStart quiz) s in
  s' = startQuiz env quiz s
  /\ app_answers s' = replicate (length (questions quiz)) (-1)
  /\ length (app_answers s') = length (questions quiz)
  /\ Forall (fun a => a = -1) (app_answers s')
  /\ app_timeLeft s' = orDefault (durationMinutes quiz) 10 * 60
  /\ (durationMinutes quiz = None \/ durationMinutes quiz = Some 0 ->
      app_timeLeft s' = 600)
  /\ (durationMinutes quiz <> Some 0 ->
      app_timeLeft s' = spec_nullishDefault (durationMinutes quiz) 10 * 60)
  /\ app_activeQuiz s' = Some quiz
  /\ app_view s' = student_quiz
  /\ (let s0 := IndexTsx.startQuiz quiz s in
      app_answers s0 = app_answers s' /\ app_timeLeft s0 = app_timeLeft s'
      /\ app_activeQuiz s0 = app_activeQuiz s' /\ app_view s0 = app_view s').
Proof.
  intros H s'.
  destruct (start_session_state env quiz s H) as [Es E].
  fold s' in Es. rewrite Es, E. simpl.
  split; [reflexivity|]. split; [reflexivity|].
  split; [apply length_replicate|].
  split; [apply Forall_replicate; reflexivity|].
  split; [reflexivity|].
  split.
  { intros [-> | ->]; reflexivity. }
  split.
  { intros Hne. rewrite (orDefault_nullish _ _ Hne). reflexivity. }
  split; [reflexivity|]. split; [reflexivity|].
  unfold IndexTsx.startQuiz. rewrite H. simpl.
  repeat split; reflexivity.
Qed.

(** *** The timer *)

Lemma countDown_pred (t : Z) : 0 < t -> countDown t = t - 1.
Proof.
  intros H. unfold countDown. destruct (Z.leb_spec t 1); lia.
Qed.

Lemma timerRunning_true (s : App) :
  app_view s = student_quiz -> 0 < app_timeLeft s -> timerRunning s = true.
Proof.
  intros Hv Ht. unfold timerRunning.
  rewrite bool_decide_eq_true_2 by exact Hv.
  simpl. apply Z.ltb_lt. exact Ht.
Qed.

(** A tick of a running timer takes one second off. *)
Lemma tick_decrements (env : Env) (s : App) :
  app_view s = student_quiz -> 0 < app_timeLeft s ->
  handle env EvTick s = setTimeLeft (app_timeLeft s - 1) s.
Proof.
  intros Hv Ht. simpl. rewrite (timerRunning_true s Hv Ht).
  rewrite (countDown_pred _ Ht). reflexivity.
Qed.

(** With more than a second left nothing else happens. *)
Lemma step_tick_running (env : Env) (s : App) :
  app_view s = student_quiz -> 1 < app_timeLeft s ->
  step env EvTick s = setTimeLeft (app_timeLeft s - 1) s.
Proof.
  intros Hv Ht. unfold step.
  rewrite (tick_decrements env s Hv) by lia.
  case_bool_decide as Hd; [reflexivity|].
  unfold timerEffect. rewrite timerRunning_true; simpl; auto with lia.
Qed.

(** The tick that brings the remaining time to zero submits. *)
Lemma step_tick_last (env : Env) (s : App) (quiz : Quiz) :
  app_view s = student_quiz -> app_timeLeft s = 1 ->
  app_activeQuiz s = Some quiz ->
  step env EvTick s = submitQuiz env (setTimeLeft 0 s).
Proof.
  intros Hv Ht Hq. unfold step.
  rewrite (tick_decrements env s Hv) by lia.
  case_bool_decide as Hd.
  { destruct Hd as [Hd _]. simpl in Hd. lia. }
  rewrite Ht. unfold timerEffect, timerRunning. simpl.
  rewrite bool_decide_eq_true_2 by exact Hv. simpl.
  rewrite Hq. rewrite bool_decide_eq_true_2 by eauto.
  reflexivity.
Qed.

Lemma ticks_cons (env : Env) (envs : list Env) (s : App) :
  ticks (env :: envs) s = ticks envs (step env EvTick s).
Proof. reflexivity. Qed.

Lemma ticks_app (envs1 envs2 : list Env) (s : App) :
  ticks (envs1 ++ envs2) s = ticks envs2 (ticks envs1 s).
Proof. unfold ticks. apply foldl_app. Qed.

(** As long as more than a second stays, [n] ticks take [n] seconds off
    and change nothing else. *)
Lemma ticks_countdown (envs : list Env) (s : App) :
  app_view s = student_quiz ->
  Z.of_nat (length envs) < app_timeLeft s ->
  ticks envs s = setTimeLeft (app_timeLeft s - Z.of_nat (length envs)) s.
Proof.
  revert s. induction envs as [|env envs IH]; intros s Hv Ht.
  - simpl. rewrite Z.sub_0_r. destruct s; reflexivity.
  - rewrite ticks_cons. simpl length in *.
    rewrite (step_tick_running env s Hv) by lia.
    rewrite IH; simpl; [|exact Hv|lia].
    unfold setTimeLeft. simpl. f_equal. lia.
Qed.

(** C4, amended.  While the quiz view is shown with time left, a tick
    takes one second off the remaining time.  The tick that brings it
    to zero runs [submitQuiz] whatever the answers are: if the store
    accepts the write, the result view is shown with the result scored
    from the answers as they stand; if the store rejects it, the quiz
    view stays, with zero seconds left, an error toast and no result.
    In particular, after a start with [durationMinutes = 1] and sixty
    ticks without any answer, the last of which finds the store
    accepting, the session is finished with a result whose score is
    the score of the all-unanswered set, that is 0 for a quiz that
    satisfies the invariant on [correctIndex]. *)
Theorem C4_timeout_submits :
  (forall (env : Env) (s : App),
      app_view s = student_quiz -> 0 < app_timeLeft s ->
      app_timeLeft (handle env EvTick s) = app_timeLeft s - 1)
  /\ (forall (env : Env) (s : App) (quiz : Quiz) (id : string),
      app_view s = student_quiz -> app_activeQuiz s = Some quiz ->
      app_timeLeft s = 1 -> addDoc env = DocRef id ->
      app_view (step env EvTick s) = student_result
      /\ app_currentResult (step env EvTick s) =
           Some (mkResult id (quiz_id quiz) (app_studentName s)
                   (computeScore quiz (app_answers s))
                   (length (questions quiz)) (dateNow env)))
  /\ (forall (env : Env) (s : App) (quiz : Quiz) (message : string),
      app_view s = student_quiz -> app_activeQuiz s = Some quiz ->
      app_timeLeft s = 1 -> addDoc env = Rejected message ->
      step env EvTick s =
        showToast ("Submission failed: " +:+ message) error (setTimeLeft 0 s))
  /\ (forall (env0 envLast : Env) (envs : list Env) (s : App) (quiz : Quiz)
             (id : string),
      isEmpty (trim (app_studentName s)) = false ->
      durationMinutes quiz = Some 1 ->
      length envs = 59%nat ->
      addDoc envLast = DocRef id ->
      let s1 := step env0 (EvStart quiz) s in
      let s2 := ticks (envs ++ [envLast]) s1 in
      app_timeLeft s1 = 60
      /\ app_view s2 = student_result
      /\ app_currentResult s2 =
           Some (mkResult id (quiz_id quiz) (app_studentName s)
                   (computeScore quiz
                      (replicate (length (questions quiz)) (-1)))
                   (length (questions quiz)) (dateNow envLast))
      /\ (valid_quiz quiz ->
          computeScore quiz (replicate (length (questions quiz)) (-1))
          = 0%nat)).
Proof.
  split.
  { intros env s Hv Ht. rewrite (tick_decrements env s Hv Ht). reflexivity. }
  split.
  { intros env s quiz id Hv Hq Ht Hd.
    rewrite (step_tick_last env s quiz Hv Ht Hq).
    destruct (submitQuiz_result env (setTimeLeft 0 s) quiz id Hq Hd)
      as [Hr Hview].
    split; [exact Hview | exact Hr]. }
  split.
  { intros env s quiz message Hv Hq Ht Hd.
    rewrite (step_tick_last env s quiz Hv Ht Hq).
    unfold submitQuiz. simpl. rewrite Hq, Hd. reflexivity. }
  intros env0 envLast envs s quiz id Hname Hdur Hlen Hd s1 s2.
  destruct (start_session_state env0 quiz s Hname) as [Es1 E].
  fold s1 in Es1. rewrite E in Es1. rewrite Hdur in Es1. simpl in Es1.
  clearbody s1. subst s1. clear E.
  set (st := mkApp student_quiz (app_studentName s) (Some quiz)
               (replicate (length (questions quiz)) (-1))
               (app_currentResult s) (1 * 60) (app_toast s)
               (Some (app_studentName s)) (app_written s)
               (app_starts (if updateDocOk env0
                            then incrementStarts (quiz_id quiz) s
                            else s))) in *.
  assert (Hs2 : s2 = submitQuiz envLast (setTimeLeft 0 st)).
  { subst s2. rewrite ticks_app.
    rewrite (ticks_countdown envs st eq_refl)
      by (rewrite Hlen; simpl; lia).
    rewrite Hlen.
    change (ticks [envLast] ?x) with (step envLast EvTick x).
    rewrite (step_tick_last envLast
               (setTimeLeft (app_timeLeft st - Z.of_nat 59) st) quiz
               eq_refl eq_refl eq_refl).
    reflexivity. }
  split; [reflexivity|].
  destruct (submitQuiz_result envLast (setTimeLeft 0 st) quiz id eq_refl Hd)
    as [Hr Hview].
  rewrite Hs2. split; [exact Hview|].
  split; [exact Hr|].
  apply computeScore_unanswered.
Qed.

(** ** The sort *)

Lemma StronglySorted_weaken {A : Type} (R R' : A -> A -> Prop) (l : list A) :
  (forall a b, R a b -> R' a b) ->
  StronglySorted R l -> StronglySorted R' l.
Proof.
  intros HR. induction 1 as [|x l Hs IH Hx]; constructor; [exact IH|].
  eapply Forall_impl; [exact Hx|]. intros y. apply HR.
Qed.

Section SortFacts.
Context {A : Type} (cmp : A -> A -> Z).

Lemma insertBy_perm (x : A) (l : list A) : insertBy cmp x l ≡ₚ x :: l.
Proof.
  induction l as [|y l IH]; simpl; [reflexivity|].
  destruct (cmp x y <=? 0); [reflexivity|].
  rewrite IH. apply Permutation_swap.
Qed.

Lemma sortBy_perm (l : list A) : sortBy cmp l ≡ₚ l.
Proof.
  induction l as [|x l IH]; simpl; [reflexivity|].
  rewrite insertBy_perm. rewrite IH. reflexivity.
Qed.

Lemma elem_of_sortBy (l : list A) (x : A) : x ∈ sortBy cmp l <-> x ∈ l.
Proof. rewrite (sortBy_perm l). reflexivity. Qed.

Lemma sortBy_length (l : list A) : length (sortBy cmp l) = length l.
Proof. rewrite (sortBy_perm l). reflexivity. Qed.

(** The result is sorted when the comparator is that of a total
    preorder. *)
Section Ordered.
Hypothesis cmp_total : forall a b, cmpLe cmp a b \/ cmpLe cmp b a.
Hypothesis cmp_trans : forall a b c, cmpLe cmp a b -> cmpLe cmp b c -> cmpLe cmp a c.

Lemma insertBy_sorted (x : A) (l : list A) :
  StronglySorted (cmpLe cmp) l ->
  StronglySorted (cmpLe cmp) (insertBy cmp x l).
Proof.
  induction 1 as [|y l Hs IH Hy]; simpl.
  - repeat constructor.
  - destruct (Z.leb_spec (cmp x y) 0) as [Hle|Hgt].
    + constructor; [constructor; assumption|].
      constructor; [exact Hle|].
      eapply Forall_impl; [exact Hy|].
      intros z Hz. eapply cmp_trans; [exact Hle | exact Hz].
    + constructor; [exact IH|].
      rewrite (insertBy_perm x l). constructor; [|exact Hy].
      destruct (cmp_total y x) as [H|H]; [exact H|].
      unfold cmpLe in H. lia.
Qed.

Lemma sortBy_sorted (l : list A) :
  StronglySorted (cmpLe cmp) (sortBy cmp l).
Proof.
  induction l as [|x l IH]; simpl; [constructor|].
  apply insertBy_sorted. exact IH.
Qed.
End Ordered.

(** Stability: the elements of a class whose members never have to
    be exchanged keep their order. *)
Section Stable.
Variable p : A -> bool.
Hypothesis p_class : forall a b, p a = true -> p b = true -> cmpLe cmp a b.

Lemma filter_insertBy (x : A) (l : list A) :
  List.filter p (insertBy cmp x l) = List.filter p (x :: l).
Proof.
  induction l as [|y l IH]; [reflexivity|].
  simpl insertBy.
  destruct (Z.leb_spec (cmp x y) 0) as [Hle|Hgt]; [reflexivity|].
  change (List.filter p (y :: insertBy cmp x l))
    with (if p y then y :: List.filter p (insertBy cmp x l)
          else List.filter p (insertBy cmp x l)).
  rewrite IH. simpl.
  destruct (p y) eqn:Hy; [|reflexivity].
  destruct (p x) eqn:Hx; [|reflexivity].
  pose proof (p_class x y Hx Hy) as H. unfold cmpLe in H. lia.
Qed.

Lemma filter_sortBy (l : list A) :
  List.filter p (sortBy cmp l) = List.filter p l.
Proof.
  induction l as [|x l IH]; [reflexivity|].
  simpl sortBy. rewrite filter_insertBy. simpl. rewrite IH. reflexivity.
Qed.
End Stable.

(** Two comparators that agree on [x] against every element of [l]
    insert [x] at the same place. *)
Lemma insertBy_agree (cmp' : A -> A -> Z) (x : A) (l : list A) :
  Forall (fun y => cmp x y <= 0 <-> cmp' x y <= 0) l ->
  insertBy cmp x l = insertBy cmp' x l.
Proof.
  induction 1 as [|y l Hy Hl IH]; simpl; [reflexivity|].
  destruct (Z.leb_spec (cmp x y) 0) as [H|H];
    destruct (Z.leb_spec (cmp' x y) 0) as [H'|H']; try lia.
  - reflexivity.
  - rewrite IH. reflexivity.
Qed.
End SortFacts.

(** *** The comparators of the leaderboard *)

Lemma byDateAsc_le (a b : Result) :
  cmpLe byDateAsc a b <-> date a <= date b.
Proof. unfold cmpLe, byDateAsc. lia. Qed.

Lemma byScoreThenDate_le (a b : Result) :
  cmpLe byScoreThenDate a b <-> ranksBefore a b.
Proof.
  unfold cmpLe, byScoreThenDate, ranksBefore.
  destruct (decide (score b ≠ score a)) as [Hne|Heq]; [lia|].
  assert (score b = score a) by (destruct (decide (score b = score a)); tauto).
  lia.
Qed.

Lemma byScoreDesc_le (a b : Result) :
  cmpLe byScoreDesc a b <-> (score b <= score a)%nat.
Proof. unfold cmpLe, byScoreDesc. lia. Qed.

Lemma ranksBefore_total (a b : Result) : ranksBefore a b \/ ranksBefore b a.
Proof. unfold ranksBefore. lia. Qed.

Lemma ranksBefore_trans (a b c : Result) :
  ranksBefore a b -> ranksBefore b c -> ranksBefore a c.
Proof. unfold ranksBefore. lia. Qed.

Lemma sortBy_byDateAsc_sorted (l : list Result) :
  StronglySorted (fun a b => date a <= date b) (sortBy byDateAsc l).
Proof.
  apply (StronglySorted_weaken (cmpLe byDateAsc)).
  - intros a b. apply byDateAsc_le.
  - apply sortBy_sorted.
    + intros a b. unfold cmpLe, byDateAsc. lia.
    + intros a b c. unfold cmpLe, byDateAsc. lia.
Qed.

Lemma sortBy_byScoreThenDate_sorted (l : list Result) :
  StronglySorted ranksBefore (sortBy byScoreThenDate l).
Proof.
  apply (StronglySorted_weaken (cmpLe byScoreThenDate)).
  - intros a b. apply byScoreThenDate_le.
  - apply sortBy_sorted.
    + intros a b. rewrite !byScoreThenDate_le. apply ranksBefore_total.
    + intros a b c. rewrite !byScoreThenDate_le. apply ranksBefore_trans.
Qed.

(** Entries with the same score and the same time stamp leave the
    final sort in the order in which they entered it. *)
Lemma sortBy_byScoreThenDate_stable (points : nat) (stamp : Z)
    (l : list Result) :
  let tied := fun r => (score r =? points)%nat && (date r =? stamp) in
  List.filter tied (sortBy byScoreThenDate l) = List.filter tied l.
Proof.
  intros tied. apply filter_sortBy.
  intros a b Ha Hb. unfold tied in Ha, Hb.
  apply andb_prop in Ha. apply andb_prop in Hb.
  destruct Ha as [Ha1 Ha2]. destruct Hb as [Hb1 Hb2].
  apply Nat.eqb_eq in Ha1, Hb1. apply Z.eqb_eq in Ha2, Hb2.
  apply byScoreThenDate_le. unfold ranksBefore. lia.
Qed.

(** On a list in ascending order of date, the stable sort by score
    alone and the sort by score and then date are the same sort. *)
Lemma sortBy_score_on_dated (l : list Result) :
  StronglySorted (fun a b => date a <= date b) l ->
  sortBy byScoreDesc l = sortBy byScoreThenDate l.
Proof.
  induction 1 as [|x l Hs IH Hx]; [reflexivity|].
  simpl. rewrite IH. apply insertBy_agree.
  rewrite (sortBy_perm byScoreThenDate l).
  eapply Forall_impl; [exact Hx|].
  intros y Hy. simpl in Hy. unfold byScoreDesc, byScoreThenDate.
  destruct (decide (score y ≠ score x)) as [Hne|Heq]; [reflexivity|].
  assert (score y = score x) by (destruct (decide (score y = score x)); tauto).
  lia.
Qed.

(** ** The key of the leaderboard *)

Lemma append_cons (c : ascii) (s t : string) :
  String c s +:+ t = String c (s +:+ t).
Proof. reflexivity. Qed.

Lemma append_nil (t : string) : "" +:+ t = t.
Proof. reflexivity. Qed.

Lemma dashFree_append_dash (s t : string) :
  dashFree (s +:+ String "-" t) = false.
Proof.
  induction s as [|c s IH].
  - reflexivity.
  - rewrite append_cons. simpl. rewrite IH. apply andb_false_r.
Qed.

Lemma append_dash_inj_cons (s1 s2 d1 d2 : string) :
  dashFree d1 = true -> dashFree d2 = true ->
  s1 +:+ String "-" d1 = s2 +:+ String "-" d2 -> s1 = s2 /\ d1 = d2.
Proof.
  intros Hd1 Hd2. revert s2.
  induction s1 as [|c1 s1 IH]; intros [|c2 s2] H.
  - rewrite !append_nil in H. injection H as H. split; [reflexivity|exact H].
  - rewrite append_nil, (append_cons c2 s2) in H.
    injection H as Hc Hrest.
    rewrite Hrest, dashFree_append_dash in Hd1. discriminate.
  - rewrite append_nil, (append_cons c1 s1) in H.
    injection H as Hc Hrest.
    rewrite <- Hrest, dashFree_append_dash in Hd2. discriminate.
  - rewrite (append_cons c1 s1), (append_cons c2 s2) in H.
    injection H as Hc Hrest.
    destruct (IH s2 Hrest) as [-> ->]. subst. split; reflexivity.
Qed.

(** A name, a dash and a dash-free tail determine the name and the
    tail. *)
Lemma append_dash_inj (s1 s2 d1 d2 : string) :
  dashFree d1 = true -> dashFree d2 = true ->
  s1 +:+ "-" +:+ d1 = s2 +:+ "-" +:+ d2 -> s1 = s2 /\ d1 = d2.
Proof.
  intros Hd1 Hd2 H. apply append_dash_inj_cons; assumption.
Qed.

Lemma dashFree_pretty_N_go (x : N) (s : string) :
  dashFree s = true -> dashFree (pretty_N_go x s) = true.
Proof.
  revert s. induction (N.lt_wf_0 x) as [x _ IH]; intros s Hs.
  assert (x = 0 ∨ 0 < x)%N as [->|Hpos] by lia.
  - rewrite pretty_N_go_0. exact Hs.
  - rewrite pretty_N_go_step by exact Hpos.
    apply IH.
    + apply N.div_lt; lia.
    + simpl. rewrite Hs, andb_true_r.
      unfold pretty_N_char. repeat case_match; reflexivity.
Qed.

(** The decimal numeral of a score has no dash. *)
Lemma dashFree_pretty_nat (n : nat) : dashFree (pretty n) = true.
Proof.
  unfold pretty, pretty_nat, pretty, pretty_N.
  case_decide; [reflexivity|].
  apply dashFree_pretty_N_go. reflexivity.
Qed.

(** The template string of the source identifies exactly the pair
    (normalized name, score). *)
Lemma resultKey_dedupKey (a b : Result) :
  resultKey a = resultKey b <-> dedupKey a = dedupKey b.
Proof.
  unfold resultKey, dedupKey, normalizedName. split.
  - intros H.
    apply append_dash_inj in H; try apply dashFree_pretty_nat.
    destruct H as [Hn Hs]. apply (inj pretty) in Hs. congruence.
  - intros H. injection H as Hn Hs. rewrite Hn, Hs. reflexivity.
Qed.

(** ** First occurrences *)

Lemma NoDup_fmap_filter {A K : Type} (key : A -> K) (P : A -> Prop)
    `{forall x, Decision (P x)} (l : list A) :
  NoDup (key <$> l) -> NoDup (key <$> filter P l).
Proof.
  induction l as [|x l IH]; [intros; constructor|].
  rewrite fmap_cons. intros Hnd. apply NoDup_cons in Hnd.
  destruct Hnd as [Hx Hl].
  destruct (decide (P x)) as [HP|HP].
  - rewrite (filter_cons_True P x l HP), fmap_cons.
    apply NoDup_cons. split; [|apply IH; exact Hl].
    intros Hin. apply Hx.
    apply list_elem_of_fmap in Hin. destruct Hin as (y & Hk & Hy).
    apply list_elem_of_filter in Hy. destruct Hy as [_ Hy].
    apply list_elem_of_fmap. exists y. split; assumption.
  - rewrite (filter_cons_False P x l HP). apply IH. exact Hl.
Qed.

Lemma StronglySorted_filter_keep {A : Type} (R : A -> A -> Prop)
    (P : A -> Prop) `{forall x, Decision (P x)} (l : list A) :
  StronglySorted R l -> StronglySorted R (filter P l).
Proof.
  induction 1 as [|x l Hs IH Hx]; [constructor|].
  destruct (decide (P x)) as [HP|HP].
  - rewrite (filter_cons_True P x l HP). constructor; [exact IH|].
    rewrite Forall_forall in *. intros y Hy.
    apply list_elem_of_filter in Hy. apply Hx. tauto.
  - rewrite (filter_cons_False P x l HP). exact IH.
Qed.

Section FirstOccurrences.
Context {A K : Type} `{EqDecision K} (key : A -> K).

Lemma firstOccurrences_filter_key (k : K) (l : list A) :
  firstOccurrences key (filter (fun y => key y ≠ k) l)
  = filter (fun y => key y ≠ k) (firstOccurrences key l).
Proof.
  induction l as [|x l IH]; [reflexivity|].
  simpl firstOccurrences at 2.
  destruct (decide (key x = k)) as [Heq|Hne].
  - rewrite (filter_cons_False _ x l) by (intros H; apply H; exact Heq).
    rewrite (filter_cons_False _ x)
      by (intros H; apply H; exact Heq).
    rewrite IH. rewrite list_filter_filter.
    apply list_filter_iff. intros y. rewrite Heq. tauto.
  - rewrite (filter_cons_True _ x l) by exact Hne.
    rewrite (filter_cons_True _ x) by exact Hne.
    simpl. f_equal. rewrite IH. rewrite !list_filter_filter.
    apply list_filter_iff. intros y. tauto.
Qed.

Lemma elem_of_firstOccurrences (l : list A) (x : A) :
  x ∈ firstOccurrences key l -> x ∈ l.
Proof.
  induction l as [|y l IH]; simpl; [tauto|].
  rewrite !elem_of_cons, list_elem_of_filter. tauto.
Qed.

(** Every key of the list survives. *)
Lemma firstOccurrences_covers (l : list A) (x : A) :
  x ∈ l -> exists y, y ∈ firstOccurrences key l /\ key y = key x.
Proof.
  induction l as [|z l IH]; intros Hx.
  - apply elem_of_nil in Hx. destruct Hx.
  - simpl. apply elem_of_cons in Hx.
    destruct (decide (key x = key z)) as [Heq|Hne].
    + exists z. split; [apply elem_of_cons; left; reflexivity|].
      symmetry. exact Heq.
    + destruct Hx as [->|Hx]; [congruence|].
      destruct (IH Hx) as (y & Hy & Hk).
      exists y. split; [|exact Hk].
      apply elem_of_cons. right. apply list_elem_of_filter.
      split; [congruence | exact Hy].
Qed.

(** No key survives twice. *)
Lemma firstOccurrences_NoDup (l : list A) :
  NoDup (key <$> firstOccurrences key l).
Proof.
  induction l as [|x l IH]; [constructor|].
  cbn [firstOccurrences]. rewrite fmap_cons. apply NoDup_cons. split.
  - intros Hin. apply list_elem_of_fmap in Hin.
    destruct Hin as (y & Hk & Hy).
    apply list_elem_of_filter in Hy. destruct Hy as [Hne _].
    apply Hne. symmetry. exact Hk.
  - apply NoDup_fmap_filter. exact IH.
Qed.

(** The survivor of a key is the first element that carries it: in
    a list sorted by a reflexive order it is a least one. *)
Lemma firstOccurrences_least (R : A -> A -> Prop) (l : list A) :
  (forall a, R a a) -> StronglySorted R l ->
  forall y x, y ∈ firstOccurrences key l -> x ∈ l -> key x = key y ->
              R y x.
Proof.
  intros Hrefl. induction 1 as [|a l Hs IH Ha]; intros y x Hy Hx Hk.
  - apply elem_of_nil in Hx. destruct Hx.
  - simpl in Hy. apply elem_of_cons in Hy. apply elem_of_cons in Hx.
    destruct Hy as [->|Hy].
    + destruct Hx as [->|Hx]; [apply Hrefl|].
      rewrite Forall_forall in Ha. apply Ha. exact Hx.
    + apply list_elem_of_filter in Hy. destruct Hy as [Hne Hy].
      destruct Hx as [->|Hx]; [congruence|].
      apply IH; assumption.
Qed.

Lemma firstOccurrences_sorted (R : A -> A -> Prop) (l : list A) :
  StronglySorted R l -> StronglySorted R (firstOccurrences key l).
Proof.
  induction 1 as [|a l Hs IH Ha]; simpl; [constructor|].
  constructor.
  - apply StronglySorted_filter_keep. exact IH.
  - rewrite Forall_forall in *. intros y Hy.
    apply list_elem_of_filter in Hy. destruct Hy as [_ Hy].
    apply Ha. apply elem_of_firstOccurrences. exact Hy.
Qed.
End FirstOccurrences.

(** Two keys that identify the same elements keep the same elements. *)
Lemma firstOccurrences_key_ext {A K1 K2 : Type} `{EqDecision K1}
    `{EqDecision K2} (k1 : A -> K1) (k2 : A -> K2) (l : list A) :
  (forall x y, k1 x = k1 y <-> k2 x = k2 y) ->
  firstOccurrences k1 l = firstOccurrences k2 l.
Proof.
  intros Hk. induction l as [|x l IH]; simpl; [reflexivity|].
  rewrite IH. f_equal. apply list_filter_iff.
  intros y. rewrite (Hk y x). reflexivity.
Qed.

(** ** The leaderboard *)

Lemma filter_all {A : Type} (P : A -> Prop) `{forall x, Decision (P x)}
    (l : list A) :
  (forall x, P x) -> filter P l = l.
Proof.
  intros HP. induction l as [|x l IH]; [reflexivity|].
  rewrite (filter_cons_True P x l (HP x)). rewrite IH. reflexivity.
Qed.

(** The loop over [quizResults], started with the keys [seen] and the
    entries [acc]: it appends, of the elements whose key is not in
    [seen], the first occurrence of every key. *)
Lemma dedup_loop (l : list Result) (seen : gset string) (acc : list Result) :
  (foldl dedupStep (seen, acc) l).2
  = acc ++ firstOccurrences resultKey
             (filter (fun r => resultKey r ∉ seen) l).
Proof.
  revert seen acc. induction l as [|x l IH]; intros seen acc.
  - simpl. rewrite app_nil_r. reflexivity.
  - simpl foldl. unfold dedupStep at 2. simpl.
    destruct (decide (resultKey x ∈ seen)) as [Hin|Hnin].
    + rewrite IH. rewrite (filter_cons_False _ x l); [reflexivity|].
      intros H. apply H. exact Hin.
    + rewrite IH. rewrite (filter_cons_True _ x l) by exact Hnin.
      cbn [firstOccurrences]. rewrite <- app_assoc. simpl.
      do 2 f_equal.
      rewrite <- firstOccurrences_filter_key, list_filter_filter.
      f_equal. apply list_filter_iff. intros y.
      rewrite elem_of_union, elem_of_singleton. tauto.
Qed.

(** The loop keeps the first occurrence of every pair (normalized
    name, score). *)
Lemma uniqueResults_firstOccurrences (l : list Result) :
  uniqueResults l = firstOccurrences dedupKey l.
Proof.
  unfold uniqueResults. rewrite dedup_loop. simpl.
  rewrite filter_all by (intros x; apply not_elem_of_empty).
  apply firstOccurrences_key_ext. apply resultKey_dedupKey.
Qed.

Lemma getLeaderboard_spec (results : list Result) (quiz : string) :
  getLeaderboard results quiz = spec_leaderboard results quiz.
Proof.
  unfold getLeaderboard, spec_leaderboard, quizResultsByDate.
  rewrite uniqueResults_firstOccurrences. reflexivity.
Qed.

Lemma getLeaderboard_perm (results : list Result) (quiz : string) :
  getLeaderboard results quiz
  ≡ₚ firstOccurrences dedupKey
       (sortBy byDateAsc (filter (fun r => quizId r = quiz) results)).
Proof.
  rewrite getLeaderboard_spec. unfold spec_leaderboard.
  apply sortBy_perm.
Qed.

Lemma getLeaderboard_elem (results : list Result) (quiz : string)
    (e : Result) :
  e ∈ getLeaderboard results quiz -> e ∈ results /\ quizId e = quiz.
Proof.
  rewrite getLeaderboard_perm. intros H.
  apply elem_of_firstOccurrences in H.
  apply elem_of_sortBy in H. apply list_elem_of_filter in H. tauto.
Qed.

Lemma getLeaderboard_keys_NoDup (results : list Result) (quiz : string) :
  NoDup (dedupKey <$> getLeaderboard results quiz).
Proof.
  rewrite getLeaderboard_perm. apply firstOccurrences_NoDup.
Qed.

Lemma getLeaderboard_covers (results : list Result) (quiz : string)
    (r : Result) :
  r ∈ results -> quizId r = quiz ->
  exists e, e ∈ getLeaderboard results quiz /\ dedupKey e = dedupKey r.
Proof.
  intros Hr Hq.
  destruct (firstOccurrences_covers dedupKey
              (sortBy byDateAsc (filter (fun r => quizId r = quiz) results)) r)
    as (e & He & Hk).
  { apply elem_of_sortBy. apply list_elem_of_filter. tauto. }
  exists e. split; [|exact Hk]. rewrite getLeaderboard_perm. exact He.
Qed.

Lemma getLeaderboard_earliest (results : list Result) (quiz : string)
    (e r : Result) :
  e ∈ getLeaderboard results quiz ->
  r ∈ results -> quizId r = quiz -> dedupKey r = dedupKey e ->
  date e <= date r.
Proof.
  rewrite getLeaderboard_perm. intros He Hr Hq Hk.
  apply (firstOccurrences_least dedupKey (fun a b => date a <= date b)
           (sortBy byDateAsc (filter (fun r => quizId r = quiz) results))).
  - intros a. lia.
  - apply sortBy_byDateAsc_sorted.
  - exact He.
  - apply elem_of_sortBy. apply list_elem_of_filter. tauto.
  - exact Hk.
Qed.

(** The ranking of [isTop3] is the leaderboard. *)
Lemma isTop3_sorted_getLeaderboard (results : list Result) (quiz : string) :
  isTop3_sorted quiz results = getLeaderboard results quiz.
Proof.
  unfold isTop3_sorted, getLeaderboard.
  apply sortBy_score_on_dated.
  rewrite uniqueResults_firstOccurrences.
  apply firstOccurrences_sorted. apply sortBy_byDateAsc_sorted.
Qed.

(** C2.  The leaderboard of a quiz is obtained from the results by
    keeping those of the quiz, sorting them by ascending time stamp,
    keeping of every pair (trimmed lowercased name, score) the
    earliest occurrence only, and ordering the survivors by descending
    score, equal scores by ascending time stamp; the rank shown with
    an entry is its position counted from 1. *)
Theorem C2_leaderboard_algorithm (results : list Result) (quiz : string) :
  let board := getLeaderboard results quiz in
  let dated := sortBy byDateAsc (filter (fun r => quizId r = quiz) results) in
  board = spec_leaderboard results quiz
  /\ dated ≡ₚ filter (fun r => quizId r = quiz) results
  /\ StronglySorted (fun a b => date a <= date b) dated
  /\ board ≡ₚ firstOccurrences dedupKey dated
  /\ (forall e, e ∈ board -> e ∈ results /\ quizId e = quiz)
  /\ NoDup (dedupKey <$> board)
  /\ (forall r, r ∈ results -> quizId r = quiz ->
        exists e, e ∈ board /\ dedupKey e = dedupKey r /\ date e <= date r)
  /\ StronglySorted ranksBefore board
  /\ (forall (i rank : nat) (r : Result),
        leaderboardRows results quiz !! i = Some (rank, r)
        <-> rank = S i /\ board !! i = Some r).
Proof.
  intros board dated.
  split; [apply getLeaderboard_spec|].
  split; [apply sortBy_perm|].
  split; [apply sortBy_byDateAsc_sorted|].
  split; [apply getLeaderboard_perm|].
  split; [apply getLeaderboard_elem|].
  split; [apply getLeaderboard_keys_NoDup|].
  split.
  { intros r Hr Hq.
    destruct (getLeaderboard_covers results quiz r Hr Hq) as (e & He & Hk).
    exists e. split; [exact He|]. split; [exact Hk|].
    apply (getLeaderboard_earliest results quiz e r He Hr Hq).
    symmetry. exact Hk. }
  split; [apply sortBy_byScoreThenDate_sorted|].
  intros i rank r. unfold leaderboardRows. rewrite list_lookup_imap.
  fold board. destruct (board !! i) as [e|]; simpl.
  - split.
    + intros H. injection H as <- <-. split; reflexivity.
    + intros [-> H]. injection H as <-. reflexivity.
  - split; [discriminate|]. intros [_ H]. discriminate.
Qed.

(** C8.  Of two results of a quiz with the same normalized student
    name and the same score the leaderboard holds one entry only: it
    is an entry of that name and score with the earliest time stamp
    among all such results, and a result with a later time stamp than
    its duplicate is not on the leaderboard. *)
Theorem C8_duplicates_collapse_to_earliest (results : list Result)
    (quiz : string) (r1 r2 : Result) :
  r1 ∈ results -> r2 ∈ results ->
  quizId r1 = quiz -> quizId r2 = quiz ->
  normalizedName (studentName r1) = normalizedName (studentName r2) ->
  score r1 = score r2 ->
  let board := getLeaderboard results quiz in
  (exists (i : nat) (e : Result),
      board !! i = Some e
      /\ normalizedName (studentName e) = normalizedName (studentName r1)
      /\ score e = score r1
      /\ date e <= date r1 /\ date e <= date r2
      /\ (forall r, r ∈ results -> quizId r = quiz ->
                    dedupKey r = dedupKey e -> date e <= date r)
      /\ (forall (j : nat) (e' : Result),
            board !! j = Some e' -> dedupKey e' = dedupKey r1 -> j = i))
  /\ (date r1 < date r2 -> r2 ∉ board).
Proof.
  intros H1 H2 Hq1 Hq2 Hn Hs board.
  assert (Hk : dedupKey r2 = dedupKey r1).
  { unfold dedupKey. rewrite Hn, Hs. reflexivity. }
  destruct (getLeaderboard_covers results quiz r1 H1 Hq1) as (e & He & Hke).
  fold board in He.
  assert (Hearly : forall r, r ∈ results -> quizId r = quiz ->
                             dedupKey r = dedupKey e -> date e <= date r).
  { intros r Hr Hq Hkr.
    apply (getLeaderboard_earliest results quiz e r); assumption. }
  split.
  - apply list_elem_of_lookup in He. destruct He as [i Hi].
    exists i, e. split; [exact Hi|].
    unfold dedupKey in Hke. injection Hke as Hname Hscore.
    split; [exact Hname|]. split; [exact Hscore|].
    split; [apply Hearly; auto; unfold dedupKey; congruence|].
    split; [apply Hearly; auto; unfold dedupKey; congruence|].
    split; [exact Hearly|].
    intros j e' Hj Hk'.
    apply (NoDup_lookup (dedupKey <$> board) j i (dedupKey e)).
    + apply getLeaderboard_keys_NoDup.
    + rewrite list_lookup_fmap, Hj. simpl. f_equal.
      rewrite Hk'. unfold dedupKey. congruence.
    + rewrite list_lookup_fmap, Hi. reflexivity.
  - intros Hlt Hin.
    pose proof (getLeaderboard_earliest results quiz r2 r1 Hin H1 Hq1
                  (eq_sym Hk)) as Hle.
    lia.
Qed.

(** C10.  The array that [isTop3] ranks (the stable sort by descending
    score of the date-ordered, deduplicated results) is, element for
    element, the sequence returned by [getLeaderboard]. *)
Theorem C10_isTop3_ranking_is_leaderboard (results : list Result)
    (quiz : string) :
  isTop3_sorted quiz results = getLeaderboard results quiz
  /\ (forall i : nat,
        isTop3_sorted quiz results !! i = getLeaderboard results quiz !! i).
Proof.
  pose proof (isTop3_sorted_getLeaderboard results quiz) as E.
  split; [exact E|]. intros i. rewrite E. reflexivity.
Qed.

(** ** Badges *)

Lemma sameStudent_true (name : string) (r : Result) :
  sameStudent name r = true
  <-> toLowerCase (studentName r) = toLowerCase name.
Proof. unfold sameStudent. apply bool_decide_eq_true. Qed.

Lemma existsb_elem_of {A : Type} (p : A -> bool) (l : list A) :
  existsb p l = true <-> exists x, x ∈ l /\ p x = true.
Proof.
  rewrite existsb_exists. split; intros (x & Hx & Hp); exists x;
    (split; [apply list_elem_of_In; exact Hx | exact Hp]).
Qed.

(** C9.  The Grammar Master badge holds exactly when some result whose
    student name equals the given name up to case (the two names have
    the same lowercase form) has its score equal to its total; for the
    results 3 of 5 and 4 of 4 of one student it holds. *)
Theorem C9_grammar_master_iff_perfect_result (name : string)
    (results : list Result) :
  (hasGrammarMaster name results = true
   <-> exists r, r ∈ results
                 /\ toLowerCase (studentName r) = toLowerCase name
                 /\ score r = total r)
  /\ (forall (id1 id2 quiz1 quiz2 : string) (date1 date2 : Z),
        hasGrammarMaster name
          [ mkResult id1 quiz1 name 3 5 date1;
            mkResult id2 quiz2 name 4 4 date2 ] = true).
Proof.
  split.
  - unfold hasGrammarMaster. rewrite existsb_elem_of.
    split.
    + intros (r & Hr & Hp). apply andb_prop in Hp. destruct Hp as [Hn Hs].
      exists r. split; [exact Hr|].
      split; [apply sameStudent_true; exact Hn|].
      apply Nat.eqb_eq. exact Hs.
    + intros (r & Hr & Hn & Hs). exists r. split; [exact Hr|].
      apply andb_true_intro. split.
      * apply sameStudent_true. exact Hn.
      * apply Nat.eqb_eq. exact Hs.
  - intros id1 id2 quiz1 quiz2 date1 date2.
    unfold hasGrammarMaster, sameStudent. simpl.
    rewrite bool_decide_eq_true_2 by reflexivity. reflexivity.
Qed.

(** [findIndex] from a non-negative start: either nothing passes and
    it yields [-1], or it yields the first index that passes. *)
Lemma findIndexFrom_spec {A : Type} (p : A -> bool) (l : list A) (k : Z) :
  0 <= k ->
  (findIndexFrom p k l = -1 /\ forall x, x ∈ l -> p x = false)
  \/ (exists (i : nat) (e : A),
        l !! i = Some e /\ p e = true
        /\ findIndexFrom p k l = k + Z.of_nat i
        /\ forall (j : nat) (e' : A),
             (j < i)%nat -> l !! j = Some e' -> p e' = false).
Proof.
  revert k. induction l as [|x l IH]; intros k Hk.
  - left. split; [reflexivity|]. intros x Hx.
    apply elem_of_nil in Hx. destruct Hx.
  - simpl. destruct (p x) eqn:Hp.
    + right. exists 0%nat, x. split; [reflexivity|].
      split; [exact Hp|]. split; [simpl; lia|].
      intros j e' Hj. lia.
    + destruct (IH (k + 1)) as [[Hnone Hall] | (i & e & Hi & Hpe & Hidx & Hmin)];
        [lia| |].
      * left. split; [exact Hnone|].
        intros y Hy. apply elem_of_cons in Hy.
        destruct Hy as [->|Hy]; [exact Hp | apply Hall; exact Hy].
      * right. exists (S i), e. split; [exact Hi|].
        split; [exact Hpe|]. split; [rewrite Hidx; lia|].
        intros [|j] e' Hj Hl.
        -- simpl in Hl. injection Hl as <-. exact Hp.
        -- simpl in Hl. apply (Hmin j e'); [lia | exact Hl].
Qed.

(** The test [index !== -1 && index < 3]. *)
Lemma findIndex_below_3 {A : Type} (p : A -> bool) (l : list A) :
  negb (findIndex p l =? -1) && (findIndex p l <? 3) = true
  <-> exists (i : nat) (e : A), (i < 3)%nat /\ l !! i = Some e /\ p e = true.
Proof.
  unfold findIndex.
  destruct (findIndexFrom_spec p l 0 ltac:(lia))
    as [[Hnone Hall] | (i & e & Hi & Hpe & Hidx & Hmin)].
  - rewrite Hnone. simpl. split; [discriminate|].
    intros (i & e & _ & Hi & Hpe).
    rewrite (Hall e) in Hpe; [discriminate|].
    eapply list_elem_of_lookup_2. exact Hi.
  - rewrite Hidx. rewrite andb_true_iff, negb_true_iff, Z.eqb_neq, Z.ltb_lt.
    split.
    + intros [_ Hlt]. exists i, e. split; [lia|]. split; assumption.
    + intros (i' & e' & Hlt & Hi' & Hpe').
      split; [lia|].
      destruct (decide (i' < i)%nat) as [Hless|Hge]; [|lia].
      rewrite (Hmin i' e' Hless Hi') in Hpe'. discriminate.
Qed.

(** C7, amended.  The Top-3 badge holds exactly when some result of
    the student names a quiz whose leaderboard has an entry of the
    student within its first three ranks, where a result or an entry
    is the student's when its name equals the given name after
    lowercasing, without trimming. *)
Theorem C7_top3_iff_lowercase_entry_in_first_three (name : string)
    (results : list Result) :
  hasAnyTop3 name results = true
  <-> exists r, r ∈ results
        /\ toLowerCase (studentName r) = toLowerCase name
        /\ exists (i : nat) (e : Result),
             (i < 3)%nat
             /\ getLeaderboard results (quizId r) !! i = Some e
             /\ toLowerCase (studentName e) = toLowerCase name.
Proof.
  unfold hasAnyTop3. rewrite existsb_elem_of.
  split.
  - intros (r & Hr & Hp). apply andb_prop in Hp. destruct Hp as [Hn Ht].
    exists r. split; [exact Hr|].
    split; [apply sameStudent_true; exact Hn|].
    unfold isTop3 in Ht. apply findIndex_below_3 in Ht.
    destruct Ht as (i & e & Hi & He & Hpe).
    rewrite isTop3_sorted_getLeaderboard in He.
    exists i, e. split; [exact Hi|]. split; [exact He|].
    apply sameStudent_true. exact Hpe.
  - intros (r & Hr & Hn & i & e & Hi & He & Hne).
    exists r. split; [exact Hr|].
    apply andb_true_intro. split; [apply sameStudent_true; exact Hn|].
    unfold isTop3. apply findIndex_below_3.
    exists i, e. split; [exact Hi|].
    split; [rewrite isTop3_sorted_getLeaderboard; exact He|].
    apply sameStudent_true. exact Hne.
Qed.

(** ** The streak *)

Lemma msPerDay_pos : 0 < msPerDay.
Proof. reflexivity. Qed.

(** In a zone with a fixed offset, [setHours(0,0,0,0)] yields the
    start of the local day of the instant. *)
Lemma fixedZone_startOfDay (offset t : Z) :
  startOfDay (fixedZone offset) t = midnightOf offset (dayNumber offset t).
Proof.
  unfold fixedZone, midnightOf, dayNumber. simpl.
  pose proof (Z.div_mod (t + offset) msPerDay) as H.
  pose proof msPerDay_pos. lia.
Qed.

Lemma fixedZone_previousDay (offset d : Z) :
  previousDay (fixedZone offset) (midnightOf offset d)
  = midnightOf offset (d - 1).
Proof. unfold fixedZone, midnightOf. simpl. lia. Qed.

Lemma midnightOf_inj (offset d1 d2 : Z) :
  midnightOf offset d1 = midnightOf offset d2 -> d1 = d2.
Proof. unfold midnightOf. pose proof msPerDay_pos. nia. Qed.

Lemma midnightOf_lt (offset d1 d2 : Z) :
  d1 < d2 <-> midnightOf offset d1 < midnightOf offset d2.
Proof. unfold midnightOf. pose proof msPerDay_pos. nia. Qed.

Lemma ceilDiv_mul (n : Z) : ceilDiv (n * msPerDay) msPerDay = n.
Proof.
  unfold ceilDiv. rewrite <- Z.mul_opp_l.
  rewrite Z.div_mul by (pose proof msPerDay_pos; lia). lia.
Qed.

(** *** [Array.from(new Set(xs))] *)

Lemma foldl_setAdd_elem (xs acc : list Z) (x : Z) :
  x ∈ foldl setAdd acc xs <-> x ∈ acc \/ x ∈ xs.
Proof.
  revert acc. induction xs as [|y xs IH]; intros acc; simpl.
  - rewrite elem_of_nil. tauto.
  - rewrite IH, elem_of_cons. unfold setAdd.
    destruct (decide (y ∈ acc)) as [Hin|Hnin].
    + split; [tauto|]. intros [H|[->|H]]; tauto.
    + rewrite elem_of_app, list_elem_of_singleton. tauto.
Qed.

Lemma foldl_setAdd_NoDup (xs acc : list Z) :
  NoDup acc -> NoDup (foldl setAdd acc xs).
Proof.
  revert acc. induction xs as [|y xs IH]; intros acc Hacc; simpl.
  - exact Hacc.
  - apply IH. unfold setAdd.
    destruct (decide (y ∈ acc)) as [Hin|Hnin]; [exact Hacc|].
    apply NoDup_app. split; [exact Hacc|].
    split; [|apply NoDup_singleton].
    intros x Hx Hx'. apply list_elem_of_singleton in Hx'. subst. tauto.
Qed.

Lemma elem_of_arrayFromSet (xs : list Z) (x : Z) :
  x ∈ arrayFromSet xs <-> x ∈ xs.
Proof.
  unfold arrayFromSet. rewrite foldl_setAdd_elem, elem_of_nil. tauto.
Qed.

Lemma arrayFromSet_NoDup (xs : list Z) : NoDup (arrayFromSet xs).
Proof. apply foldl_setAdd_NoDup. constructor. Qed.

(** *** Strictly descending lists *)

Lemma descending_NoDup (l : list Z) :
  StronglySorted descending l -> NoDup l.
Proof.
  induction 1 as [|x l Hs IH Hx]; constructor; [|exact IH].
  intros Hin. rewrite Forall_forall in Hx.
  specialize (Hx x Hin). unfold descending in Hx. lia.
Qed.

Lemma descending_of_NoDup (l : list Z) :
  StronglySorted (fun a b => b <= a) l -> NoDup l ->
  StronglySorted descending l.
Proof.
  induction 1 as [|x l Hs IH Hx]; intros Hnd; constructor.
  - apply IH. apply NoDup_cons in Hnd. tauto.
  - apply NoDup_cons in Hnd. destruct Hnd as [Hnin _].
    rewrite Forall_forall in *. intros y Hy.
    specialize (Hx y Hy). unfold descending.
    assert (y <> x) by (intros ->; tauto). lia.
Qed.

(** A strictly descending list is determined by its elements. *)
Lemma descending_unique (l1 l2 : list Z) :
  StronglySorted descending l1 -> StronglySorted descending l2 ->
  (forall x, x ∈ l1 <-> x ∈ l2) -> l1 = l2.
Proof.
  intros H1 H2 Hel.
  assert (AntiSymm (=) descending).
  { intros a b Ha Hb. unfold descending in *. lia. }
  apply (StronglySorted_unique descending); [exact H1 | exact H2 |].
  apply NoDup_Permutation; [apply descending_NoDup; exact H1
                           | apply descending_NoDup; exact H2 | exact Hel].
Qed.

Lemma sortBy_descending (l : list Z) :
  NoDup l -> StronglySorted descending (sortBy (fun a b => b - a) l).
Proof.
  intros Hnd. apply descending_of_NoDup.
  - apply (StronglySorted_weaken (cmpLe (fun a b => b - a))).
    + intros a b. unfold cmpLe. lia.
    + apply sortBy_sorted.
      * intros a b. unfold cmpLe. lia.
      * intros a b c. unfold cmpLe. lia.
  - rewrite (sortBy_perm (fun a b => b - a) l). exact Hnd.
Qed.

Lemma fmap_midnightOf_descending (offset : Z) (days : list Z) :
  StronglySorted descending days ->
  StronglySorted descending (midnightOf offset <$> days).
Proof.
  induction 1 as [|d days Hs IH Hd]; [constructor|].
  rewrite fmap_cons. constructor; [exact IH|].
  rewrite Forall_fmap. eapply Forall_impl; [exact Hd|].
  intros y Hy. simpl. unfold descending in *.
  apply midnightOf_lt. exact Hy.
Qed.

(** On the starts of strictly descending days the loop counts the
    adjacent pairs one calendar day apart, up to the first gap. *)
Lemma streakLoop_consecutivePairs (offset : Z) (days : list Z) (k : nat) :
  StronglySorted descending days ->
  streakLoop (midnightOf offset <$> days) k = (k + consecutivePairs days)%nat.
Proof.
  intros Hs. revert k.
  induction Hs as [|d1 rest Hs IH Hd]; intros k; [simpl; lia|].
  destruct rest as [|d2 rest']; [simpl; lia|].
  change (streakLoop (midnightOf offset <$> d1 :: d2 :: rest') k)
    with (if ceilDiv (Z.abs (midnightOf offset d1 - midnightOf offset d2))
               msPerDay =? 1
          then streakLoop (midnightOf offset <$> d2 :: rest') (S k)
          else k).
  change (consecutivePairs (d1 :: d2 :: rest'))
    with (if d1 - d2 =? 1 then S (consecutivePairs (d2 :: rest'))
          else 0%nat).
  assert (Hlt : d2 < d1).
  { rewrite Forall_forall in Hd. apply Hd. apply elem_of_cons. tauto. }
  replace (midnightOf offset d1 - midnightOf offset d2)
    with ((d1 - d2) * msPerDay) by (unfold midnightOf; ring).
  rewrite Z.abs_eq
    by (apply Z.mul_nonneg_nonneg; [lia | pose proof msPerDay_pos; lia]).
  rewrite ceilDiv_mul.
  destruct (d1 - d2 =? 1); [|lia].
  rewrite IH. lia.
Qed.

Lemma isEmpty_false (s : string) : s <> "" -> isEmpty s = false.
Proof. destruct s; [congruence | reflexivity]. Qed.

(** The array [dates] of [calculateStreak] holds the starts of the
    distinct attempt days of the student, latest first. *)
Lemma streak_dates (offset : Z) (name : string) (results : list Result)
    (days : list Z) :
  StronglySorted descending days ->
  (forall d, d ∈ days <->
     exists r, r ∈ results
               /\ toLowerCase (studentName r) = toLowerCase name
               /\ dayNumber offset (date r) = d) ->
  sortBy (fun a b => b - a)
    (arrayFromSet
       (map (fun r => startOfDay (fixedZone offset) (date r))
          (List.filter (sameStudent name) results)))
  = midnightOf offset <$> days.
Proof.
  intros Hs Hdays. apply descending_unique.
  - apply sortBy_descending. apply arrayFromSet_NoDup.
  - apply fmap_midnightOf_descending. exact Hs.
  - intros x. rewrite elem_of_sortBy, elem_of_arrayFromSet.
    rewrite list_elem_of_In, in_map_iff, list_elem_of_fmap.
    split.
    + intros (r & Hx & Hr). apply filter_In in Hr. destruct Hr as [Hr Hn].
      exists (dayNumber offset (date r)).
      split; [rewrite <- Hx; apply fixedZone_startOfDay|].
      apply Hdays. exists r. split; [apply list_elem_of_In; exact Hr|].
      split; [apply sameStudent_true; exact Hn | reflexivity].
    + intros (d & Hx & Hd). apply Hdays in Hd.
      destruct Hd as (r & Hr & Hn & Hday).
      exists r. split.
      * rewrite Hx, <- Hday. apply fixedZone_startOfDay.
      * apply filter_In. split; [apply list_elem_of_In; exact Hr|].
        apply sameStudent_true. exact Hn.
Qed.

(** C3, amended.  In a time zone with a fixed offset from UTC, for a
    student name that is not empty: let [days] be the distinct local
    calendar days, latest first, of the results whose student name
    equals the given name up to case.  The streak is 0 when there is
    no such day or the latest one is neither today nor yesterday;
    otherwise it is 1 plus the number of adjacent pairs of [days] that
    are exactly one calendar day apart, counted up to the first gap.
    Several attempts on one day count once.  For the empty student
    name the streak is 0, in every time zone and whatever the
    results. *)
Theorem C3_streak_counts_consecutive_days :
  (forall (offset now : Z) (name : string) (results : list Result)
          (days : list Z),
      name <> "" ->
      StronglySorted descending days ->
      (forall d, d ∈ days <->
         exists r, r ∈ results
                   /\ toLowerCase (studentName r) = toLowerCase name
                   /\ dayNumber offset (date r) = d) ->
      calculateStreak (fixedZone offset) now name results
      = spec_streak (dayNumber offset now) days)
  /\ (forall (zone : Zone) (now : Z) (results : list Result),
        calculateStreak zone now "" results = 0%nat).
Proof.
  split; [|reflexivity].
  intros offset now name results days Hname Hs Hdays.
  unfold calculateStreak.
  rewrite (isEmpty_false name Hname).
  rewrite (streak_dates offset name results days Hs Hdays).
  destruct days as [|latest days']; [reflexivity|].
  rewrite fmap_cons. rewrite <- fmap_cons.
  cbv zeta.
  rewrite (fixedZone_startOfDay offset now), fixedZone_previousDay.
  unfold spec_streak.
  rewrite (streakLoop_consecutivePairs offset (latest :: days') 1 Hs).
  case_bool_decide as Hd.
  - destruct Hd as [-> | ->].
    + rewrite Z.eqb_refl. reflexivity.
    + rewrite Z.eqb_refl. rewrite andb_false_r. reflexivity.
  - assert (H1 : midnightOf offset latest
                 <> midnightOf offset (dayNumber offset now)).
    { intros H. apply midnightOf_inj in H. tauto. }
    assert (H2 : midnightOf offset latest
                 <> midnightOf offset (dayNumber offset now - 1)).
    { intros H. apply midnightOf_inj in H. tauto. }
    apply Z.eqb_neq in H1, H2. rewrite H1, H2. reflexivity.
Qed.

End Properties.
(** * The properties on sample data *)

(** The sample names are written in ASCII, and the examples are
    evaluated with the two string methods on ASCII texts
    ([asciiStrings]). *)

(** C1, on the sample data. *)
Lemma C1_score_counts_matching_answers_witness :
  computeScore sampleQuiz [1; 0; -1] = 2%nat
  /\ correctAt sampleQuiz [1; 0; -1] 2 = false.
Proof.
  destruct (C1_score_counts_matching_answers sampleQuiz [1; 0; -1])
    as (Hcount & _ & Hminus & _).
  split.
  - rewrite Hcount. reflexivity.
  - apply (Hminus 2%nat (sampleQuestion 2)).
    + reflexivity.
    + unfold valid_question. simpl. lia.
    + reflexivity.
Defined.

(** C1, the claim as worded fails: a question whose [correctIndex] is
    [-1] is matched by the unanswered slot, which is then counted. *)
Lemma C1_counterexample_correctIndex_minus_one :
  let quiz := mkQuiz "q" "t" None Easy [sampleQuestion (-1)] (Some 1) None 0 in
  [-1] !! 0%nat = Some (-1)
  /\ correctAt quiz [-1] 0 = true
  /\ computeScore quiz [-1] = 1%nat.
Proof. repeat split; reflexivity. Qed.

(** C6, on the sample data. *)
Lemma C6_blank_name_leaves_session_unchanged_witness :
  step onlineEnv (EvStart sampleQuiz) (initialApp "   ")
  = showToast nameMissingMessage error (initialApp "   ").
Proof.
  apply (C6_blank_name_leaves_session_unchanged (js := asciiStrings)
           onlineEnv sampleQuiz (initialApp "   ")).
  right. reflexivity.
Defined.

(** C5, the claim as worded fails: for the duration zero
    [(durationMinutes ?? 10) * 60] is zero seconds, while [startQuiz]
    sets the remaining time to 600 seconds. *)
Lemma C5_counterexample_zero_duration :
  isEmpty (trim (app_studentName (initialApp "Asha"))) = false
  /\ app_timeLeft (startQuiz onlineEnv zeroMinuteQuiz (initialApp "Asha")) = 600
  /\ spec_nullishDefault (durationMinutes zeroMinuteQuiz) 10 * 60 = 0
  /\ app_timeLeft (startQuiz onlineEnv zeroMinuteQuiz (initialApp "Asha"))
     <> spec_nullishDefault (durationMinutes zeroMinuteQuiz) 10 * 60.
Proof.
  repeat split; try reflexivity. vm_compute. discriminate.
Qed.

(** C5, on the sample data. *)
Lemma C5_start_initialises_session_witness :
  app_answers (step onlineEnv (EvStart sampleQuiz) (initialApp "Asha"))
    = [-1; -1; -1]
  /\ app_timeLeft (step onlineEnv (EvStart sampleQuiz) (initialApp "Asha"))
    = 60.
Proof.
  destruct (C5_start_initialises_session (js := asciiStrings) onlineEnv sampleQuiz
              (initialApp "Asha") eq_refl)
    as (_ & Ha & _ & _ & Ht & _).
  split; [exact Ha | exact Ht].
Defined.

(** C4, the claim as worded fails: when the store rejects the write,
    sixty ticks after a start with [durationMinutes = 1] and no answer
    the remaining time is zero but the quiz view is still shown and no
    result exists. *)
Lemma C4_counterexample_write_rejected :
  let s := ticks (replicate 60 offlineEnv)
             (step offlineEnv (EvStart sampleQuiz) (initialApp "Asha")) in
  app_timeLeft s = 0
  /\ app_view s = student_quiz
  /\ app_currentResult s = None
  /\ app_written s = [].
Proof. vm_compute. repeat split; reflexivity. Qed.

(** C4, on the sample data. *)
Lemma C4_timeout_submits_witness :
  let s := ticks (replicate 60 onlineEnv)
             (step onlineEnv (EvStart sampleQuiz) (initialApp "Asha")) in
  app_view s = student_result
  /\ app_currentResult s =
       Some (mkResult "doc1" "quiz1" "Asha" 0 3 1700000000000).
Proof.
  destruct (C4_timeout_submits (js := asciiStrings)) as (_ & _ & _ & Hrun).
  destruct (Hrun onlineEnv onlineEnv (replicate 59 onlineEnv)
              (initialApp "Asha") sampleQuiz "doc1"
              eq_refl eq_refl eq_refl eq_refl)
    as (_ & Hview & Hres & _).
  split; [exact Hview | exact Hres].
Defined.

(** C8, on the sample data. *)
Lemma C8_duplicates_collapse_to_earliest_witness :
  exists (i : nat) (e : Result),
    getLeaderboard sampleResults "quiz1" !! i = Some e
    /\ result_id e = "b"
    /\ mkResult "a" "quiz1" "Asha" 2 3 300
       ∉ getLeaderboard sampleResults "quiz1".
Proof.
  destruct (C8_duplicates_collapse_to_earliest sampleResults "quiz1"
              (mkResult "b" "quiz1" " asha " 2 3 100)
              (mkResult "a" "quiz1" "Asha" 2 3 300))
    as [(i & e & Hi & _) Hlater].
  - apply list_elem_of_In. vm_compute. tauto.
  - apply list_elem_of_In. vm_compute. tauto.
  - reflexivity.
  - reflexivity.
  - reflexivity.
  - reflexivity.
  - exists 1%nat, (mkResult "b" "quiz1" " asha " 2 3 100).
    split; [reflexivity|]. split; [reflexivity|].
    apply Hlater. simpl. lia.
Defined.

(** The end-to-end scenario: the answers 1, 0 and none to the correct
    options 1, 0 and 2 score 2 of 3 when the time runs out, and the
    result is the only entry of the leaderboard of its quiz, at
    rank 1. *)
Lemma end_to_end_example :
  let s1 := step onlineEnv (EvStart sampleQuiz) (initialApp "Asha") in
  let s2 := step onlineEnv (EvSelect 1 0) (step onlineEnv (EvSelect 0 1) s1) in
  let s3 := ticks (replicate 60 onlineEnv) s2 in
  let r := mkResult "doc1" "quiz1" "Asha" 2 3 1700000000000 in
  app_answers s2 = [1; 0; -1]
  /\ app_view s3 = student_result
  /\ app_currentResult s3 = Some r
  /\ app_written s3 = [r]
  /\ leaderboardRows (app_written s3) "quiz1" = [(1%nat, r)].
Proof. vm_compute. repeat split; reflexivity. Qed.

(** The results 3 of 5 and 4 of 4, stored as "Asha" and as "asha",
    give the badge to "Asha". *)
Lemma grammar_master_example :
  hasGrammarMaster "Asha" perfectResults = true.
Proof. reflexivity. Qed.

(** C7, the claim as worded fails: a result stored under " Bob" is the
    only entry of its quiz and the normalized names agree, yet
    [hasAnyTop3] is false for the student "bob", because the source
    compares lowercased names that are not trimmed. *)
Lemma C7_counterexample_untrimmed_name :
  spec_top3 "bob" untrimmedResults
  /\ hasAnyTop3 "bob" untrimmedResults = false.
Proof.
  split; [|reflexivity].
  exists (mkResult "r1" "quiz1" " Bob" 1 1 100).
  split; [apply list_elem_of_In; left; reflexivity|].
  split; [reflexivity|].
  exists 0%nat, (mkResult "r1" "quiz1" " Bob" 1 1 100).
  split; [lia|]. split; reflexivity.
Qed.

(** C3, the claim as worded fails: for the empty student name
    [calculateStreak] returns 0 at once, although the results stored
    under the empty name have an attempt today, for which the claim
    gives the streak 1. *)
Lemma C3_counterexample_empty_name :
  StronglySorted descending [0]
  /\ (forall d, d ∈ [0] <->
        exists r, r ∈ namelessResults
                  /\ toLowerCase (studentName r) = toLowerCase ""
                  /\ dayNumber 0 (date r) = d)
  /\ spec_streak (dayNumber 0 5) [0] = 1%nat
  /\ calculateStreak (fixedZone 0) 5 "" namelessResults = 0%nat.
Proof.
  split; [repeat constructor|].
  split.
  - intros d. rewrite list_elem_of_singleton. split.
    + intros ->. exists (mkResult "n1" "quiz1" "" 1 1 5).
      split; [apply list_elem_of_In; left; reflexivity|].
      split; reflexivity.
    + intros (r & Hr & _ & Hd).
      apply list_elem_of_In in Hr. destruct Hr as [<-|[]].
      rewrite <- Hd. reflexivity.
  - split; reflexivity.
Qed.

(** C3, on the sample data. *)
Lemma C3_streak_counts_consecutive_days_witness :
  calculateStreak (fixedZone 0) (3 * msPerDay + 500) "asha" streakResults
  = 3%nat.
Proof.
  apply (proj1 C3_streak_counts_consecutive_days 0 (3 * msPerDay + 500)
           "asha" streakResults [3; 2; 1; -1]).
  - discriminate.
  - repeat constructor.
  - intros d. split.
    + intros Hd. apply list_elem_of_In in Hd. simpl in Hd.
      destruct Hd as [<-|[<-|[<-|[<-|[]]]]].
      * exists (mkResult "s1" "quiz1" "Asha" 1 3 (3 * msPerDay + 1)).
        split; [apply list_elem_of_In; vm_compute; tauto|].
        split; reflexivity.
      * exists (mkResult "s2" "quiz1" "asha" 2 3 (2 * msPerDay + 7)).
        split; [apply list_elem_of_In; vm_compute; tauto|].
        split; reflexivity.
      * exists (mkResult "s4" "quiz1" "ASHA" 3 3 (1 * msPerDay + 1)).
        split; [apply list_elem_of_In; vm_compute; tauto|].
        split; reflexivity.
      * exists (mkResult "s5" "quiz1" "Asha" 3 3 (-1 * msPerDay + 1)).
        split; [apply list_elem_of_In; vm_compute; tauto|].
        split; reflexivity.
    + intros (r & Hr & Hn & Hd). apply list_elem_of_In in Hr.
      apply list_elem_of_In. rewrite <- Hd.
      simpl in Hr.
      destruct Hr as [<-|[<-|[<-|[<-|[<-|[<-|[]]]]]]];
        try (vm_compute; tauto).
      vm_compute in Hn. discriminate.
Defined.

(** The examples of the streak: attempts today, yesterday and the day
    before give 3; a further attempt two days earlier, which leaves a
    day out, does not extend it. *)
Lemma streak_examples :
  calculateStreak (fixedZone 0) (3 * msPerDay + 500) "Asha"
    [ mkResult "s1" "quiz1" "Asha" 1 3 (3 * msPerDay + 1);
      mkResult "s2" "quiz1" "Asha" 2 3 (2 * msPerDay + 7);
      mkResult "s4" "quiz1" "Asha" 3 3 (1 * msPerDay + 1) ] = 3%nat
  /\ calculateStreak (fixedZone 0) (3 * msPerDay + 500) "Asha"
       streakResults = 3%nat.
Proof. split; reflexivity. Qed.

(** Outside the zones of fixed offset the loop can miss a day: around
    the change to winter time two attempts on consecutive local days,
    the later one today, give the streak 1, because the start of the
    later day is 25 hours after the start of the earlier one. *)
Lemma autumnZone_streak :
  previousDay autumnZone (startOfDay autumnZone (winterMidnight + 1))
    = startOfDay autumnZone (summerMidnight + 7)
  /\ startOfDay autumnZone (winterMidnight + 1)
     - startOfDay autumnZone (summerMidnight + 7) = 25 * 3600000
  /\ calculateStreak autumnZone (winterMidnight + 5) "asha" autumnResults
     = 1%nat.
Proof. repeat split; reflexivity. Qed.

(** * Further properties of the code *)

Section FurtherProperties.
Context {js : StringMethods}.

(** ** Scoring *)

Lemma filter_length_full {A : Type} (p : A -> bool) (l : list A) :
  length (List.filter p l) = length l <-> forall x, In x l -> p x = true.
Proof.
  induction l as [|x l IH]; simpl.
  - split; [intros _ y []|reflexivity].
  - pose proof (filter_length_le p l) as Hle.
    destruct (p x) eqn:Hp; simpl.
    + split.
      * intros H y [<-|Hy]; [exact Hp|].
        apply IH; [lia | exact Hy].
      * intros H. f_equal. apply IH. intros y Hy. apply H. right. exact Hy.
    + split; [lia|]. intros H.
      rewrite (H x) in Hp by (left; reflexivity). discriminate.
Qed.

Lemma filter_ext_in {A : Type} (p p' : A -> bool) (l : list A) :
  (forall x, In x l -> p x = p' x) -> List.filter p l = List.filter p' l.
Proof.
  induction l as [|x l IH]; intros H; simpl; [reflexivity|].
  rewrite (H x) by (left; reflexivity).
  rewrite IH; [reflexivity|]. intros y Hy. apply H. right. exact Hy.
Qed.

(** X1.  The score is the total exactly when every question is answered
    with its correct option. *)
Theorem X1_score_full_iff_all_correct (quiz : Quiz) (answers : list Z) :
  computeScore quiz answers = length (questions quiz)
  <-> forall (i : nat) (q : Question),
        questions quiz !! i = Some q -> answers !! i = Some (correctIndex q).
Proof.
  rewrite computeScore_count.
  replace (length (questions quiz)) with (length (questionIndices quiz))
    by (unfold questionIndices; apply length_seq).
  rewrite filter_length_full. unfold questionIndices. split.
  - intros H i q Hq.
    assert (Hi : In i (seq 0 (length (questions quiz)))).
    { apply in_seq. apply lookup_lt_Some in Hq. lia. }
    specialize (H i Hi). unfold correctAt, answerMatches in H.
    rewrite Hq in H. destruct (answers !! i) as [a|]; [|discriminate].
    apply Z.eqb_eq in H. rewrite H. reflexivity.
  - intros H i Hi. apply in_seq in Hi.
    destruct (lookup_lt_is_Some_2 (questions quiz) i ltac:(lia)) as [q Hq].
    unfold correctAt, answerMatches. rewrite Hq, (H i q Hq).
    apply Z.eqb_refl.
Qed.

(** X2.  Only the answers at the indices of the questions matter: what
    lies beyond the last question is ignored. *)
Theorem X2_score_ignores_surplus_answers (quiz : Quiz) (answers : list Z) :
  computeScore quiz answers
  = computeScore quiz (take (length (questions quiz)) answers).
Proof.
  rewrite !computeScore_count. f_equal. apply filter_ext_in.
  intros i Hi. unfold questionIndices in Hi. apply in_seq in Hi.
  unfold correctAt, answerMatches.
  rewrite lookup_take_lt by lia. reflexivity.
Qed.

Lemma filter_length_differ_at {A : Type} `{EqDecision A} (p p' : A -> bool)
    (i : A) (l : list A) :
  NoDup l -> (forall x, x <> i -> p x = p' x) ->
  (length (List.filter p l) <= S (length (List.filter p' l)))%nat.
Proof.
  intros Hnd Hagree. induction Hnd as [|x l Hx Hnd IH]; simpl; [lia|].
  destruct (decide (x = i)) as [->|Hne].
  - rewrite (filter_ext_in p p' l).
    + destruct (p i), (p' i); simpl; lia.
    + intros y Hy. apply Hagree. intros ->.
      apply Hx. apply list_elem_of_In. exact Hy.
  - rewrite (Hagree x Hne). destruct (p' x); simpl; lia.
Qed.

(** X3.  Changing one slot of the answer set moves the score by one at
    most. *)
Theorem X3_score_changes_by_at_most_one (quiz : Quiz) (answers : list Z)
    (i : nat) (a : Z) :
  let before := computeScore quiz answers in
  let after := computeScore quiz (<[i := a]> answers) in
  (after <= S before)%nat /\ (before <= S after)%nat.
Proof.
  intros before after. subst before after. rewrite !computeScore_count.
  assert (Hagree : forall j, j <> i ->
            correctAt quiz (<[i := a]> answers) j = correctAt quiz answers j).
  { intros j Hj. unfold correctAt, answerMatches.
    rewrite list_lookup_insert_ne by congruence. reflexivity. }
  split.
  - apply (filter_length_differ_at _ _ i); [apply NoDup_seq | exact Hagree].
  - apply (filter_length_differ_at _ _ i); [apply NoDup_seq|].
    intros j Hj. symmetry. apply Hagree. exact Hj.
Qed.

(** ** The clock display *)

Lemma colonFree_pretty_N_go (x : N) (s : string) :
  colonFree s = true -> colonFree (pretty_N_go x s) = true.
Proof.
  revert s. induction (N.lt_wf_0 x) as [x _ IH]; intros s Hs.
  assert (x = 0 ∨ 0 < x)%N as [->|Hpos] by lia.
  - rewrite pretty_N_go_0. exact Hs.
  - rewrite pretty_N_go_step by exact Hpos.
    apply IH.
    + apply N.div_lt; lia.
    + simpl. rewrite Hs, andb_true_r.
      unfold pretty_N_char. repeat case_match; reflexivity.
Qed.

Lemma colonFree_pretty_N (n : N) : colonFree (pretty n) = true.
Proof.
  unfold pretty, pretty_N. case_decide; [reflexivity|].
  apply colonFree_pretty_N_go. reflexivity.
Qed.

(** The numeral of a number that is not negative has no colon. *)
Lemma colonFree_pretty_Z (z : Z) : 0 <= z -> colonFree (pretty z) = true.
Proof.
  intros Hz. destruct z as [|p|p]; [reflexivity| |lia].
  apply (colonFree_pretty_N (N.pos p)).
Qed.

(** The text up to the first colon and the text after it. *)
Lemma append_colon_inj (s1 s2 t1 t2 : string) :
  colonFree s1 = true -> colonFree s2 = true ->
  s1 +:+ String ":" t1 = s2 +:+ String ":" t2 -> s1 = s2 /\ t1 = t2.
Proof.
  revert s2. induction s1 as [|c1 s1 IH]; intros [|c2 s2] H1 H2 H.
  - rewrite !append_nil in H. injection H as H. split; [reflexivity|exact H].
  - rewrite append_nil, (append_cons c2 s2) in H. injection H as Hc _.
    subst c2. simpl in H2. discriminate.
  - rewrite append_nil, (append_cons c1 s1) in H. injection H as Hc _.
    subst c1. simpl in H1. discriminate.
  - rewrite (append_cons c1 s1), (append_cons c2 s2) in H.
    injection H as Hc Hrest.
    simpl in H1, H2. apply andb_prop in H1, H2.
    destruct (IH s2 (proj2 H1) (proj2 H2) Hrest) as [-> ->].
    subst. split; reflexivity.
Qed.

(** The padded numeral of a number of seconds below 60 is made of its
    two digits. *)
Lemma padStart_twoDigits (r : Z) :
  0 <= r < 60 -> padStart 2 "0" (pretty r) = twoDigits r.
Proof.
  intros Hr.
  assert (Htable : forallb
            (fun n => bool_decide
               (padStart 2 "0" (pretty (Z.of_nat n)) = twoDigits (Z.of_nat n)))
            (seq 0 60) = true) by (vm_compute; reflexivity).
  rewrite forallb_forall in Htable.
  specialize (Htable (Z.to_nat r)).
  rewrite Z2Nat.id in Htable by lia.
  assert (Hin : In (Z.to_nat r) (seq 0 60)) by (apply in_seq; lia).
  specialize (Htable Hin). apply bool_decide_eq_true_1 in Htable.
  exact Htable.
Qed.

Lemma twoDigits_inj (a b : Z) :
  0 <= a < 100 -> 0 <= b < 100 -> twoDigits a = twoDigits b -> a = b.
Proof.
  intros Ha Hb H. unfold twoDigits in H. injection H as H1 H2.
  assert (Hdiv : forall x, 0 <= x < 100 -> (Z.to_N (x `div` 10) < 10)%N).
  { intros x Hx. apply N2Z.inj_lt. rewrite Z2N.id by (apply Z.div_pos; lia).
    simpl. apply Z.div_lt_upper_bound; lia. }
  assert (Hmod : forall x, (Z.to_N (x `mod` 10) < 10)%N).
  { intros x. pose proof (Z.mod_pos_bound x 10 ltac:(lia)).
    apply N2Z.inj_lt. rewrite Z2N.id by lia. simpl. lia. }
  apply pretty_N_char_inj in H1; [|apply Hdiv; lia|apply Hdiv; lia].
  apply pretty_N_char_inj in H2; [|apply Hmod|apply Hmod].
  apply (f_equal Z.of_N) in H1. apply (f_equal Z.of_N) in H2.
  pose proof (Z.mod_pos_bound a 10 ltac:(lia)).
  pose proof (Z.mod_pos_bound b 10 ltac:(lia)).
  rewrite !Z2N.id in H1 by (apply Z.div_pos; lia).
  rewrite !Z2N.id in H2 by lia.
  rewrite (Z.div_mod a 10), (Z.div_mod b 10) by lia. lia.
Qed.

Lemma formatTime_nonneg (seconds : Z) :
  0 <= seconds ->
  formatTime seconds
  = pretty (seconds `div` 60) +:+ ":" +:+ twoDigits (seconds `mod` 60).
Proof.
  intros Hs. unfold formatTime. cbv zeta.
  rewrite Z.rem_mod_nonneg by lia.
  rewrite padStart_twoDigits by (apply Z.mod_pos_bound; lia).
  reflexivity.
Qed.

(** X4.  For a number of seconds that is not negative, [formatTime] shows
    the minutes, a colon and the seconds with exactly two digits, and
    different numbers of seconds are shown differently. *)
Theorem X4_formatTime_two_digits_injective (a b : Z) :
  0 <= a -> 0 <= b ->
  formatTime a = pretty (a `div` 60) +:+ ":" +:+ twoDigits (a `mod` 60)
  /\ String.length (twoDigits (a `mod` 60)) = 2%nat
  /\ (formatTime a = formatTime b -> a = b).
Proof.
  intros Ha Hb. split; [apply formatTime_nonneg; exact Ha|].
  split; [reflexivity|].
  rewrite (formatTime_nonneg a Ha), (formatTime_nonneg b Hb). intros H.
  apply append_colon_inj in H.
  2, 3: (apply colonFree_pretty_Z; apply Z.div_pos; lia).
  destruct H as [Hm Hs].
  apply (inj pretty) in Hm.
  apply twoDigits_inj in Hs.
  2, 3: (pose proof (Z.mod_pos_bound a 60); pose proof (Z.mod_pos_bound b 60);
         lia).
  rewrite (Z.div_mod a 60), (Z.div_mod b 60) by lia. lia.
Qed.

(** ** The session: selections, the clock and the store *)

Lemma timerEffect_other_view (env : Env) (s : App) :
  app_view s <> student_quiz -> timerEffect env s = s.
Proof.
  intros Hv. unfold timerEffect, timerRunning.
  rewrite bool_decide_eq_false_2 by exact Hv. reflexivity.
Qed.

Lemma step_unchanged_deps (env : Env) (ev : Event) (s : App) :
  app_timeLeft (handle env ev s) = app_timeLeft s ->
  app_view (handle env ev s) = app_view s ->
  step env ev s = handle env ev s.
Proof.
  intros Ht Hv. unfold step.
  rewrite bool_decide_eq_true_2 by (split; assumption). reflexivity.
Qed.

Lemma step_select (env : Env) (idx : nat) (optIdx : Z) (s : App) :
  app_view s = student_quiz ->
  step env (EvSelect idx optIdx) s
  = setAnswers (<[idx := optIdx]> (app_answers s)) s.
Proof.
  intros Hv.
  assert (Hh : handle env (EvSelect idx optIdx) s
               = setAnswers (<[idx := optIdx]> (app_answers s)) s).
  { simpl. rewrite bool_decide_eq_true_2 by exact Hv. reflexivity. }
  rewrite step_unchanged_deps; rewrite Hh; reflexivity.
Qed.

(** X5.  Selecting an option in the quiz view overwrites the slot of its
    question and nothing else: the other slots, the number of slots,
    the clock, the view and the written results stay, nothing is
    submitted, and a second selection for the same question replaces
    the first. *)
Theorem X5_select_overwrites_one_slot (env env' : Env) (idx : nat)
    (optIdx optIdx' : Z) (s : App) :
  app_view s = student_quiz ->
  (idx < length (app_answers s))%nat ->
  let s' := step env (EvSelect idx optIdx) s in
  app_answers s' !! idx = Some optIdx
  /\ (forall j, j <> idx -> app_answers s' !! j = app_answers s !! j)
  /\ length (app_answers s') = length (app_answers s)
  /\ app_timeLeft s' = app_timeLeft s
  /\ app_view s' = student_quiz
  /\ app_currentResult s' = app_currentResult s
  /\ app_written s' = app_written s
  /\ step env' (EvSelect idx optIdx') s' = step env' (EvSelect idx optIdx') s.
Proof.
  intros Hv Hidx s'. subst s'. rewrite (step_select env idx optIdx s Hv).
  simpl.
  split; [apply list_lookup_insert_eq; exact Hidx|].
  split; [intros j Hj; apply list_lookup_insert_ne; congruence|].
  split; [apply length_insert|].
  split; [reflexivity|]. split; [exact Hv|].
  split; [reflexivity|]. split; [reflexivity|].
  rewrite !step_select by (simpl; exact Hv).
  unfold setAnswers. simpl. rewrite list_insert_insert_eq. reflexivity.
Qed.

Lemma ticks_nil (s : App) : ticks [] s = s.
Proof. reflexivity. Qed.

(** X6.  The clock runs for exactly as many ticks as seconds are left: the
    ticks before the last only count down, and the last one submits. *)
Theorem X6_timer_submits_after_timeLeft_ticks (s : App) (quiz : Quiz)
    (envs : list Env) (envLast : Env) :
  app_view s = student_quiz ->
  app_activeQuiz s = Some quiz ->
  app_timeLeft s = Z.of_nat (S (length envs)) ->
  (forall k : nat, (k <= length envs)%nat ->
     ticks (take k envs) s = setTimeLeft (app_timeLeft s - Z.of_nat k) s)
  /\ ticks (envs ++ [envLast]) s = submitQuiz envLast (setTimeLeft 0 s).
Proof.
  intros Hv Hq Ht. split.
  - intros k Hk.
    rewrite (ticks_countdown (take k envs) s Hv)
      by (rewrite length_take; lia).
    rewrite length_take. f_equal. lia.
  - rewrite ticks_app.
    rewrite (ticks_countdown envs s Hv) by lia.
    change (ticks [envLast] ?x) with (step envLast EvTick x).
    rewrite (step_tick_last envLast _ quiz); simpl; try assumption; [|lia].
    f_equal.
Qed.

Lemma step_tick_stopped (env : Env) (s : App) :
  timerRunning s = false -> step env EvTick s = s.
Proof.
  intros Hr. rewrite step_unchanged_deps; simpl; rewrite Hr; reflexivity.
Qed.

Lemma ticks_stopped (envs : list Env) (s : App) :
  timerRunning s = false -> ticks envs s = s.
Proof.
  intros Hr. induction envs as [|env envs IH]; [reflexivity|].
  rewrite ticks_cons, (step_tick_stopped env s Hr). exact IH.
Qed.

Lemma step_submit (env : Env) (s : App) :
  app_view s = student_quiz -> isFinished s = true ->
  step env EvSubmit s = submitQuiz env s.
Proof.
  intros Hv Hf.
  assert (Hh : handle env EvSubmit s = submitQuiz env s).
  { simpl. rewrite bool_decide_eq_true_2 by exact Hv. rewrite Hf.
    reflexivity. }
  unfold step. rewrite Hh. case_bool_decide as Hd; [reflexivity|].
  apply timerEffect_other_view.
  unfold submitQuiz in *.
  destruct (app_activeQuiz s); [|exfalso; apply Hd; split; reflexivity].
  destruct (addDoc env); simpl in *; [discriminate|].
  exfalso. apply Hd. split; reflexivity.
Qed.

(** X7.  A submission that the store rejects at time zero is not tried
    again: no later tick does anything, whatever the store would
    answer then, and the session can only be finished by the submit
    button, which needs every slot answered. *)
Theorem X7_rejected_timeout_is_not_retried (env : Env) (s : App) (quiz : Quiz)
    (message : string) :
  app_view s = student_quiz -> app_activeQuiz s = Some quiz ->
  app_timeLeft s = 1 -> addDoc env = Rejected message ->
  let s' := step env EvTick s in
  app_view s' = student_quiz /\ app_timeLeft s' = 0
  /\ app_written s' = app_written s
  /\ (forall envs, ticks envs s' = s')
  /\ (forall env', isFinished s = false -> step env' EvSubmit s' = s')
  /\ (forall env', isFinished s = true ->
        step env' EvSubmit s' = submitQuiz env' s').
Proof.
  intros Hv Hq Ht Hd s'.
  assert (Es : s' = showToast ("Submission failed: " +:+ message) error
                      (setTimeLeft 0 s)).
  { subst s'. rewrite (step_tick_last env s quiz Hv Ht Hq).
    unfold submitQuiz. simpl. rewrite Hq, Hd. reflexivity. }
  rewrite Es. simpl.
  split; [exact Hv|]. split; [reflexivity|]. split; [reflexivity|].
  split.
  { intros envs. apply ticks_stopped. unfold timerRunning. simpl.
    apply andb_false_r. }
  split.
  - intros env' Hf. rewrite step_unchanged_deps; simpl;
      rewrite bool_decide_eq_true_2 by exact Hv;
      unfold isFinished in *; simpl; rewrite Hf; reflexivity.
  - intros env' Hf. apply step_submit; [exact Hv|].
    unfold isFinished in *. simpl. exact Hf.
Qed.

(** X8.  A quiz with a negative duration is never submitted by the clock:
    the remaining time starts negative, the interval is not installed
    and ticks change nothing. *)
Theorem X8_negative_duration_never_times_out (env : Env) (quiz : Quiz)
    (s : App) (d : Z) (envs : list Env) :
  isEmpty (trim (app_studentName s)) = false ->
  durationMinutes quiz = Some d -> d < 0 ->
  let s1 := step env (EvStart quiz) s in
  app_view s1 = student_quiz /\ app_timeLeft s1 = d * 60
  /\ ticks envs s1 = s1.
Proof.
  intros Hname Hd Hneg s1.
  destruct (start_session_state env quiz s Hname) as [Es E].
  fold s1 in Es. rewrite E in Es. rewrite Hd in Es.
  assert (Ho : orDefault (Some d) 10 = d) by (destruct d; simpl; lia).
  rewrite Ho in Es. rewrite Es. simpl.
  split; [reflexivity|]. split; [reflexivity|].
  apply ticks_stopped. unfold timerRunning. simpl.
  apply Z.ltb_ge. lia.
Qed.

(** ** What every reachable state satisfies *)

Lemma start_blank_step (env : Env) (quiz : Quiz) (s : App) :
  isEmpty (trim (app_studentName s)) = true ->
  step env (EvStart quiz) s = showToast nameMissingMessage error s.
Proof.
  intros H. rewrite step_unchanged_deps;
    simpl handle; rewrite (startQuiz_blank env quiz s H); reflexivity.
Qed.

(** *** A call and its rest make up the handler *)

Lemma startQuiz_call_rest (env : Env) (quiz : Quiz) (s : App) :
  isEmpty (trim (app_studentName s)) = false ->
  startQuiz env quiz s
  = startQuizRest (updateDocOk env) quiz (app_studentName s) s.
Proof.
  intros H. unfold startQuiz, startQuizRest. rewrite H.
  destruct (updateDocOk env); reflexivity.
Qed.

Lemma submitQuiz_call_rest (env : Env) (s : App) (quiz : Quiz) :
  app_activeQuiz s = Some quiz ->
  submitQuiz env s
  = submitQuizRest (addDoc env) (resultDataOf (dateNow env) quiz s) s.
Proof.
  intros H. unfold submitQuiz, submitQuizRest. rewrite H.
  destruct (addDoc env); reflexivity.
Qed.

(** *** The effects of a render *)

Lemma afterRender_unchanged (now : Z) (before : App) (c : Client) :
  app_timeLeft (shown c) = app_timeLeft before ->
  app_view (shown c) = app_view before ->
  afterRender now before c = c.
Proof.
  intros Ht Hv. unfold afterRender.
  rewrite bool_decide_eq_true_2 by (split; assumption). reflexivity.
Qed.

Lemma timerEffectCall_other_view (now : Z) (c : Client) :
  app_view (shown c) <> student_quiz -> timerEffectCall now c = c.
Proof.
  intros Hv. unfold timerEffectCall, timerRunning.
  rewrite bool_decide_eq_false_2 by exact Hv. reflexivity.
Qed.

Lemma timerEffectCall_not_zero (now : Z) (c : Client) :
  app_timeLeft (shown c) <> 0 -> timerEffectCall now c = c.
Proof.
  intros Ht. unfold timerEffectCall.
  destruct (timerRunning (shown c)); [reflexivity|].
  apply Z.eqb_neq in Ht. rewrite Ht, andb_false_r. reflexivity.
Qed.

Lemma afterRender_other_view (now : Z) (before : App) (c : Client) :
  app_view (shown c) <> student_quiz -> afterRender now before c = c.
Proof.
  intros Hv. unfold afterRender. case_bool_decide; [reflexivity|].
  apply timerEffectCall_other_view. exact Hv.
Qed.

Lemma afterRender_not_zero (now : Z) (before : App) (c : Client) :
  app_timeLeft (shown c) <> 0 -> afterRender now before c = c.
Proof.
  intros Ht. unfold afterRender. case_bool_decide; [reflexivity|].
  apply timerEffectCall_not_zero. exact Ht.
Qed.

(** A render leaves the component as it is or calls [submitQuiz]. *)
Lemma afterRender_cases (now : Z) (before : App) (c : Client) :
  afterRender now before c = c
  \/ afterRender now before c = submitQuizCall now c.
Proof.
  unfold afterRender, timerEffectCall.
  case_bool_decide; [left; reflexivity|].
  destruct (timerRunning (shown c)); [left; reflexivity|].
  destruct (_ && _ && _); [right | left]; reflexivity.
Qed.

(** *** The invariant *)

Lemma clientInvariant_initial (name : string) :
  clientInvariant (mkClient (initialApp name) []).
Proof.
  unfold clientInvariant. simpl.
  split; [discriminate|]. split; [discriminate|].
  split; [constructor|]. split; [constructor|].
  intros H. apply Exists_nil in H. destruct H.
Qed.

(** The state of the session stays, or a view outside the session is
    shown. *)
Lemma clientInvariant_keep (c : Client) (s' : App) (w' : list Pending) :
  app_activeQuiz s' = app_activeQuiz (shown c) ->
  app_answers s' = app_answers (shown c) ->
  app_currentResult s' = app_currentResult (shown c) ->
  app_written s' = app_written (shown c) ->
  app_view s' = app_view (shown c) \/ sessionView (app_view s') = false ->
  Forall pendingWithinTotal w' ->
  (Exists isAwaitAddDoc w' -> Exists isAwaitAddDoc (waiting c)) ->
  clientInvariant c -> clientInvariant (mkClient s' w').
Proof.
  intros Hq Ha Hr Hw Hv Hp He (Iq & Ir & Iw & _ & Ie).
  unfold clientInvariant. simpl. rewrite Hq, Ha, Hr, Hw.
  split.
  { intros Hv'. destruct Hv as [Hv|Hv].
    - apply Iq. rewrite <- Hv. exact Hv'.
    - rewrite Hv' in Hv. discriminate. }
  split.
  { intros Hv'. destruct Hv as [Hv|Hv].
    - apply Ir. rewrite <- Hv. exact Hv'.
    - rewrite Hv' in Hv. discriminate. }
  split; [exact Iw|]. split; [exact Hp|].
  intros H. apply Ie, He, H.
Qed.

Lemma clientInvariant_submitQuizCall (now : Z) (c : Client) :
  clientInvariant c -> clientInvariant (submitQuizCall now c).
Proof.
  intros Hinv. unfold submitQuizCall.
  destruct (app_activeQuiz (shown c)) as [quiz|] eqn:Hq; [|exact Hinv].
  destruct Hinv as (Iq & Ir & Iw & Ip & Ie).
  unfold clientInvariant. simpl.
  split; [exact Iq|]. split; [exact Ir|]. split; [exact Iw|].
  split.
  - apply Forall_app. split; [exact Ip|].
    constructor; [|constructor]. simpl. apply computeScore_le.
  - intros _. rewrite Hq. eauto.
Qed.

Lemma clientInvariant_afterRender (now : Z) (before : App) (c : Client) :
  clientInvariant c -> clientInvariant (afterRender now before c).
Proof.
  intros Hinv.
  destruct (afterRender_cases now before c) as [-> | ->];
    [exact Hinv | apply clientInvariant_submitQuizCall; exact Hinv].
Qed.

Lemma Exists_delete_inv {A : Type} (P : A -> Prop) (i : nat) (l : list A) :
  Exists P (delete i l) -> Exists P l.
Proof.
  rewrite !Exists_exists. intros (x & Hx & Hp).
  exists x. split; [|exact Hp]. eapply list_elem_of_delete_inv. exact Hx.
Qed.

Lemma clientInvariant_handleCall (env : Env) (ev : Event) (c : Client) :
  clientInvariant c -> offered (shown c) (ActEvent env ev) ->
  clientInvariant (handleCall env ev c).
Proof.
  intros Hinv Hoff. destruct ev as [quiz| |idx optIdx| |]; simpl in *.
  - (* start *)
    unfold startQuizCall.
    destruct (isEmpty (trim (app_studentName (shown c)))).
    + apply (clientInvariant_keep c); simpl; auto.
      destruct Hinv as (_ & _ & _ & Hp & _). exact Hp.
    + destruct Hinv as (Iq & Ir & Iw & Ip & Ie).
      unfold clientInvariant. simpl.
      split; [exact Iq|]. split; [exact Ir|]. split; [exact Iw|].
      split.
      * apply Forall_app. split; [exact Ip|]. repeat constructor.
      * intros H. apply Exists_app in H. destruct H as [H|H]; [auto|].
        apply Exists_cons in H. destruct H as [H|H]; [destruct H|].
        apply Exists_nil in H. destruct H.
  - (* tick *)
    rewrite Hoff.
    apply (clientInvariant_keep c); simpl; auto.
    destruct Hinv as (_ & _ & _ & Hp & _). exact Hp.
  - (* select *)
    destruct Hoff as (Hv & _).
    rewrite bool_decide_eq_true_2 by exact Hv.
    destruct Hinv as (Iq & Ir & Iw & Ip & Ie).
    unfold clientInvariant. simpl.
    split.
    { intros _. destruct (Iq Hv) as (quiz & Hq & Hlen).
      exists quiz. split; [exact Hq|]. rewrite length_insert. exact Hlen. }
    split; [rewrite Hv; discriminate|].
    split; [exact Iw|]. split; [exact Ip | exact Ie].
  - (* submit *)
    destruct (_ && _); [|exact Hinv].
    apply clientInvariant_submitQuizCall. exact Hinv.
  - (* quit *)
    destruct Hoff as (Hv & _).
    rewrite bool_decide_eq_true_2 by exact Hv.
    apply (clientInvariant_keep c); simpl; auto.
    destruct Hinv as (_ & _ & _ & Hp & _). exact Hp.
Qed.

Lemma clientInvariant_resume (env : Env) (i : nat) (p : Pending)
    (c : Client) :
  clientInvariant c -> waiting c !! i = Some p ->
  clientInvariant (mkClient (resume env p (shown c)) (delete i (waiting c))).
Proof.
  intros Hinv Hi.
  pose proof Hinv as (Iq & Ir & Iw & Ip & Ie).
  destruct p as [quiz name|d]; simpl.
  - (* the rest of startQuiz *)
    unfold clientInvariant. simpl.
    split.
    { intros _. exists quiz. split; [reflexivity|]. apply length_replicate. }
    split; [discriminate|].
    split; [destruct (updateDocOk env); exact Iw|].
    split; [apply Forall_delete; exact Ip|].
    intros _. eauto.
  - (* the rest of submitQuiz *)
    assert (Hact : is_Some (app_activeQuiz (shown c))).
    { apply Ie. apply Exists_exists. exists (AwaitAddDoc d).
      split; [eapply list_elem_of_lookup_2; exact Hi | exact I]. }
    unfold submitQuizRest. destruct (addDoc env) as [id|message].
    + unfold clientInvariant. simpl.
      split; [discriminate|].
      split.
      { intros _. destruct Hact as [quiz Hq]. exists quiz, (withId id d).
        split; [exact Hq|]. split; [reflexivity|].
        apply elem_of_app. right. apply list_elem_of_singleton. reflexivity. }
      split.
      { apply Forall_app. split; [exact Iw|].
        constructor; [|constructor].
        apply (Forall_lookup_1 _ _ _ _ Ip Hi). }
      split; [apply Forall_delete; exact Ip|].
      intros _. exact Hact.
    + apply (clientInvariant_keep c); simpl; auto.
      * apply Forall_delete. exact Ip.
      * apply Exists_delete_inv.
Qed.

Lemma clientInvariant_happen (c : Client) (h : Happening) :
  clientInvariant c -> possible c h -> clientInvariant (happen h c).
Proof.
  intros Hinv Hpos. destruct h as [a|i env]; simpl in *.
  - destruct a as [env ev| |name|v|t].
    + apply clientInvariant_afterRender.
      apply clientInvariant_handleCall; assumption.
    + apply (clientInvariant_keep c); simpl; auto;
        destruct Hinv as (_ & _ & _ & Hp & _); exact Hp.
    + apply (clientInvariant_keep c); simpl; auto;
        destruct Hinv as (_ & _ & _ & Hp & _); exact Hp.
    + destruct Hpos as [_ Hv].
      apply (clientInvariant_keep c); simpl; auto;
        destruct Hinv as (_ & _ & _ & Hp & _); exact Hp.
    + apply (clientInvariant_keep c); simpl; auto;
        destruct Hinv as (_ & _ & _ & Hp & _); exact Hp.
  - destruct (waiting c !! i) as [p|] eqn:Hi; [|exact Hinv].
    apply clientInvariant_afterRender.
    apply clientInvariant_resume; assumption.
Qed.

Lemma clientInvariant_runs (c0 c : Client) :
  clientInvariant c0 -> runs c0 c -> clientInvariant c.
Proof.
  intros H0. induction 1 as [|c h Hr IH Hpos]; [exact H0|].
  apply clientInvariant_happen; assumption.
Qed.

Lemma clientInvariant_reaches (name : string) (s : App) :
  reaches (initialApp name) s -> exists w, clientInvariant (mkClient s w).
Proof.
  intros [w Hr]. exists w.
  apply (clientInvariant_runs _ _ (clientInvariant_initial name) Hr).
Qed.

(** *** The store that answers at once *)

Lemma delete_last {A : Type} (w : list A) (p : A) :
  delete (length w) (w ++ [p]) = w.
Proof. rewrite delete_middle. apply app_nil_r. Qed.

Lemma lookup_last {A : Type} (w : list A) (p : A) :
  (w ++ [p]) !! length w = Some p.
Proof. apply list_lookup_middle. reflexivity. Qed.

(** The call of [submitQuiz] answered at once is [submitQuiz]. *)
Lemma submit_settles (env : Env) (s : App) (w : list Pending) (quiz : Quiz) :
  app_view s = student_quiz ->
  app_activeQuiz s = Some quiz ->
  happen (Settles (length w) env) (submitQuizCall (dateNow env) (mkClient s w))
  = mkClient (submitQuiz env s) w.
Proof.
  intros Hv Hq. unfold submitQuizCall. simpl. rewrite Hq.
  unfold happen. simpl. rewrite lookup_last, delete_last. simpl.
  rewrite <- (submitQuiz_call_rest env s quiz Hq).
  unfold submitQuiz. rewrite Hq.
  destruct (addDoc env) as [id|message].
  - apply afterRender_other_view. simpl. discriminate.
  - apply afterRender_unchanged; reflexivity.
Qed.

(** What the user does with the store answering at once is done by the
    user and the store. *)
Lemma perform_runs (c0 : Client) (s : App) (w : list Pending) (a : Action) :
  runs c0 (mkClient s w) -> offered s a ->
  runs c0 (mkClient (perform a s) w).
Proof.
  intros Hr Hoff.
  pose proof (runs_step c0 _ (UserDoes a) Hr Hoff) as H1.
  destruct a as [env ev| |name|v|t]; [|exact H1..].
  destruct ev as [quiz| |idx optIdx| |]; simpl in *.
  - (* start *)
    unfold startQuizCall in H1. simpl in H1.
    destruct (isEmpty (trim (app_studentName s))) eqn:Hname.
    + rewrite (start_blank_step env quiz s Hname).
      rewrite afterRender_unchanged in H1 by reflexivity. exact H1.
    + rewrite afterRender_unchanged in H1 by reflexivity.
      pose proof (runs_step c0 _ (Settles (length w) env) H1) as H2.
      simpl in H2. rewrite lookup_last, delete_last in H2. simpl in H2.
      rewrite <- (startQuiz_call_rest env quiz s Hname) in H2.
      destruct (start_session_state env quiz s Hname) as [Es E].
      rewrite Es.
      rewrite afterRender_not_zero in H2; [apply H2; eauto|].
      rewrite E. simpl.
      destruct (durationMinutes quiz) as [[| |]|]; simpl; lia.
  - (* tick *)
    rewrite Hoff in H1.
    unfold timerRunning in Hoff. apply andb_prop in Hoff.
    destruct Hoff as [Hv Ht].
    apply bool_decide_eq_true_1 in Hv. apply Z.ltb_lt in Ht.
    destruct (decide (app_timeLeft s = 1)) as [H1s|H1s].
    + unfold countDown in H1. rewrite H1s in H1. simpl in H1.
      unfold afterRender in H1. simpl in H1.
      rewrite bool_decide_eq_false_2 in H1 by (rewrite H1s; intros [? _]; lia).
      unfold timerEffectCall, timerRunning in H1. simpl in H1.
      rewrite bool_decide_eq_true_2 in H1 by exact Hv. simpl in H1.
      destruct (app_activeQuiz s) as [quiz|] eqn:Hq.
      * rewrite bool_decide_eq_true_2 in H1 by eauto.
        rewrite (step_tick_last env s quiz Hv H1s Hq).
        pose proof (runs_step c0 _ (Settles (length w) env) H1) as H2.
        rewrite (submit_settles env (setTimeLeft 0 s) w quiz Hv Hq) in H2.
        apply H2. unfold submitQuizCall. simpl. rewrite Hq. simpl.
        rewrite lookup_last. eauto.
      * rewrite bool_decide_eq_false_2 in H1
          by (intros [? ?]; discriminate).
        assert (E : step env EvTick s = setTimeLeft 0 s).
        { unfold step. rewrite (tick_decrements env s Hv Ht), H1s.
          change (1 - 1) with 0.
          rewrite bool_decide_eq_false_2 by (simpl; intros [? _]; lia).
          unfold timerEffect, timerRunning. simpl.
          rewrite bool_decide_eq_true_2 by exact Hv. simpl. rewrite Hq.
          rewrite bool_decide_eq_false_2 by (intros [? ?]; discriminate).
          reflexivity. }
        rewrite E. exact H1.
    + rewrite (step_tick_running env s Hv) by lia.
      rewrite (countDown_pred _ Ht) in H1.
      rewrite afterRender_not_zero in H1 by (simpl; lia). exact H1.
  - (* select *)
    destruct Hoff as (Hv & _).
    rewrite (step_select env idx optIdx s Hv).
    rewrite bool_decide_eq_true_2 in H1 by exact Hv.
    rewrite afterRender_unchanged in H1 by reflexivity. exact H1.
  - (* submit *)
    destruct Hoff as (Hv & [quiz Hq] & Hf).
    rewrite (step_submit env s Hv Hf).
    rewrite bool_decide_eq_true_2, Hf in H1 by exact Hv. simpl in H1.
    rewrite afterRender_unchanged in H1
      by (unfold submitQuizCall; simpl; rewrite Hq; reflexivity).
    pose proof (runs_step c0 _ (Settles (length w) env) H1) as H2.
    rewrite (submit_settles env s w quiz Hv Hq) in H2.
    apply H2. unfold submitQuizCall. simpl. rewrite Hq. simpl.
    rewrite lookup_last. eauto.
  - (* quit *)
    destruct Hoff as (Hv & _).
    rewrite bool_decide_eq_true_2 in H1 by exact Hv.
    rewrite afterRender_other_view in H1 by (simpl; discriminate).
    assert (Hh : handle env EvQuit s = setView student_dash s).
    { simpl. rewrite bool_decide_eq_true_2 by exact Hv. reflexivity. }
    assert (E : step env EvQuit s = setView student_dash s).
    { unfold step. rewrite Hh.
      case_bool_decide; [reflexivity|].
      apply timerEffect_other_view. simpl. discriminate. }
    rewrite E. exact H1.
Qed.

Lemma reachesSettled_runs (s0 s : App) :
  reachesSettled s0 s -> runs (mkClient s0 []) (mkClient s []).
Proof.
  induction 1 as [|s a Hr IH Hoff]; [apply runs_refl|].
  apply perform_runs; assumption.
Qed.

(** Every state reached with the store answering at once is reached. *)
Lemma reachesSettled_reaches (s0 s : App) :
  reachesSettled s0 s -> reaches s0 s.
Proof. intros H. exists []. apply reachesSettled_runs. exact H. Qed.

(** X9.  Whatever the student does and whenever the store answers, the
    quiz view always has an active quiz and an answer set with one slot
    per question of it. *)
Theorem X9_quiz_view_has_slot_per_question (name : string) (s : App) :
  reaches (initialApp name) s ->
  app_view s = student_quiz ->
  exists quiz, app_activeQuiz s = Some quiz
               /\ length (app_answers s) = length (questions quiz).
Proof.
  intros Hr Hv.
  destruct (clientInvariant_reaches name s Hr) as (w & Hquiz & _).
  apply Hquiz. exact Hv.
Qed.

(** The result of a submission that the store accepts at once is
    scored from the answers that the review shows. *)
Lemma submit_at_once_matches_review (env : Env) (s : App) (id : string) :
  offered s (ActEvent env EvSubmit) -> addDoc env = DocRef id ->
  let s' := perform (ActEvent env EvSubmit) s in
  app_view s' = student_result
  /\ exists quiz r,
       app_activeQuiz s' = Some quiz /\ app_currentResult s' = Some r
       /\ quizId r = quiz_id quiz
       /\ score r = length (List.filter (correctAt quiz (app_answers s'))
                              (questionIndices quiz))
       /\ total r = length (questions quiz).
Proof.
  intros (Hv & [quiz Hq] & Hf) Hd s'. subst s'. simpl.
  rewrite (step_submit env s Hv Hf).
  unfold submitQuiz. rewrite Hq, Hd. simpl.
  split; [reflexivity|]. exists quiz. eexists.
  split; [exact Hq|]. split; [reflexivity|]. simpl.
  split; [reflexivity|]. split; [apply computeScore_count | reflexivity].
Qed.

(** X10.  Whatever the student does and whenever the store answers, the
    result view is shown with an active quiz and a current result; the
    result is one of those written, and its score is at most its
    total.  The score is the one counted when [submitQuiz] was called:
    when the store accepts a submission at once, it is the number of
    questions that the review on the page marks as correct. *)
Theorem X10_result_view_shows_written_result (name : string) (s : App) :
  reaches (initialApp name) s ->
  (app_view s = student_result ->
   exists quiz r,
     app_activeQuiz s = Some quiz /\ app_currentResult s = Some r
     /\ r ∈ app_written s /\ (score r <= total r)%nat)
  /\ (forall (env : Env) (id : string),
        offered s (ActEvent env EvSubmit) -> addDoc env = DocRef id ->
        let s' := perform (ActEvent env EvSubmit) s in
        reaches (initialApp name) s'
        /\ app_view s' = student_result
        /\ exists quiz r,
             app_activeQuiz s' = Some quiz /\ app_currentResult s' = Some r
             /\ quizId r = quiz_id quiz
             /\ score r
                = length (List.filter (correctAt quiz (app_answers s'))
                            (questionIndices quiz))
             /\ total r = length (questions quiz)).
Proof.
  intros Hr. split.
  - intros Hv.
    destruct (clientInvariant_reaches name s Hr) as (w & _ & Hres & Hw & _).
    destruct (Hres Hv) as (quiz & r & Hq & Hc & Hin).
    exists quiz, r. repeat split; try assumption.
    rewrite Forall_forall in Hw. apply Hw. exact Hin.
  - intros env id Hoff Hd s'. split.
    + destruct Hr as [w Hr]. exists w. apply perform_runs; assumption.
    + apply (submit_at_once_matches_review env s id Hoff Hd).
Qed.

(** X11.  Whatever the student does and whenever the store answers, no
    result is written with a score above its total. *)
Theorem X11_written_scores_within_total (name : string) (s : App) (r : Result) :
  reaches (initialApp name) s ->
  r ∈ app_written s -> (score r <= total r)%nat.
Proof.
  intros Hr Hin.
  destruct (clientInvariant_reaches name s Hr) as (w & _ & _ & Hw & _).
  rewrite Forall_forall in Hw. apply Hw. exact Hin.
Qed.

(** ** More on the sort *)

Section StableUnique.
Context {A : Type} (cmp : A -> A -> Z).
Hypothesis cmp_total : forall a b, cmpLe cmp a b \/ cmpLe cmp b a.
Hypothesis cmp_trans :
  forall a b c, cmpLe cmp a b -> cmpLe cmp b c -> cmpLe cmp a c.

Lemma sameClass_true (x y : A) :
  sameClass cmp x y = true <-> cmpLe cmp x y /\ cmpLe cmp y x.
Proof.
  unfold sameClass, cmpLe. rewrite andb_true_iff, !Z.leb_le. reflexivity.
Qed.

Lemma sameClass_refl (x : A) : sameClass cmp x x = true.
Proof. apply sameClass_true. destruct (cmp_total x x); tauto. Qed.

(** A sorted list is left as it is. *)
Lemma sortBy_sorted_id (l : list A) :
  StronglySorted (cmpLe cmp) l -> sortBy cmp l = l.
Proof.
  induction 1 as [|x l Hs IH Hx]; [reflexivity|].
  simpl. rewrite IH. destruct l as [|y l']; [reflexivity|].
  simpl. apply Forall_cons in Hx. destruct Hx as [Hxy _].
  unfold cmpLe in Hxy. apply Z.leb_le in Hxy. rewrite Hxy. reflexivity.
Qed.

(** The elements of a class keep their order in the sort. *)
Lemma sortBy_keeps_class (x : A) (l : list A) :
  List.filter (sameClass cmp x) (sortBy cmp l)
  = List.filter (sameClass cmp x) l.
Proof.
  apply filter_sortBy. intros a b Ha Hb.
  apply sameClass_true in Ha, Hb.
  apply (cmp_trans a x b); tauto.
Qed.

(** Two sorted arrangements of the same elements that keep the
    elements of every class in the same order are equal: the outcome
    of a stable sort is determined. *)
Lemma sorted_stable_unique (l1 l2 : list A) :
  l1 ≡ₚ l2 ->
  StronglySorted (cmpLe cmp) l1 -> StronglySorted (cmpLe cmp) l2 ->
  (forall x, List.filter (sameClass cmp x) l1
             = List.filter (sameClass cmp x) l2) ->
  l1 = l2.
Proof.
  revert l2. induction l1 as [|a l1 IH]; intros l2 Hp H1 H2 Hf.
  - apply Permutation_nil_l in Hp. congruence.
  - destruct l2 as [|b l2].
    { apply Permutation_nil_r in Hp. discriminate. }
    apply StronglySorted_inv in H1. destruct H1 as [H1 Ha].
    apply StronglySorted_inv in H2. destruct H2 as [H2 Hb].
    rewrite Forall_forall in Ha, Hb.
    assert (Hab : cmpLe cmp a b).
    { assert (Hin : b ∈ a :: l1) by (rewrite Hp; left).
      apply elem_of_cons in Hin. destruct Hin as [->|Hin].
      - destruct (cmp_total a a); assumption.
      - apply Ha. exact Hin. }
    assert (Hba : cmpLe cmp b a).
    { assert (Hin : a ∈ b :: l2) by (rewrite <- Hp; left).
      apply elem_of_cons in Hin. destruct Hin as [->|Hin].
      - destruct (cmp_total b b); assumption.
      - apply Hb. exact Hin. }
    assert (Heq : a = b).
    { specialize (Hf a). simpl in Hf.
      rewrite sameClass_refl in Hf.
      rewrite (proj2 (sameClass_true a b) (conj Hab Hba)) in Hf.
      congruence. }
    subst b. f_equal. apply IH.
    + apply (Permutation_cons_inv Hp).
    + exact H1.
    + exact H2.
    + intros x. specialize (Hf x). simpl in Hf.
      destruct (sameClass cmp x a); congruence.
Qed.
End StableUnique.

(** ** More on the leaderboard *)

Lemma filter_all_elem {A : Type} (P : A -> Prop) `{forall x, Decision (P x)}
    (l : list A) :
  (forall x, x ∈ l -> P x) -> filter P l = l.
Proof.
  induction l as [|x l IH]; intros HP; [reflexivity|].
  rewrite (filter_cons_True P x l) by (apply HP; left).
  rewrite IH; [reflexivity|]. intros y Hy. apply HP. right. exact Hy.
Qed.

Lemma firstOccurrences_NoDup_id {A K : Type} `{EqDecision K} (key : A -> K)
    (l : list A) :
  NoDup (key <$> l) -> firstOccurrences key l = l.
Proof.
  induction l as [|x l IH]; [reflexivity|].
  rewrite fmap_cons. intros Hnd. apply NoDup_cons in Hnd.
  destruct Hnd as [Hx Hl]. cbn [firstOccurrences].
  rewrite (IH Hl). f_equal. apply filter_all_elem.
  intros y Hy Heq. apply Hx. rewrite <- Heq.
  apply list_elem_of_fmap_2. exact Hy.
Qed.

Lemma firstOccurrences_length_le {A K : Type} `{EqDecision K} (key : A -> K)
    (l : list A) :
  (length (firstOccurrences key l) <= length l)%nat.
Proof.
  induction l as [|x l IH]; simpl; [lia|].
  pose proof (length_filter (fun y => key y ≠ key x)
                (firstOccurrences key l)).
  lia.
Qed.

Lemma byScoreThenDate_total (a b : Result) :
  cmpLe byScoreThenDate a b \/ cmpLe byScoreThenDate b a.
Proof. rewrite !byScoreThenDate_le. apply ranksBefore_total. Qed.

Lemma byScoreThenDate_trans (a b c : Result) :
  cmpLe byScoreThenDate a b -> cmpLe byScoreThenDate b c ->
  cmpLe byScoreThenDate a c.
Proof. rewrite !byScoreThenDate_le. apply ranksBefore_trans. Qed.

Lemma sameClass_byScoreThenDate (x y : Result) :
  sameClass byScoreThenDate x y = true
  <-> score x = score y /\ date x = date y.
Proof.
  rewrite sameClass_true, !byScoreThenDate_le. unfold ranksBefore. lia.
Qed.

(** X12.  The leaderboard of a leaderboard is the leaderboard itself. *)
Theorem X12_leaderboard_idempotent (results : list Result) (quiz : string) :
  getLeaderboard (getLeaderboard results quiz) quiz
  = getLeaderboard results quiz.
Proof.
  set (board := getLeaderboard results quiz).
  unfold getLeaderboard at 1. unfold quizResultsByDate.
  rewrite (filter_all_elem _ board)
    by (intros e He; apply (getLeaderboard_elem results quiz e He)).
  rewrite uniqueResults_firstOccurrences.
  rewrite firstOccurrences_NoDup_id
    by (rewrite (sortBy_perm byDateAsc board);
        apply getLeaderboard_keys_NoDup).
  apply (sorted_stable_unique byScoreThenDate byScoreThenDate_total).
  - rewrite !sortBy_perm. reflexivity.
  - apply sortBy_sorted;
      [apply byScoreThenDate_total | apply byScoreThenDate_trans].
  - unfold board, getLeaderboard. apply sortBy_sorted;
      [apply byScoreThenDate_total | apply byScoreThenDate_trans].
  - intros x.
    rewrite (sortBy_keeps_class byScoreThenDate byScoreThenDate_trans).
    apply filter_sortBy. intros a b Ha Hb.
    apply sameClass_byScoreThenDate in Ha, Hb.
    unfold cmpLe, byDateAsc. lia.
Qed.

(** X13.  The leaderboard of a quiz is empty exactly when no result belongs
    to the quiz, and it never has more entries than the quiz has
    results. *)
Theorem X13_leaderboard_empty_iff_no_results (results : list Result)
    (quiz : string) :
  (getLeaderboard results quiz = []
   <-> forall r, r ∈ results -> quizId r <> quiz)
  /\ (length (getLeaderboard results quiz)
      <= length (filter (fun r => quizId r = quiz) results))%nat.
Proof.
  split.
  - split.
    + intros Hnil r Hr Hq.
      destruct (getLeaderboard_covers results quiz r Hr Hq) as (e & He & _).
      rewrite Hnil in He. apply elem_of_nil in He. exact He.
    + intros Hnone.
      destruct (getLeaderboard results quiz) as [|e l] eqn:E; [reflexivity|].
      destruct (getLeaderboard_elem results quiz e) as [He Hq].
      { rewrite E. left. }
      destruct (Hnone e He Hq).
  - rewrite (getLeaderboard_perm results quiz).
    etransitivity; [apply firstOccurrences_length_le|].
    rewrite sortBy_length. reflexivity.
Qed.

Lemma first_rank_is_best (results : list Result)
    (quiz : string) (e r : Result) :
  getLeaderboard results quiz !! 0%nat = Some e ->
  r ∈ results -> quizId r = quiz ->
  (score r <= score e)%nat /\ (score r = score e -> date e <= date r).
Proof.
  intros He Hr Hq.
  destruct (getLeaderboard_covers results quiz r Hr Hq) as (e' & He' & Hk).
  pose proof (getLeaderboard_earliest results quiz e' r He' Hr Hq
                (eq_sym Hk)) as Hdate.
  assert (Hs : score e' = score r) by (unfold dedupKey in Hk; congruence).
  pose proof (sortBy_byScoreThenDate_sorted
                (uniqueResults (quizResultsByDate results quiz))) as Hsorted.
  fold (getLeaderboard results quiz) in Hsorted.
  destruct (getLeaderboard results quiz) as [|e0 rest]; [discriminate|].
  simpl in He. injection He as ->.
  apply StronglySorted_inv in Hsorted. destruct Hsorted as [_ Hall].
  apply elem_of_cons in He'. destruct He' as [->|He'].
  - split; [lia|]. intros _. exact Hdate.
  - rewrite Forall_forall in Hall. specialize (Hall e' He').
    unfold ranksBefore in Hall. lia.
Qed.

(** X14.  The first rank holds the highest score recorded for the quiz and,
    among the results with that score, the earliest time stamp. *)
Theorem X14_leaderboard_first_rank_is_best (results : list Result)
    (quiz : string) (e r : Result) :
  getLeaderboard results quiz !! 0%nat = Some e ->
  r ∈ results -> quizId r = quiz ->
  (score r <= score e)%nat /\ (score r = score e -> date e <= date r).
Proof. apply first_rank_is_best. Qed.

(** X15.  The first version of the leaderboard lists every result of the
    quiz, by descending score and otherwise in the stored order; the
    entries of the present leaderboard are among them, and both put
    the same score first. *)
Theorem X15_first_version_leaderboard (results : list Result) (quiz : string) :
  let old := FirstVersion.getLeaderboard results quiz in
  let new := getLeaderboard results quiz in
  old ≡ₚ filter (fun r => quizId r = quiz) results
  /\ StronglySorted (fun a b => (score b <= score a)%nat) old
  /\ (forall points,
        List.filter (fun r => (score r =? points)%nat) old
        = List.filter (fun r => (score r =? points)%nat)
            (filter (fun r => quizId r = quiz) results))
  /\ (forall e, e ∈ new -> e ∈ old)
  /\ (forall e e', old !! 0%nat = Some e -> new !! 0%nat = Some e' ->
                   score e = score e').
Proof.
  intros old new.
  assert (Hperm : old ≡ₚ filter (fun r => quizId r = quiz) results)
    by apply sortBy_perm.
  assert (Hsorted : StronglySorted (fun a b => (score b <= score a)%nat) old).
  { apply (StronglySorted_weaken (cmpLe byScoreDesc)).
    - intros a b. apply byScoreDesc_le.
    - apply sortBy_sorted.
      + intros a b. rewrite !byScoreDesc_le. lia.
      + intros a b c. rewrite !byScoreDesc_le. lia. }
  split; [exact Hperm|]. split; [exact Hsorted|].
  split.
  { intros points. apply filter_sortBy. intros a b Ha Hb.
    apply Nat.eqb_eq in Ha, Hb. apply byScoreDesc_le. lia. }
  split.
  { intros e He. rewrite Hperm. apply list_elem_of_filter.
    destruct (getLeaderboard_elem results quiz e He). tauto. }
  intros e e' He He'.
  assert (Hin' : e' ∈ results /\ quizId e' = quiz).
  { apply getLeaderboard_elem. eapply list_elem_of_lookup_2. exact He'. }
  assert (Hin : e ∈ results /\ quizId e = quiz).
  { assert (H : e ∈ old) by (eapply list_elem_of_lookup_2; exact He).
    rewrite Hperm in H. apply list_elem_of_filter in H. tauto. }
  destruct (first_rank_is_best results quiz e' e He')
    as [Hle _]; [tauto | tauto |].
  assert (Hge : (score e' <= score e)%nat).
  { destruct old as [|e0 rest]; [discriminate|].
    simpl in He. injection He as ->.
    assert (H : e' ∈ e :: rest).
    { rewrite Hperm. apply list_elem_of_filter. tauto. }
    apply StronglySorted_inv in Hsorted. destruct Hsorted as [_ Hall].
    apply elem_of_cons in H. destruct H as [->|H]; [lia|].
    rewrite Forall_forall in Hall. apply Hall. exact H. }
  lia.
Qed.

(** ** More on the badges *)

Lemma sameStudent_case (n1 n2 : string) (r : Result) :
  toLowerCase n1 = toLowerCase n2 -> sameStudent n1 r = sameStudent n2 r.
Proof. intros H. unfold sameStudent. rewrite H. reflexivity. Qed.

Lemma existsb_ext_all {A : Type} (p p' : A -> bool) (l : list A) :
  (forall x, p x = p' x) -> existsb p l = existsb p' l.
Proof.
  intros H. induction l as [|x l IH]; simpl; [reflexivity|].
  rewrite H, IH. reflexivity.
Qed.

Lemma findIndexFrom_ext {A : Type} (p p' : A -> bool) (k : Z) (l : list A) :
  (forall x, p x = p' x) -> findIndexFrom p k l = findIndexFrom p' k l.
Proof.
  intros H. revert k. induction l as [|x l IH]; intros k; simpl;
    [reflexivity|].
  rewrite H, IH. reflexivity.
Qed.

(** X16.  The badges depend on the student name only up to the case of its
    letters: two names with the same lowercase form get the same
    Grammar Master badge, the same Top-3 badge and the same streak. *)
Theorem X16_badges_ignore_case (n1 n2 : string) (results : list Result)
    (zone : Zone) (now : Z) :
  toLowerCase n1 = toLowerCase n2 ->
  hasGrammarMaster n1 results = hasGrammarMaster n2 results
  /\ hasAnyTop3 n1 results = hasAnyTop3 n2 results
  /\ calculateStreak zone now n1 results
     = calculateStreak zone now n2 results.
Proof.
  intros H.
  pose proof (fun r => sameStudent_case n1 n2 r H) as Hs.
  split; [|split].
  - unfold hasGrammarMaster. apply existsb_ext_all.
    intros r. rewrite Hs. reflexivity.
  - unfold hasAnyTop3. apply existsb_ext_all. intros r.
    rewrite Hs. f_equal. unfold isTop3, findIndex.
    rewrite (findIndexFrom_ext _ _ 0 _ Hs). reflexivity.
  - unfold calculateStreak.
    assert (He : isEmpty n1 = isEmpty n2).
    { destruct n1 as [|c1 n1], n2 as [|c2 n2]; try reflexivity; exfalso.
      - rewrite toLowerCase_empty in H. symmetry in H.
        apply toLowerCase_nonempty in H. discriminate.
      - rewrite toLowerCase_empty in H.
        apply toLowerCase_nonempty in H. discriminate. }
    rewrite He.
    rewrite (filter_ext_in (sameStudent n1) (sameStudent n2) results)
      by (intros r _; apply Hs).
    reflexivity.
Qed.

Lemma foldl_setAdd_length (xs acc : list Z) :
  (length (foldl setAdd acc xs) <= length acc + length xs)%nat.
Proof.
  revert acc. induction xs as [|y xs IH]; intros acc; simpl; [lia|].
  etransitivity; [apply IH|]. unfold setAdd.
  destruct (decide (y ∈ acc)); [lia|]. rewrite length_app. simpl. lia.
Qed.

Lemma streakLoop_le (dates : list Z) (k : nat) :
  (streakLoop dates k <= k + pred (length dates))%nat.
Proof.
  revert k. induction dates as [|d1 rest IH]; intros k; [simpl; lia|].
  destruct rest as [|d2 rest']; [simpl; lia|].
  change (streakLoop (d1 :: d2 :: rest') k)
    with (if ceilDiv (Z.abs (d1 - d2)) msPerDay =? 1
          then streakLoop (d2 :: rest') (S k) else k).
  destruct (ceilDiv (Z.abs (d1 - d2)) msPerDay =? 1).
  - etransitivity; [apply IH|]. simpl. lia.
  - simpl. lia.
Qed.

(** X17.  In any time zone the streak is at most the number of results of
    the student, and it is positive only if one of them falls on the
    local day of today or of yesterday. *)
Theorem X17_streak_bounded_and_recent (zone : Zone) (now : Z) (name : string)
    (results : list Result) :
  (calculateStreak zone now name results
   <= length (List.filter (sameStudent name) results))%nat
  /\ ((0 < calculateStreak zone now name results)%nat ->
      exists r, r ∈ results
        /\ toLowerCase (studentName r) = toLowerCase name
        /\ (startOfDay zone (date r) = startOfDay zone now
            \/ startOfDay zone (date r)
               = previousDay zone (startOfDay zone now))).
Proof.
  unfold calculateStreak.
  destruct (isEmpty name); [split; [lia | intros H; lia]|].
  set (mine := List.filter (sameStudent name) results).
  set (days := map (fun r => startOfDay zone (date r)) mine).
  set (dates := sortBy (fun a b => b - a) (arrayFromSet days)).
  assert (Hlen : (length dates <= length mine)%nat).
  { unfold dates. rewrite sortBy_length. unfold arrayFromSet.
    etransitivity; [apply foldl_setAdd_length|].
    unfold days. rewrite length_map. simpl. lia. }
  assert (Hin : forall x, x ∈ dates ->
            exists r, r ∈ results
              /\ toLowerCase (studentName r) = toLowerCase name
              /\ startOfDay zone (date r) = x).
  { intros x Hx. unfold dates in Hx.
    rewrite elem_of_sortBy, elem_of_arrayFromSet in Hx.
    unfold days in Hx. rewrite list_elem_of_In, in_map_iff in Hx.
    destruct Hx as (r & Hr & Hm). apply filter_In in Hm.
    exists r. split; [apply list_elem_of_In; tauto|].
    split; [apply sameStudent_true; tauto | exact Hr]. }
  destruct dates as [|currentDate rest] eqn:Hd; [split; [lia | intros H; lia]|].
  cbv zeta.
  destruct (negb (currentDate =? startOfDay zone now)
            && negb (currentDate =? previousDay zone (startOfDay zone now)))
    eqn:Hlapsed.
  - split; [lia | intros H; lia].
  - split.
    + etransitivity; [apply streakLoop_le|]. simpl in *. lia.
    + intros _. destruct (Hin currentDate) as (r & Hr & Hn & Hday).
      { left. }
      exists r. split; [exact Hr|]. split; [exact Hn|]. rewrite Hday.
      apply andb_false_iff in Hlapsed.
      rewrite !negb_false_iff, !Z.eqb_eq in Hlapsed. exact Hlapsed.
Qed.

(** ** The subject tabs *)

Section ArrayFromSetOf.
Context {A : Type} `{EqDecision A}.

Lemma foldl_addToSet_elem (xs acc : list A) (x : A) :
  x ∈ foldl addToSet acc xs <-> x ∈ acc \/ x ∈ xs.
Proof.
  revert acc. induction xs as [|y xs IH]; intros acc; simpl.
  - rewrite elem_of_nil. tauto.
  - rewrite IH, elem_of_cons. unfold addToSet.
    destruct (decide (y ∈ acc)) as [Hin|Hnin].
    + split; [tauto|]. intros [H|[->|H]]; tauto.
    + rewrite elem_of_app, list_elem_of_singleton. tauto.
Qed.

Lemma foldl_addToSet_NoDup (xs acc : list A) :
  NoDup acc -> NoDup (foldl addToSet acc xs).
Proof.
  revert acc. induction xs as [|y xs IH]; intros acc Hacc; simpl.
  - exact Hacc.
  - apply IH. unfold addToSet.
    destruct (decide (y ∈ acc)) as [Hin|Hnin]; [exact Hacc|].
    apply NoDup_app. split; [exact Hacc|].
    split; [|apply NoDup_singleton].
    intros x Hx Hx'. apply list_elem_of_singleton in Hx'. subst. tauto.
Qed.

Lemma elem_of_arrayFromSetOf (xs : list A) (x : A) :
  x ∈ arrayFromSetOf xs <-> x ∈ xs.
Proof.
  unfold arrayFromSetOf. rewrite foldl_addToSet_elem, elem_of_nil. tauto.
Qed.

Lemma arrayFromSetOf_NoDup (xs : list A) : NoDup (arrayFromSetOf xs).
Proof. apply foldl_addToSet_NoDup. constructor. Qed.
End ArrayFromSetOf.

Lemma elem_of_subjects (quizzes : list Quiz) (sub : string) :
  sub ∈ arrayFromSetOf (map subjectOrGeneral quizzes)
  <-> exists q, q ∈ quizzes /\ subjectOrGeneral q = sub.
Proof.
  rewrite elem_of_arrayFromSetOf, list_elem_of_In, in_map_iff.
  split; intros (q & H1 & H2); exists q.
  - split; [apply list_elem_of_In; exact H2 | exact H1].
  - split; [exact H2 | apply list_elem_of_In; exact H1].
Qed.

(** X18.  The tabs of the dashboard: every quiz is listed under the tab of
    its subject; a tab other than "All" lists exactly the quizzes of
    its subject and at least one; the tabs are pairwise different
    unless some quiz has the subject "All", whose tab then is the
    second "All" and lists every quiz. *)
Theorem X18_subject_tabs (quizzes : list Quiz) :
  (forall q, q ∈ quizzes ->
     subjectOrGeneral q ∈ allSubjects quizzes
     /\ q ∈ filteredQuizzes (subjectOrGeneral q) quizzes)
  /\ (forall sub, sub ∈ allSubjects quizzes -> sub <> "All" ->
        filteredQuizzes sub quizzes <> []
        /\ forall q, q ∈ filteredQuizzes sub quizzes
                     <-> q ∈ quizzes /\ subjectOrGeneral q = sub)
  /\ (NoDup (allSubjects quizzes)
      <-> forall q, q ∈ quizzes -> subjectOrGeneral q <> "All")
  /\ (forall q, q ∈ quizzes -> subjectOrGeneral q = "All" ->
        filteredQuizzes (subjectOrGeneral q) quizzes = quizzes).
Proof.
  split; [|split; [|split]].
  - intros q Hq. split.
    + unfold allSubjects. right. apply elem_of_subjects. eauto.
    + unfold filteredQuizzes. case_decide; [exact Hq|].
      apply list_elem_of_filter. tauto.
  - intros sub Hsub Hne. unfold filteredQuizzes.
    rewrite decide_False by exact Hne.
    unfold allSubjects in Hsub. apply elem_of_cons in Hsub.
    destruct Hsub as [->|Hsub]; [congruence|].
    apply elem_of_subjects in Hsub. destruct Hsub as (q & Hq & Hs).
    split.
    + intros Hnil.
      assert (Hin : q ∈ filter (fun q => subjectOrGeneral q = sub) quizzes)
        by (apply list_elem_of_filter; tauto).
      rewrite Hnil in Hin. apply elem_of_nil in Hin. exact Hin.
    + intros q'. rewrite list_elem_of_filter. tauto.
  - unfold allSubjects. rewrite NoDup_cons. split.
    + intros [Hnin _] q Hq Heq. apply Hnin.
      apply elem_of_subjects. eauto.
    + intros H. split; [|apply arrayFromSetOf_NoDup].
      intros Hin. apply elem_of_subjects in Hin.
      destruct Hin as (q & Hq & Hs). exact (H q Hq Hs).
  - intros q Hq Heq. unfold filteredQuizzes. rewrite Heq.
    rewrite decide_True by reflexivity. reflexivity.
Qed.

(** ** The quiz editor *)

Lemma filterByIndex_all {A : Type} (p : nat -> bool) (m : nat)
    (xs : list A) :
  (forall i, (m <= i)%nat -> p i = true) -> filterByIndex p m xs = xs.
Proof.
  revert m. induction xs as [|x xs IH]; intros m Hp; [reflexivity|].
  simpl. rewrite (Hp m) by lia. f_equal. apply IH.
  intros i Hi. apply Hp. lia.
Qed.

Lemma filterByIndex_remove {A : Type} (index k : nat) (xs : list A) :
  filterByIndex (fun i => negb (i =? k + index)%nat) k xs
  = take index xs ++ drop (S index) xs.
Proof.
  revert index k. induction xs as [|x xs IH]; intros index k.
  - destruct index; reflexivity.
  - simpl filterByIndex. destruct index as [|index].
    + replace (k + 0)%nat with k by lia. rewrite Nat.eqb_refl. simpl.
      rewrite drop_0. apply filterByIndex_all.
      intros i Hi. destruct (Nat.eqb_spec i k); [lia | reflexivity].
    + destruct (Nat.eqb_spec k (k + S index)) as [H|H]; [lia|]. simpl.
      f_equal. replace (k + S index)%nat with (S k + index)%nat by lia.
      apply IH.
Qed.

Lemma removeQuestion_cases (index : nat) (e : Editor) (quiz : Quiz) :
  generatedQuiz e = Some quiz ->
  ((length (questions quiz) <= 1)%nat ->
   removeQuestion index e
   = mkEditor (Some quiz)
       (Some ("Quiz must have at least one question.", error)))
  /\ ((1 < length (questions quiz))%nat ->
      exists quiz',
        removeQuestion index e = mkEditor (Some quiz') (editorToast e)
        /\ questions quiz'
           = take index (questions quiz) ++ drop (S index) (questions quiz)
        /\ questions quiz' <> []
        /\ ((index < length (questions quiz))%nat ->
            S (length (questions quiz')) = length (questions quiz))
        /\ ((length (questions quiz) <= index)%nat ->
            questions quiz' = questions quiz)).
Proof.
  intros Hq. unfold removeQuestion. rewrite Hq. split.
  - intros Hle. apply Nat.leb_le in Hle. rewrite Hle. reflexivity.
  - intros Hlt.
    destruct (Nat.leb_spec (length (questions quiz)) 1) as [H|_]; [lia|].
    eexists. split; [reflexivity|]. simpl.
    rewrite (filterByIndex_remove index 0).
    split; [reflexivity|].
    assert (Hlen : length (take index (questions quiz)
                           ++ drop (S index) (questions quiz))
                   = (Nat.min index (length (questions quiz))
                      + (length (questions quiz) - S index))%nat).
    { rewrite length_app, length_take, length_drop. reflexivity. }
    split.
    { intros Hnil. rewrite Hnil in Hlen. simpl in Hlen. lia. }
    split.
    { intros Hi. rewrite Hlen. lia. }
    intros Hge. rewrite take_ge by lia. rewrite drop_ge by lia.
    apply app_nil_r.
Qed.

(** X19.  [removeQuestion] never removes the last question: with one
    question (or none) it only raises the error toast; otherwise it
    removes the question at the index, keeps the others in order and
    leaves the list as it is when the index is beyond its end. *)
Theorem X19_removeQuestion_keeps_one (index : nat) (e : Editor) (quiz : Quiz) :
  generatedQuiz e = Some quiz ->
  ((length (questions quiz) <= 1)%nat ->
   removeQuestion index e
   = mkEditor (Some quiz)
       (Some ("Quiz must have at least one question.", error)))
  /\ ((1 < length (questions quiz))%nat ->
      exists quiz',
        removeQuestion index e = mkEditor (Some quiz') (editorToast e)
        /\ questions quiz'
           = take index (questions quiz) ++ drop (S index) (questions quiz)
        /\ questions quiz' <> []
        /\ ((index < length (questions quiz))%nat ->
            S (length (questions quiz')) = length (questions quiz))
        /\ ((length (questions quiz) <= index)%nat ->
            questions quiz' = questions quiz)).
Proof. apply removeQuestion_cases. Qed.

Lemma valid_setQuestionField (f : QuestionField) (q : Question) :
  valid_question q ->
  match f with
  | FieldCorrectIndex value => 0 <= value < Z.of_nat (length (options q))
  | _ => True
  end ->
  valid_question (setQuestionField f q).
Proof.
  unfold valid_question. destruct f; simpl; intros; tauto.
Qed.

Lemma newQuestion_valid : valid_question newQuestion.
Proof. unfold valid_question. simpl. lia. Qed.

Lemma insert_not_nil {A : Type} (i : nat) (x : A) (l : list A) :
  l <> [] -> <[i := x]> l <> [].
Proof.
  intros H Hnil. apply (f_equal length) in Hnil.
  rewrite length_insert in Hnil. destruct l; [congruence | discriminate].
Qed.

(** One offered edit: it is carried out, and it keeps the quiz in the
    editor non-empty and, if it was valid, valid. *)
Lemma edit_step (e : Editor) (a : EditorAction) (quiz : Quiz) :
  generatedQuiz e = Some quiz -> editOffered e a ->
  exists e' quiz',
    applyEdit a e = Edited e' /\ generatedQuiz e' = Some quiz'
    /\ (questions quiz <> [] -> questions quiz' <> [])
    /\ (valid_quiz quiz -> valid_quiz quiz').
Proof.
  intros Hq (quiz0 & Hq0 & Hoff).
  rewrite Hq in Hq0. injection Hq0 as <-.
  destruct a as [index value|index value|index optIdx|index optIdx value
                |index|]; simpl in *.
  - destruct (lookup_lt_is_Some_2 _ _ Hoff) as [q Hlook].
    unfold updateQuestion. rewrite Hq, Hlook.
    eexists _, _. split; [reflexivity|]. split; [reflexivity|]. simpl.
    split; [apply insert_not_nil|].
    unfold valid_quiz. intros Hv. apply Forall_insert; [exact Hv|].
    apply (valid_setQuestionField (FieldText value) q); [|exact I].
    rewrite Forall_forall in Hv. apply Hv.
    eapply list_elem_of_lookup_2. exact Hlook.
  - destruct (lookup_lt_is_Some_2 _ _ Hoff) as [q Hlook].
    unfold updateQuestion. rewrite Hq, Hlook.
    eexists _, _. split; [reflexivity|]. split; [reflexivity|]. simpl.
    split; [apply insert_not_nil|].
    unfold valid_quiz. intros Hv. apply Forall_insert; [exact Hv|].
    apply (valid_setQuestionField (FieldExplanation value) q); [|exact I].
    rewrite Forall_forall in Hv. apply Hv.
    eapply list_elem_of_lookup_2. exact Hlook.
  - destruct Hoff as (q & Hlook & Hopt).
    unfold updateQuestion. rewrite Hq, Hlook.
    eexists _, _. split; [reflexivity|]. split; [reflexivity|]. simpl.
    split; [apply insert_not_nil|].
    unfold valid_quiz. intros Hv. apply Forall_insert; [exact Hv|].
    unfold valid_question. simpl. lia.
  - destruct Hoff as (q & Hlook & Hopt).
    unfold updateOption. rewrite Hq, Hlook.
    destruct (Nat.ltb_spec (length (options q)) optIdx) as [H|_]; [lia|].
    destruct (Nat.eqb_spec optIdx (length (options q))) as [H|_]; [lia|].
    eexists _, _. split; [reflexivity|]. split; [reflexivity|]. simpl.
    split; [apply insert_not_nil|].
    unfold valid_quiz. intros Hv. apply Forall_insert; [exact Hv|].
    rewrite Forall_forall in Hv.
    assert (Hvq : valid_question q)
      by (apply Hv; eapply list_elem_of_lookup_2; exact Hlook).
    unfold valid_question in *. simpl. rewrite length_insert. exact Hvq.
  - destruct (Nat.leb_spec (length (questions quiz)) 1) as [Hle|Hlt].
    + eexists _, quiz. split; [reflexivity|].
      unfold removeQuestion. rewrite Hq.
      apply Nat.leb_le in Hle. rewrite Hle. simpl.
      split; [reflexivity|]. tauto.
    + destruct (removeQuestion_cases index e quiz Hq) as [_ H].
      destruct (H Hlt) as (quiz' & Hr & Hqs & Hne & _).
      eexists _, quiz'. split; [reflexivity|]. rewrite Hr. simpl.
      split; [reflexivity|]. split; [intros _; exact Hne|].
      unfold valid_quiz. rewrite Hqs. intros Hv.
      apply Forall_app. split.
      * apply Forall_take. exact Hv.
      * apply Forall_drop. exact Hv.
  - unfold addQuestion. rewrite Hq.
    eexists _, _. split; [reflexivity|]. split; [reflexivity|]. simpl.
    split.
    + intros _ Hnil. apply app_eq_nil in Hnil. destruct Hnil; discriminate.
    + unfold valid_quiz. intros Hv. apply Forall_app. split; [exact Hv|].
      constructor; [apply newQuestion_valid | constructor].
Qed.

(** X20.  Through the controls of the editor a quiz never loses its last
    question and never gets a correct index that points at no option:
    from a quiz that is valid and not empty every offered edit is
    carried out, and every editor state reached holds a quiz that is
    valid and not empty. *)
Theorem X20_editor_keeps_quiz_valid (e0 e : Editor) (quiz0 : Quiz) :
  generatedQuiz e0 = Some quiz0 ->
  questions quiz0 <> [] -> valid_quiz quiz0 ->
  editReaches e0 e ->
  (exists quiz, generatedQuiz e = Some quiz
                /\ questions quiz <> [] /\ valid_quiz quiz)
  /\ (forall a, editOffered e a -> exists e', applyEdit a e = Edited e').
Proof.
  intros Hq0 Hne0 Hv0 Hreach.
  assert (Hinv : exists quiz, generatedQuiz e = Some quiz
                   /\ questions quiz <> [] /\ valid_quiz quiz).
  { induction Hreach as [|e e' a Hr IH Hoff Happ]; [eauto|].
    destruct IH as (quiz & Hq & Hne & Hv).
    destruct (edit_step e a quiz Hq Hoff)
      as (e'' & quiz' & Happ' & Hq' & Hne' & Hv').
    rewrite Happ in Happ'. injection Happ' as <-.
    exists quiz'. auto. }
  split; [exact Hinv|].
  intros a Hoff. destruct Hinv as (quiz & Hq & _).
  destruct (edit_step e a quiz Hq Hoff) as (e' & _ & Happ & _).
  exists e'. exact Happ.
Qed.

(** ** The teacher's password *)

Lemma teacherStep_locked (env : TeacherEnv) (a : TeacherAction) (t : Teacher) :
  isAuthenticated (t_auth t) = false ->
  authPassword (t_auth t) <> "admin" ->
  a <> TypePassword "admin" ->
  isAuthenticated (t_auth (teacherStep env a t)) = false
  /\ authPassword (t_auth (teacherStep env a t)) <> "admin"
  /\ t_requests (teacherStep env a t) = t_requests t.
Proof.
  intros Hauth Hpw Ha.
  destruct a; simpl; try (repeat split; assumption).
  - repeat split; try assumption. simpl. congruence.
  - unfold handleAuth. rewrite decide_False by exact Hpw.
    simpl. repeat split; assumption.
  - unfold handleCreateQuiz. rewrite Hauth. simpl. repeat split; assumption.
  - unfold publishQuiz. rewrite Hauth. repeat split; assumption.
  - unfold deleteItem. rewrite Hauth. simpl. repeat split; assumption.
  - unfold handleUploadNote. rewrite Hauth. simpl. repeat split; assumption.
Qed.

Lemma teacherStep_keeps_auth (env : TeacherEnv) (a : TeacherAction)
    (t : Teacher) :
  isAuthenticated (t_auth t) = true ->
  isAuthenticated (t_auth (teacherStep env a t)) = true
  /\ exists sent, t_requests (teacherStep env a t) = t_requests t ++ sent.
Proof.
  intros Hauth.
  assert (Hnil : exists sent, t_requests t = t_requests t ++ sent)
    by (exists []; rewrite app_nil_r; reflexivity).
  destruct a; simpl; try (split; assumption).
  - unfold handleAuth. case_decide; simpl; split; auto.
  - unfold handleCreateQuiz. rewrite Hauth. simpl.
    destruct (isEmpty (prompt (t_creation t))
              && negb (bool_decide (is_Some (file (t_creation t)))));
      [simpl; split; assumption|].
    destruct (te_generated env); simpl; (split; [exact Hauth|]);
      eexists; reflexivity.
  - unfold publishQuiz. rewrite Hauth.
    destruct (draft (t_creation t)); [|split; assumption].
    destruct (te_addDoc env); simpl; (split; [exact Hauth|]);
      eexists; reflexivity.
  - unfold deleteItem. rewrite Hauth. simpl.
    destruct (te_confirm env); [|split; assumption].
    destruct (te_deleteOk env); simpl; (split; [exact Hauth|]);
      eexists; reflexivity.
  - unfold handleUploadNote. rewrite Hauth. simpl.
    destruct (noteFile (t_notes t)); [|simpl; split; assumption].
    destruct (isEmpty (noteTitle (t_notes t)));
      [simpl; split; assumption|].
    destruct (te_addDoc env); simpl; (split; [exact Hauth|]);
      eexists; reflexivity.
Qed.

(** X21.  Whatever handlers are triggered and in whatever order: as long as
    the password "admin" is not typed, the teacher is not
    authenticated and no request goes to the store or to the
    generator; and once authenticated the teacher stays so, requests
    being only added to those already sent. *)
Theorem X21_no_request_without_password
    (acts : list (TeacherEnv * TeacherAction)) (t : Teacher) :
  (isAuthenticated (t_auth t) = false ->
   authPassword (t_auth t) <> "admin" ->
   (forall env, (env, TypePassword "admin") ∉ acts) ->
   isAuthenticated (t_auth (teacherRun acts t)) = false
   /\ t_requests (teacherRun acts t) = t_requests t)
  /\ (isAuthenticated (t_auth t) = true ->
      isAuthenticated (t_auth (teacherRun acts t)) = true
      /\ exists sent, t_requests (teacherRun acts t) = t_requests t ++ sent).
Proof.
  split.
  - revert t. induction acts as [|[env a] acts IH]; intros t Hauth Hpw Hacts.
    + split; [exact Hauth | reflexivity].
    + simpl.
      destruct (teacherStep_locked env a t Hauth Hpw) as (H1 & H2 & H3).
      { intros ->. apply (Hacts env). left. }
      destruct (IH (teacherStep env a t) H1 H2) as [H4 H5].
      { intros env' Hin. apply (Hacts env'). right. exact Hin. }
      split; [exact H4|]. rewrite H5. exact H3.
  - revert t. induction acts as [|[env a] acts IH]; intros t Hauth.
    + split; [exact Hauth|]. exists []. rewrite app_nil_r. reflexivity.
    + simpl.
      destruct (teacherStep_keeps_auth env a t Hauth) as (H1 & sent & H2).
      destruct (IH (teacherStep env a t) H1) as (H3 & sent' & H4).
      split; [exact H3|]. exists (sent ++ sent').
      rewrite H4, H2, app_assoc. reflexivity.
Qed.

(** ** The question paper *)

Section PaperFacts.
Variable questionLines : nat -> Question -> nat.
Variable explanationLines : Question -> nat.

Lemma breakIfBelow_cursor (limit : Z) (p : Pen) :
  20 <= limit -> 20 <= penY p ->
  20 <= penY (breakIfBelow limit p) <= limit
  /\ penLog (breakIfBelow limit p) = penLog p.
Proof.
  intros Hl Hp. unfold breakIfBelow.
  destruct (Z.ltb_spec limit (penY p)); simpl; split; try reflexivity; lia.
Qed.

Lemma printOptions_spec (i : nat) (opts : list string) (optIndex : nat)
    (p : Pen) :
  penInMargins p ->
  penInMargins (printOptions i optIndex opts p)
  /\ drawWhat <$> penLog (printOptions i optIndex opts p)
     = (drawWhat <$> penLog p)
       ++ (PrintOption i <$> seq optIndex (length opts)).
Proof.
  revert optIndex p. induction opts as [|o opts IH]; intros optIndex p Hp.
  - simpl. rewrite app_nil_r. split; [exact Hp | reflexivity].
  - simpl printOptions. destruct Hp as [Hy Hlog].
    destruct (breakIfBelow_cursor 280 p ltac:(lia) Hy) as [Hc Hl].
    destruct (IH (S optIndex)
                (advance 6 (printAtCursor (PrintOption i optIndex)
                              (breakIfBelow 280 p)))) as [Hinv Hwhat].
    { split; simpl; [lia|]. rewrite Hl. apply Forall_app.
      split; [exact Hlog|]. constructor; [|constructor].
      unfold drawInMargins. simpl. lia. }
    split; [exact Hinv|]. rewrite Hwhat. simpl. rewrite Hl.
    rewrite fmap_app, <- app_assoc. reflexivity.
Qed.

Lemma printQuestions_spec (qs : list Question) (i : nat) (p : Pen) :
  penInMargins p ->
  penInMargins (printQuestions questionLines i qs p)
  /\ drawWhat <$> penLog (printQuestions questionLines i qs p)
     = (drawWhat <$> penLog p)
       ++ concat (imap (fun j q => questionPrints (i + j) q) qs).
Proof.
  revert i p. induction qs as [|q qs IH]; intros i p Hp.
  - simpl. rewrite app_nil_r. split; [exact Hp | reflexivity].
  - simpl printQuestions. destruct Hp as [Hy Hlog].
    destruct (breakIfBelow_cursor 270 p ltac:(lia) Hy) as [Hc Hl].
    set (p2 := advance (Z.of_nat (questionLines i q) * 6)
                 (printAtCursor (PrintQuestion i) (breakIfBelow 270 p))).
    assert (Hp2 : penInMargins p2).
    { split; simpl; [lia|]. rewrite Hl. apply Forall_app.
      split; [exact Hlog|]. constructor; [|constructor].
      unfold drawInMargins. simpl. lia. }
    destruct (printOptions_spec i (options q) 0 p2 Hp2) as [Hp3 Hw3].
    destruct (IH (S i) (advance 6 (printOptions i 0 (options q) p2)))
      as [Hinv Hwhat].
    { destruct Hp3 as [Hy3 Hlog3]. split; simpl; [lia | exact Hlog3]. }
    split; [exact Hinv|]. rewrite Hwhat. simpl penLog. rewrite Hw3.
    unfold p2. simpl penLog. rewrite Hl, fmap_app. simpl.
    rewrite <- !app_assoc. f_equal. simpl.
    replace (i + 0)%nat with i by lia. unfold questionPrints at 2.
    simpl. do 3 f_equal.
    apply imap_ext. intros j q' _. simpl. unfold questionPrints.
    replace (i + S j)%nat with (S (i + j)) by lia. reflexivity.
Qed.

Lemma printKey_spec (qs : list Question) (i : nat) (p : Pen) :
  penInMargins p ->
  penInMargins (printKey explanationLines i qs p)
  /\ drawWhat <$> penLog (printKey explanationLines i qs p)
     = (drawWhat <$> penLog p)
       ++ concat (imap (fun j q => keyPrints (i + j) q) qs).
Proof.
  revert i p. induction qs as [|q qs IH]; intros i p Hp.
  - simpl. rewrite app_nil_r. split; [exact Hp | reflexivity].
  - simpl printKey. destruct Hp as [Hy Hlog].
    destruct (breakIfBelow_cursor 260 p ltac:(lia) Hy) as [Hc Hl].
    set (p1 := printAtCursor (PrintKey i) (breakIfBelow 260 p)).
    assert (Hp1 : penInMargins p1 /\ penY p1 <= 260).
    { split; [|simpl; lia]. split; simpl; [lia|]. rewrite Hl.
      apply Forall_app. split; [exact Hlog|]. constructor; [|constructor].
      unfold drawInMargins. simpl. lia. }
    destruct Hp1 as [[Hy1 Hlog1] Hle1].
    set (p2 := if hasExplanation q
               then advance (Z.of_nat (explanationLines q) * 5 + 8)
                      (printAtCursor (PrintExplanation i) (advance 5 p1))
               else advance 10 p1).
    assert (Hp2 : penInMargins p2
                  /\ drawWhat <$> penLog p2
                     = (drawWhat <$> penLog p) ++ keyPrints i q).
    { unfold p2, keyPrints. destruct (hasExplanation q).
      - split.
        + split; simpl; [lia|]. apply Forall_app. split.
          * rewrite Hl. apply Forall_app. split; [exact Hlog|].
            constructor; [|constructor]. unfold drawInMargins. simpl. lia.
          * constructor; [|constructor]. unfold drawInMargins. simpl. lia.
        + simpl. rewrite Hl, !fmap_app, <- app_assoc. reflexivity.
      - split.
        + split; simpl; [lia | exact Hlog1].
        + simpl. rewrite Hl, fmap_app. reflexivity. }
    destruct Hp2 as [Hp2 Hw2].
    destruct (IH (S i) p2 Hp2) as [Hinv Hwhat].
    split; [exact Hinv|]. rewrite Hwhat, Hw2. simpl.
    rewrite <- !app_assoc. f_equal.
    replace (i + 0)%nat with i by lia.
    change (PrintKey i
            :: (if hasExplanation q then [PrintExplanation i] else []) ++ ?r)
      with (keyPrints i q ++ r).
    do 2 f_equal.
    apply imap_ext. intros j q' _. simpl.
    replace (i + S j)%nat with (S (i + j)) by lia. reflexivity.
Qed.

Lemma imap_const_seq {A B : Type} (g : nat -> B) (l : list A) (k : nat) :
  imap (fun j _ => g (k + j)%nat) l = g <$> seq k (length l).
Proof.
  revert k. induction l as [|x l IH]; intros k; [reflexivity|].
  simpl. replace (k + 0)%nat with k by lia. f_equal.
  rewrite <- IH. apply imap_ext. intros j y _. simpl. f_equal. lia.
Qed.
End PaperFacts.

(** X22.  The question paper prints the heading, every question followed by
    each of its options, and on a new page the answer key with the
    explanations that exist, each once and in order; however the
    texts wrap, no text starts above the top margin of 20 or below the
    height the source sets for its kind (270 for a question, 280 for
    an option, 260 for a line of the key, 265 for an explanation). *)
Theorem X22_question_paper_layout (questionLines : nat -> Question -> nat)
    (explanationLines : Question -> nat) (quiz : Quiz) :
  let draws := downloadPDF questionLines explanationLines quiz in
  drawWhat <$> draws = paperContents quiz
  /\ Forall (fun d => 20 <= drawY d <= lowestStart (drawWhat d)) draws.
Proof.
  intros draws. subst draws. unfold downloadPDF.
  set (p0 := mkPen 0 45 _).
  assert (Hp0 : penInMargins p0).
  { split; simpl; [lia|].
    repeat constructor; unfold drawInMargins; simpl; lia. }
  destruct (printQuestions_spec questionLines (questions quiz) 0 p0 Hp0)
    as [[Hy1 Hlog1] Hw1].
  set (p1 := printQuestions questionLines 0 (questions quiz) p0) in *.
  set (p2 := mkPen (S (penPage p1)) 40 _).
  assert (Hp2 : penInMargins p2).
  { split; simpl; [lia|]. apply Forall_app. split; [exact Hlog1|].
    constructor; [|constructor]. unfold drawInMargins. simpl. lia. }
  destruct (printKey_spec explanationLines (questions quiz) 0 p2 Hp2)
    as [[Hy3 Hlog3] Hw3].
  split; [|exact Hlog3].
  rewrite Hw3. unfold p2. simpl penLog. rewrite fmap_app, Hw1.
  unfold paperContents. simpl. do 3 f_equal.
  rewrite <- app_assoc. simpl. f_equal. f_equal.
  apply imap_ext. intros i q _. simpl.
  unfold questionPrints. f_equal. symmetry.
  apply (imap_const_seq (PrintOption i) (options q) 0).
Qed.

(** ** Durations *)

(** X23.  A duration typed into the editor is stored as typed unless the
    field is empty, not a number or zero, for which ten minutes are
    stored; the stored duration is never zero, so a session started
    from the edited quiz gets exactly that many minutes, and a quiz
    fresh from the generator gets ten. *)
Theorem X23_typed_duration_reaches_the_clock (parsed : option Z) (e : Editor)
    (quiz : Quiz) (env : Env) (s : App) (tenv : TeacherEnv)
    (level : Difficulty) (title : string) (subject : option string)
    (qs : list Question) :
  generatedQuiz e = Some quiz ->
  isEmpty (trim (app_studentName s)) = false ->
  exists d,
    generatedQuiz (updateDuration parsed e)
      = Some (withDuration (Some d) quiz)
    /\ d <> 0
    /\ (parsed = None \/ parsed = Some 0 -> d = 10)
    /\ (forall z, parsed = Some z -> z <> 0 -> d = z)
    /\ app_timeLeft (step env (EvStart (withDuration (Some d) quiz)) s)
       = d * 60
    /\ app_timeLeft
         (step env (EvStart (quizOfData tenv level title subject qs)) s)
       = 600.
Proof.
  intros Hq Hname. exists (orDefault parsed 10).
  unfold updateDuration. rewrite Hq. simpl.
  split; [reflexivity|].
  assert (Hnz : orDefault parsed 10 <> 0)
    by (destruct parsed as [[| |]|]; simpl; lia).
  split; [exact Hnz|].
  split; [intros [-> | ->]; reflexivity|].
  split; [intros z -> Hz; destruct z; simpl; congruence|].
  split.
  - destruct (start_session_state env (withDuration
                (Some (orDefault parsed 10)) quiz) s Hname) as [Es E].
    rewrite Es, E. simpl.
    destruct (orDefault parsed 10) eqn:Ho; simpl; congruence.
  - destruct (start_session_state env
                (quizOfData tenv level title subject qs) s Hname)
      as [Es E].
    rewrite Es, E. reflexivity.
Qed.

(** ** The counter of answered questions *)

(** X24.  In every reachable quiz view the submit button is enabled
    exactly when the counter "n of m answered" shows every question
    answered, that is when the number of slots other than [-1] equals
    the number of questions of the active quiz. *)
Theorem X24_submit_enabled_iff_all_counted (name : string) (s : App) :
  reaches (initialApp name) s ->
  app_view s = student_quiz ->
  exists quiz,
    app_activeQuiz s = Some quiz
    /\ (answeredCount (app_answers s) <= length (questions quiz))%nat
    /\ (isFinished s = true
        <-> answeredCount (app_answers s) = length (questions quiz)).
Proof.
  intros Hr Hv.
  destruct (clientInvariant_reaches name s Hr) as (w & Hquiz & _).
  destruct (Hquiz Hv) as (quiz & Hq & Hlen).
  exists quiz. split; [exact Hq|]. unfold answeredCount. rewrite <- Hlen.
  split; [apply filter_length_le|].
  rewrite filter_length_full. unfold isFinished.
  rewrite forallb_forall. reflexivity.
Qed.

End FurtherProperties.
(** * The further properties on sample data *)

(** X4, on the sample data. *)
Lemma X4_formatTime_two_digits_injective_witness :
  formatTime 65 = "1:05" /\ (formatTime 65 = formatTime 65 -> 65 = 65).
Proof.
  destruct (X4_formatTime_two_digits_injective 65 65) as (Hshape & _ & Hinj);
    [lia | lia |].
  split; [rewrite Hshape; reflexivity | exact Hinj].
Defined.

(** X5, on the sample data. *)
Lemma X5_select_overwrites_one_slot_witness :
  app_answers
    (step onlineEnv (EvSelect 1 3)
       (step onlineEnv (EvStart sampleQuiz) (initialApp "Asha")))
  !! 1%nat = Some 3.
Proof.
  apply (X5_select_overwrites_one_slot (js := asciiStrings) onlineEnv onlineEnv 1 3 0
           (step onlineEnv (EvStart sampleQuiz) (initialApp "Asha"))).
  - reflexivity.
  - vm_compute. lia.
Defined.

(** X6, on the sample data. *)
Lemma X6_timer_submits_after_timeLeft_ticks_witness :
  app_view
    (ticks (replicate 59 offlineEnv ++ [onlineEnv])
       (step onlineEnv (EvStart sampleQuiz) (initialApp "Asha")))
  = student_result.
Proof.
  destruct (X6_timer_submits_after_timeLeft_ticks
              (step onlineEnv (EvStart sampleQuiz) (initialApp "Asha"))
              sampleQuiz (replicate 59 offlineEnv) onlineEnv)
    as [_ H]; [reflexivity..|].
  rewrite H. reflexivity.
Defined.

(** X7, on the sample data. *)
Lemma X7_rejected_timeout_is_not_retried_witness :
  let s59 := ticks (replicate 59 offlineEnv)
               (step offlineEnv (EvStart sampleQuiz) (initialApp "Asha")) in
  ticks (replicate 5 onlineEnv) (step offlineEnv EvTick s59)
  = step offlineEnv EvTick s59.
Proof.
  intros s59.
  destruct (X7_rejected_timeout_is_not_retried offlineEnv s59
              sampleQuiz "offline")
    as (_ & _ & _ & Hticks & _); [reflexivity..|].
  exact (Hticks (replicate 5 onlineEnv)).
Defined.

(** X8, on the sample data. *)
Lemma X8_negative_duration_never_times_out_witness :
  let quiz := mkQuiz "quizN" "Tenses" None Medium [sampleQuestion 1]
                (Some (-5)) None 0 in
  ticks (replicate 3 onlineEnv)
    (step onlineEnv (EvStart quiz) (initialApp "Asha"))
  = step onlineEnv (EvStart quiz) (initialApp "Asha").
Proof.
  intros quiz.
  apply (X8_negative_duration_never_times_out (js := asciiStrings) onlineEnv quiz
           (initialApp "Asha") (-5) (replicate 3 onlineEnv));
    [reflexivity | reflexivity | lia].
Defined.

Lemma sampleStarted_settled :
  reachesSettled (initialApp "Asha") sampleStarted.
Proof.
  apply settled_step; [apply settled_refl|]. reflexivity.
Qed.

Lemma sampleAnswered_settled :
  reachesSettled (initialApp "Asha") sampleAnswered.
Proof.
  unfold sampleAnswered.
  repeat (apply settled_step;
          [| split; [reflexivity|];
             exists sampleQuiz; eexists;
             split; [reflexivity|]; split; [reflexivity|]; simpl; lia]).
  apply sampleStarted_settled.
Qed.

Lemma sampleSubmitted_settled :
  reachesSettled (initialApp "Asha") sampleSubmitted.
Proof.
  apply settled_step; [apply sampleAnswered_settled|].
  split; [reflexivity|]. split; [eexists; reflexivity | reflexivity].
Qed.

Lemma sampleAnswered_reached : reaches (initialApp "Asha") sampleAnswered.
Proof. apply reachesSettled_reaches, sampleAnswered_settled. Qed.

Lemma sampleSubmitted_reached : reaches (initialApp "Asha") sampleSubmitted.
Proof. apply reachesSettled_reaches, sampleSubmitted_settled. Qed.

Lemma sampleLateChoice_runs :
  runs (mkClient (initialApp "Asha") []) sampleLateChoice.
Proof.
  unfold sampleLateChoice.
  apply runs_step; [apply runs_step; [apply runs_step|]|].
  - apply reachesSettled_runs, sampleAnswered_settled.
  - split; [reflexivity|]. split; [eexists; reflexivity | reflexivity].
  - split; [reflexivity|].
    exists sampleQuiz; eexists.
    split; [reflexivity|]. split; [reflexivity|]. simpl. lia.
  - eexists. reflexivity.
Qed.

Lemma sampleLateChoice_reached :
  reaches (initialApp "Asha") (shown sampleLateChoice).
Proof. exists []. exact sampleLateChoice_runs. Qed.

(** An option chosen while the write of the result is on its way
    changes the review and not the score: the result view then shows
    2 of 3 above a review that marks all three questions as
    correct. *)
Lemma late_choice_example :
  reaches (initialApp "Asha") (shown sampleLateChoice)
  /\ app_view (shown sampleLateChoice) = student_result
  /\ app_currentResult (shown sampleLateChoice)
     = Some (mkResult "doc1" "quiz1" "Asha" 2 3 1700000000000)
  /\ app_answers (shown sampleLateChoice) = [1; 0; 2]
  /\ length (List.filter
               (correctAt sampleQuiz (app_answers (shown sampleLateChoice)))
               (questionIndices sampleQuiz)) = 3%nat.
Proof.
  split; [apply sampleLateChoice_reached|]. repeat split; reflexivity.
Qed.

(** X9, on the sample data. *)
Lemma X9_quiz_view_has_slot_per_question_witness :
  exists quiz, app_activeQuiz sampleAnswered = Some quiz
               /\ length (app_answers sampleAnswered)
                  = length (questions quiz).
Proof.
  apply (X9_quiz_view_has_slot_per_question "Asha" sampleAnswered).
  - apply sampleAnswered_reached.
  - reflexivity.
Defined.

(** X10, on the sample data. *)
Lemma X10_result_view_shows_written_result_witness :
  exists r, app_currentResult (shown sampleLateChoice) = Some r
            /\ (score r <= total r)%nat.
Proof.
  destruct (X10_result_view_shows_written_result "Asha"
              (shown sampleLateChoice)) as [Hview _].
  - apply sampleLateChoice_reached.
  - destruct Hview as (quiz & r & _ & Hr & _ & Hle); [reflexivity|].
    exists r. split; [exact Hr | exact Hle].
Defined.

(** X11, on the sample data. *)
Lemma X11_written_scores_within_total_witness : (2 <= 3)%nat.
Proof.
  apply (X11_written_scores_within_total "Asha" sampleSubmitted
           (mkResult "doc1" "quiz1" "Asha" 2 3 1700000000000)).
  - apply sampleSubmitted_reached.
  - apply list_elem_of_In. vm_compute. tauto.
Defined.

(** X14, on the sample data. *)
Lemma X14_leaderboard_first_rank_is_best_witness : (2 <= 3)%nat.
Proof.
  apply (X14_leaderboard_first_rank_is_best sampleResults "quiz1"
           (mkResult "c" "quiz1" "Ravi" 3 3 200)
           (mkResult "a" "quiz1" "Asha" 2 3 300)).
  - reflexivity.
  - apply list_elem_of_In. vm_compute. tauto.
  - reflexivity.
Defined.

(** X16, on the sample data. *)
Lemma X16_badges_ignore_case_witness :
  calculateStreak (fixedZone 0) (3 * msPerDay + 500) "ASHA" streakResults
  = calculateStreak (fixedZone 0) (3 * msPerDay + 500) "asha" streakResults.
Proof.
  apply (X16_badges_ignore_case "ASHA" "asha" streakResults (fixedZone 0)
           (3 * msPerDay + 500)).
  reflexivity.
Defined.

(** X19, on the sample data. *)
Lemma X19_removeQuestion_keeps_one_witness :
  exists quiz',
    removeQuestion 1 sampleEditor = mkEditor (Some quiz') None
    /\ questions quiz' = [sampleQuestion 1; sampleQuestion 2].
Proof.
  destruct (X19_removeQuestion_keeps_one 1 sampleEditor sampleQuiz eq_refl)
    as [_ H].
  destruct H as (quiz' & Hr & Hqs & _); [simpl; lia|].
  exists quiz'. split; [exact Hr | exact Hqs].
Defined.

Lemma sampleQuiz_valid : valid_quiz sampleQuiz.
Proof.
  unfold valid_quiz, sampleQuiz. simpl.
  repeat constructor; simpl; lia.
Qed.

(** X20, on the sample data. *)
Lemma X20_editor_keeps_quiz_valid_witness :
  exists quiz,
    applyEdit AddQuestion sampleEditor = Edited (mkEditor (Some quiz) None)
    /\ questions quiz <> [] /\ valid_quiz quiz.
Proof.
  destruct (X20_editor_keeps_quiz_valid sampleEditor
              (addQuestion sampleEditor) sampleQuiz eq_refl)
    as [(quiz & Hq & Hne & Hv) _].
  - discriminate.
  - apply sampleQuiz_valid.
  - apply (editReaches_step sampleEditor sampleEditor _ AddQuestion).
    + apply editReaches_refl.
    + exists sampleQuiz. split; [reflexivity | exact I].
    + reflexivity.
  - exists quiz. split; [|split; assumption].
    simpl in Hq. injection Hq as <-. reflexivity.
Defined.

(** X21, on the sample data. *)
Lemma X21_no_request_without_password_witness :
  t_requests
    (teacherRun
       [ (mkTeacherEnv 0 "u" GenNoText (DocRef "d") true true,
          TypePassword "teacher");
         (mkTeacherEnv 0 "u" GenNoText (DocRef "d") true true,
          SubmitPassword);
         (mkTeacherEnv 0 "u" GenNoText (DocRef "d") true true,
          Delete "quizzes" "quiz1") ]
       initialTeacher)
  = [].
Proof.
  destruct (X21_no_request_without_password
              [ (mkTeacherEnv 0 "u" GenNoText (DocRef "d") true true,
                 TypePassword "teacher");
                (mkTeacherEnv 0 "u" GenNoText (DocRef "d") true true,
                 SubmitPassword);
                (mkTeacherEnv 0 "u" GenNoText (DocRef "d") true true,
                 Delete "quizzes" "quiz1") ]
              initialTeacher) as [Hlocked _].
  destruct Hlocked as [_ Hreq].
  - reflexivity.
  - discriminate.
  - intros env Hin. apply list_elem_of_In in Hin. simpl in Hin.
    destruct Hin as [H|[H|[H|[]]]]; discriminate.
  - exact Hreq.
Defined.

(** X23, on the sample data. *)
Lemma X23_typed_duration_reaches_the_clock_witness :
  app_timeLeft
    (step onlineEnv (EvStart (withDuration (Some 10) sampleQuiz))
       (initialApp "Asha")) = 600.
Proof.
  destruct (X23_typed_duration_reaches_the_clock (js := asciiStrings) (Some 0) sampleEditor
              sampleQuiz onlineEnv (initialApp "Asha")
              (mkTeacherEnv 0 "u" GenNoText (DocRef "d") true true)
              Easy "t" None [] eq_refl eq_refl)
    as (d & _ & _ & Hten & _ & Hclock & _).
  rewrite (Hten (or_intror eq_refl)) in Hclock. exact Hclock.
Defined.

(** X24, on the sample data. *)
Lemma X24_submit_enabled_iff_all_counted_witness :
  exists quiz,
    app_activeQuiz sampleAnswered = Some quiz
    /\ answeredCount (app_answers sampleAnswered) = length (questions quiz).
Proof.
  destruct (X24_submit_enabled_iff_all_counted "Asha" sampleAnswered)
    as (quiz & Hq & _ & Hiff).
  - apply sampleAnswered_reached.
  - reflexivity.
  - exists quiz. split; [exact Hq|]. apply Hiff. reflexivity.
Defined.
